(** * Employee CRUD API: a shallow embedding of the request handlers

    The development follows the Python sources:
    - [company_basic/api/employee_api.py]: the hand-written schemas and
      the five view functions over the ORM;
    - [company_ninja_crud/api/employee_api.py]: the schemas of the
      scaffolded variant (its views are generated by the toolkit);
    - [company_ninja_crud/auth.py]: the bearer-token check.

    Framework behaviour the sources rely on (schema validation, the ORM's
    row and relation operations, [str.split]) is written out as small
    executable functions next to the code that calls it. *)

From stdpp Require Import gmap strings list fin_maps sorting.
From Stdlib Require Import ZArith NArith Ascii.

Local Open Scope Z_scope.
#[local] Set Warnings "-clear-no-such-hyp".

(** ** Python text

    A Python [str] is a sequence of Unicode code points. *)
Module Text.

Abbreviation str := (list N).

Definition chr (c : ascii) : N := N_of_ascii c.

(** A literal of the source, as a [str]. *)
Definition text (s : string) : str := chr <$> String.list_ascii_of_string s.

(** The code points with the Unicode White_Space property: what the schema
    validator's [str_strip_whitespace] removes. *)
Definition is_whitespace (c : N) : bool :=
  (((9 <=? c) && (c <=? 13)) || (c =? 32) || (c =? 133) || (c =? 160)
   || (c =? 5760) || ((8192 <=? c) && (c <=? 8202)) || (c =? 8232)
   || (c =? 8233) || (c =? 8239) || (c =? 8287) || (c =? 12288))%N.

Fixpoint lstrip (s : str) : str :=
  match s with
  | c :: s' => if is_whitespace c then lstrip s' else s
  | [] => []
  end.

Definition rstrip (s : str) : str := reverse (lstrip (reverse s)).

Definition strip (s : str) : str := rstrip (lstrip s).

(** [s.split(sep)] for a one-character separator: every occurrence of
    [sep] cuts, so the result has one more part than [s] has separators. *)
Fixpoint split (sep : N) (s : str) : list str :=
  match s with
  | [] => [[]]
  | c :: s' =>
      if (c =? sep)%N then [] :: split sep s'
      else match split sep s' with
           | part :: parts => (c :: part) :: parts
           | [] => [[c]]
           end
  end.

End Text.

Import Text.

(** ** Dates and request payloads *)

Record date := Date { year : Z; month : Z; day : Z }.

Global Instance date_eq_dec : EqDecision date.
Proof. solve_decision. Defined.

(** A decoded JSON value. The body of a request is a JSON object, kept as
    a finite map from its keys. *)
#[local] Unset Elimination Schemes.
Inductive json :=
  | JNull
  | JBool (b : bool)
  | JNum (n : Z)
  | JStr (s : str)
  | JArr (items : list json)
  | JObj (members : list (string * json)).
#[local] Set Elimination Schemes.

Abbreviation payload := (gmap string json).

(** ** Schema validation

    The schemas are declared field by field; validation looks every field
    up under its wire name (its alias when it has one), validates the value
    found, and falls back to the declared default when the key is absent.
    A field declared with [...] has no default. Keys that name no field
    are ignored. A failed validation is [None] (the framework answers it
    with an HTTP 422 before the view runs). *)
Module pydantic.

(** How a value is coerced to [int] and to [date] is the validator's
    business; the schemas only name the types. *)
Class Coercions := {
  int_validator : json → option Z;
  date_validator : json → option date;
}.

(** [str] with [str_strip_whitespace=True]. *)
Definition str_validator (v : json) : option str :=
  match v with
  | JStr s => Some (strip s)
  | _ => None
  end.

Definition list_validator {A} (item : json → option A) (v : json) : option (list A) :=
  match v with
  | JArr items => mapM item items
  | _ => None
  end.

(** The outcome for one field: [None] is a validation error,
    [Some None] an absent key, [Some (Some a)] a validated value. *)
Definition field {A} (validator : json → option A) (key : string) (data : payload)
  : option (option A) :=
  match data !! key with
  | None => Some None
  | Some v => Some <$> validator v
  end.

(** [name: T] and [name: T = Field(...)]. *)
Definition required {A} (validator : json → option A) (key : string) (data : payload)
  : option A :=
  mjoin (field validator key data).

(** [name: T = default]. *)
Definition with_default {A} (validator : json → option A) (key : string) (dflt : A)
    (data : payload) : option A :=
  default dflt <$> field validator key data.

End pydantic.

(** ** The basic variant *)
Module company_basic.

(** *** Models and the ORM calls the views make *)
Module models.

(** [company_basic/models.py] is not among the sources; the seed command
    builds its models with the same fields as those of
    [company_ninja_crud/models.py]. *)
Module Department.
(** Modelled from the spec: { id, title }. *)
Record t := Build { id : Z; title : str }.
End Department.

Module Project.
(** Modelled from the spec: { id, title, department_id }, owned by exactly
    one department. *)
Record t := Build { id : Z; title : str; department_id : Z }.
End Project.

Module Employee.
(** Modelled from the spec: { id, first_name, last_name, birthdate
    (optional), department_id }, the department reference optional in this
    variant. The many-to-many [projects] relation is the join table
    [Employee_projects] of the database. *)
Record t := Build {
  id : Z;
  first_name : str;
  last_name : str;
  birthdate : option date;
  department_id : option Z;
}.
End Employee.

(** The tables. A table is a finite map from primary keys to rows; the
    many-to-many relation is its join table, a set of
    (employee id, project id) pairs; [Employee_seq] is the last primary
    key the employee table handed out. *)
Record Database := Build_Database {
  Department_objects : gmap Z Department.t;
  Project_objects : gmap Z Project.t;
  Employee_objects : gmap Z Employee.t;
  Employee_projects : gset (Z * Z);
  Employee_seq : Z;
}.

Definition with_employees (f : gmap Z Employee.t → gmap Z Employee.t) (db : Database) :=
  Build_Database (Department_objects db) (Project_objects db)
    (f (Employee_objects db)) (Employee_projects db) (Employee_seq db).

Definition with_employee_projects (f : gset (Z * Z) → gset (Z * Z)) (db : Database) :=
  Build_Database (Department_objects db) (Project_objects db)
    (Employee_objects db) (f (Employee_projects db)) (Employee_seq db).

Definition with_employee_seq (n : Z) (db : Database) :=
  Build_Database (Department_objects db) (Project_objects db)
    (Employee_objects db) (Employee_projects db) n.

(** The source asks for no ordering of its queries (the models have no
    [Meta.ordering], the views no [order_by]): the related project ids and
    the rows of the employee table come in the order the database
    chooses, which is some arrangement of them. *)
Class QueryOrder := {
  related_order : gset Z → list Z;
  related_order_perm (ids : gset Z) : related_order ids ≡ₚ elements ids;
  table_order : gmap Z Employee.t → list Employee.t;
  table_order_perm (rows : gmap Z Employee.t) : table_order rows ≡ₚ (map_to_list rows).*2;
}.

(** What a view can raise. *)
Inductive exn := Http404 | IntegrityError | OverflowError.

(** An integer column holds a signed 64-bit value; the database driver
    raises [OverflowError] on any other integer it is handed, before the
    statement runs. *)
Definition fits_column (v : Z) : bool := (- 2 ^ 63 <=? v) && (v <? 2 ^ 63).

(** What a reference to [v], which is no row of the table referred to,
    raises: the foreign key is violated if the column can hold [v] at
    all. (A key that is in a table fits its column.) *)
Definition reference_error (v : Z) : exn :=
  if fits_column v then IntegrityError else OverflowError.

Definition department_error (department_id : option Z) : exn :=
  from_option reference_error IntegrityError department_id.

(** The persistence calls, for the record of what a view did. *)
Inductive orm_call := Get | Create | Save | M2MSet | Delete.

(** A view runs against the database in autocommit mode: every ORM call
    takes effect when it returns, and an exception ends the view with the
    database as the calls before it left it. *)
Record outcome (A : Type) := Outcome {
  returned : exn + A;
  stored : Database;
  calls : list orm_call;
}.
Arguments Outcome {A}.
Arguments returned {A}.
Arguments stored {A}.
Arguments calls {A}.

Definition ORM (A : Type) : Type := Database → outcome A.

Definition orm_ret {A} (a : A) : ORM A := λ db, Outcome (inr a) db [].

Definition orm_bind {A B} (f : A → ORM B) (m : ORM A) : ORM B := λ db,
  let o := m db in
  match returned o with
  | inl e => Outcome (inl e) (stored o) (calls o)
  | inr a => let o' := f a (stored o) in
             Outcome (returned o') (stored o') (calls o ++ calls o')
  end.

Global Instance ORM_ret : MRet ORM := @orm_ret.
Global Instance ORM_bind : MBind ORM := @orm_bind.

(** A foreign key [department_id] may be null or must name a department. *)
Definition department_fk_ok (db : Database) (department_id : option Z) : bool :=
  match department_id with
  | None => true
  | Some d => bool_decide (is_Some (Department_objects db !! d))
  end.

(** [Employee.objects.create(...)]. *)
Definition Employee_objects_create (first_name last_name : str)
    (department_id : option Z) (birthdate : option date) : ORM Employee.t := λ db,
  if department_fk_ok db department_id then
    let pk := Employee_seq db + 1 in
    let employee := Employee.Build pk first_name last_name birthdate department_id in
    Outcome (inr employee)
      (with_employee_seq pk (with_employees (insert pk employee) db)) [Create]
  else Outcome (inl (department_error department_id)) db [Create].

(** [get_object_or_404(Employee..., id=id)]. *)
Definition get_object_or_404 (id : Z) : ORM Employee.t := λ db,
  match Employee_objects db !! id with
  | Some employee => Outcome (inr employee) db [Get]
  | None => Outcome (inl Http404) db [Get]
  end.

(** [instance.save()]. *)
Definition save (instance : Employee.t) : ORM () := λ db,
  if department_fk_ok db (Employee.department_id instance) then
    Outcome (inr ()) (with_employees (insert (Employee.id instance) instance) db) [Save]
  else Outcome (inl (department_error (Employee.department_id instance))) db [Save].

(** The ids of [instance.projects.all()], as a set. *)
Definition related_ids (db : Database) (employee_id : Z) : gset Z :=
  set_map snd (filter (λ row, row.1 = employee_id) (Employee_projects db)).

(** [instance.projects.set(objs)] walks [objs] against the ids currently
    related: an id already related is struck from [old_ids], any other is
    queued in [new_objs]. *)
Fixpoint set_partition (objs : list Z) (old_ids : gset Z) : gset Z * list Z :=
  match objs with
  | [] => (old_ids, [])
  | fk_val :: objs' =>
      if decide (fk_val ∈ old_ids)
      then set_partition objs' (old_ids ∖ {[fk_val]})
      else let '(old_ids', new_objs) := set_partition objs' old_ids in
           (old_ids', fk_val :: new_objs)
  end.

(** [manager.remove] of [ids]: the join rows of the employee to [ids] go. *)
Definition m2m_remove (employee_id : Z) (ids : gset Z) (rows : gset (Z * Z)) : gset (Z * Z) :=
  filter (λ row, ¬ (row.1 = employee_id ∧ row.2 ∈ ids)) rows.

(** [manager.add] of [objs]: the target ids not yet related get a join row. *)
Definition m2m_missing (db : Database) (employee_id : Z) (objs : list Z) : gset Z :=
  list_to_set objs ∖ related_ids db employee_id.

Definition m2m_add (employee_id : Z) (missing : gset Z) (rows : gset (Z * Z)) : gset (Z * Z) :=
  rows ∪ set_map (λ project_id, (employee_id, project_id)) missing.

(** What inserting join rows to [missing] raises when not all of them are
    projects: [OverflowError] if one of those does not fit the column, the
    foreign key violation otherwise. *)
Definition projects_error (db : Database) (missing : gset Z) : exn :=
  if bool_decide (set_Forall (λ p, is_Some (Project_objects db !! p) ∨ fits_column p) missing)
  then IntegrityError else OverflowError.

(** [instance.projects.set(objs)], run by the ORM in a transaction of its
    own: a join row to a project that does not exist cannot be inserted,
    and then nothing of the call is kept. *)
Definition projects_set (instance : Employee.t) (objs : list Z) : ORM () := λ db,
  let employee_id := Employee.id instance in
  let '(old_ids, new_objs) := set_partition objs (related_ids db employee_id) in
  let removed := with_employee_projects (m2m_remove employee_id old_ids) db in
  let missing := m2m_missing removed employee_id new_objs in
  if bool_decide (set_Forall (λ p, is_Some (Project_objects db !! p)) missing) then
    Outcome (inr ()) (with_employee_projects (m2m_add employee_id missing) removed) [M2MSet]
  else Outcome (inl (projects_error db missing)) db [M2MSet].

(** [instance.delete()]: the row goes, and its join rows with it. *)
Definition delete (instance : Employee.t) : ORM () := λ db,
  let pk := Employee.id instance in
  Outcome (inr ())
    (with_employees (base.delete pk)
       (with_employee_projects (filter (λ row, row.1 ≠ pk)) db)) [Delete].

End models.

(** *** [company_basic/api/employee_api.py] *)
Module employee_api.

Import models pydantic.

Module EmployeeResponse.
Record t := Build {
  id : Z;
  first_name : str;
  last_name : str;
  department_id : Z;
  project_ids : list Z;
  birthdate : date;
}.

(** [[p.id for p in obj.projects.all()]]: the related ids, in the order
    the database returns them. *)
Definition resolve_project_ids `{QueryOrder} (db : Database) (obj : Employee.t) : list Z :=
  related_order (related_ids db (Employee.id obj)).

(** The schema read from a model instance. [department_id: int = None]
    and [birthdate: date = None] give the two fields a default, not a type
    that admits [None]: an instance whose department or birthdate is
    [None] does not validate. *)
Definition from_orm `{QueryOrder} (db : Database) (obj : Employee.t) : option t :=
  department_id ← Employee.department_id obj;
  birthdate ← Employee.birthdate obj;
  Some (Build (Employee.id obj) (Employee.first_name obj) (Employee.last_name obj)
          department_id (resolve_project_ids db obj) birthdate).
End EmployeeResponse.

Module EmployeeRequest.
Record t := Build {
  first_name : str;
  last_name : str;
  department_id : option Z;
  project_ids : list Z;
  birthdate : option date;
}.

Definition model_validate `{Coercions} (data : payload) : option t :=
  first_name ← required str_validator "first_name" data;
  last_name ← required str_validator "last_name" data;
  department_id ← field int_validator "department_id" data;
  project_ids ← with_default (list_validator int_validator) "project_ids" [] data;
  birthdate ← field date_validator "birthdate" data;
  Some (Build first_name last_name department_id project_ids birthdate).
End EmployeeRequest.

(** Every field defaults to [None], and no field type admits [None] as a
    value: a field is [Some v] exactly when the payload set it, which is
    what [model_dump(exclude_unset=True)] keeps. *)
Module EmployeeUpdateRequest.
Record t := Build {
  first_name : option str;
  last_name : option str;
  department_id : option Z;
  project_ids : option (list Z);
  birthdate : option date;
}.

Definition model_validate `{Coercions} (data : payload) : option t :=
  first_name ← field str_validator "first_name" data;
  last_name ← field str_validator "last_name" data;
  department_id ← field int_validator "department_id" data;
  project_ids ← field (list_validator int_validator) "project_ids" data;
  birthdate ← field date_validator "birthdate" data;
  Some (Build first_name last_name department_id project_ids birthdate).

(** [provided_data.get(key, dflt)] on the dump of the set fields. *)
Definition get {A} (provided : option A) (dflt : A) : A := default dflt provided.
End EmployeeUpdateRequest.

(** Truth value of [provided_data.get("project_ids", None)]: [None] and
    the empty list are false. *)
Definition truthy (project_ids : option (list Z)) : option (list Z) :=
  match project_ids with
  | Some (_ :: _) => project_ids
  | _ => None
  end.

Definition create_employee (data : EmployeeRequest.t) : ORM Employee.t :=
  employee ← Employee_objects_create
    (EmployeeRequest.first_name data)
    (EmployeeRequest.last_name data)
    (EmployeeRequest.department_id data)
    (EmployeeRequest.birthdate data);
  projects_set employee (EmployeeRequest.project_ids data);;
  mret employee.

Definition get_employee (id : Z) : ORM Employee.t :=
  get_object_or_404 id.

(** The four assignments to [instance] from [provided_data]. *)
Definition assign_provided (instance : Employee.t) (provided_data : EmployeeUpdateRequest.t)
  : Employee.t :=
  Employee.Build (Employee.id instance)
    (EmployeeUpdateRequest.get (EmployeeUpdateRequest.first_name provided_data)
       (Employee.first_name instance))
    (EmployeeUpdateRequest.get (EmployeeUpdateRequest.last_name provided_data)
       (Employee.last_name instance))
    (EmployeeUpdateRequest.get (Some <$> EmployeeUpdateRequest.birthdate provided_data)
       (Employee.birthdate instance))
    (EmployeeUpdateRequest.get (Some <$> EmployeeUpdateRequest.department_id provided_data)
       (Employee.department_id instance)).

Definition update_employee (id : Z) (data : EmployeeUpdateRequest.t) : ORM Employee.t :=
  instance ← get_object_or_404 id;
  let provided_data := data in
  let instance := assign_provided instance provided_data in
  save instance;;
  match truthy (EmployeeUpdateRequest.project_ids provided_data) with
  | Some project_ids => projects_set instance project_ids
  | None => mret ()
  end;;
  mret instance.

Definition delete_employee (id : Z) : ORM () :=
  instance ← get_object_or_404 id;
  delete instance.

(** *** The operations as the router serves them

    The body is validated before the view runs; the view's return value is
    validated against [EmployeeResponse] on the database as the view left
    it, and answered with status 500 if it does not validate; an exception
    becomes its status code. *)
Record http_response := Response {
  status : Z;
  body : option EmployeeResponse.t;
}.

Definition status_of (e : exn) : Z :=
  match e with
  | Http404 => 404
  | IntegrityError => 500
  | OverflowError => 500
  end.

Definition serve `{QueryOrder} (success : Z) (view : ORM Employee.t) (db : Database)
  : http_response * Database :=
  let o := view db in
  match returned o with
  | inl e => (Response (status_of e) None, stored o)
  | inr employee =>
      match EmployeeResponse.from_orm (stored o) employee with
      | Some body => (Response success (Some body), stored o)
      | None => (Response 500 None, stored o)
      end
  end.

Definition validated {A} (request : option A) (operation : A → Database → http_response * Database)
    (db : Database) : http_response * Database :=
  match request with
  | Some data => operation data db
  | None => (Response 422 None, db)
  end.

Definition POST `{Coercions} `{QueryOrder} (data : payload)
  : Database → http_response * Database :=
  validated (EmployeeRequest.model_validate data) (λ data, serve 201 (create_employee data)).

Definition GET `{QueryOrder} (id : Z) : Database → http_response * Database :=
  serve 200 (get_employee id).

Definition PATCH `{Coercions} `{QueryOrder} (id : Z) (data : payload)
  : Database → http_response * Database :=
  validated (EmployeeUpdateRequest.model_validate data) (λ data, serve 200 (update_employee id data)).

Definition DELETE (id : Z) (db : Database) : http_response * Database :=
  let o := delete_employee id db in
  match returned o with
  | inl e => (Response (status_of e) None, stored o)
  | inr _ => (Response 204 None, stored o)
  end.

(** [get_employees]: the rows of the whole table, in the order the
    database returns them. Prefetching the relation changes how many
    queries the serialisation makes, not what it reads. *)
Definition get_employees `{QueryOrder} (db : Database) : list Employee.t :=
  table_order (Employee_objects db).

(** What [@paginate] answers with: the window of the rows it cut,
    serialised, and the number of rows there are. *)
Module PagedEmployeeResponse.
Record t := Build {
  items : list EmployeeResponse.t;
  count : nat;
}.
End PagedEmployeeResponse.

Record list_response := ListResponse {
  list_status : Z;
  list_body : option PagedEmployeeResponse.t;
}.

(** [@paginate] with the framework's stock paginator. The query
    parameters are [limit], at least 1 (100 when absent), and [offset], at
    least 0 (0 when absent); others are answered 422. The window is
    [queryset[offset : offset + limit]], cut by the database, which takes
    no limit or offset beyond 64 bits: the query fails, and the response
    with it. Every row of the window is validated against
    [EmployeeResponse]; one that does not validate fails the whole
    response, with status 500. *)
Definition paginate `{QueryOrder} (offset limit : Z) (view : Database → list Employee.t)
    (db : Database) : list_response :=
  if bool_decide (1 ≤ limit ∧ 0 ≤ offset) then
    if fits_column limit && fits_column offset then
      let queryset := view db in
      let window := take (Z.to_nat limit) (drop (Z.to_nat offset) queryset) in
      match mapM (EmployeeResponse.from_orm db) window with
      | Some items =>
          ListResponse 200 (Some (PagedEmployeeResponse.Build items (length queryset)))
      | None => ListResponse 500 None
      end
    else ListResponse 500 None
  else ListResponse 422 None.

Definition GET_list `{QueryOrder} (offset limit : Z) : Database → list_response :=
  paginate offset limit get_employees.

End employee_api.

End company_basic.

(** ** The scaffolded variant *)
Module company_ninja_crud.

(** [company_ninja_crud/models.py]. *)
Module models.

Module Department.
Record t := Build { id : Z; title : str }.
End Department.

Module Project.
Record t := Build { id : Z; title : str; department_id : Z }.
End Project.

Module Employee.
Record t := Build {
  id : Z;
  first_name : str;
  last_name : str;
  birthdate : option date;
  department_id : Z;
}.
End Employee.

(** The tables of this app, each with the last primary key it handed
    out, and the join table of [Employee.projects]. *)
Record Database := Build_Database {
  Department_objects : gmap Z Department.t;
  Department_seq : Z;
  Project_objects : gmap Z Project.t;
  Project_seq : Z;
  Employee_objects : gmap Z Employee.t;
  Employee_seq : Z;
  Employee_projects : gset (Z * Z);
}.

(** [Department.objects.create(title=...)]. *)
Definition Department_objects_create (title : str) (db : Database)
  : (company_basic.models.exn + Department.t) * Database :=
  let pk := Department_seq db + 1 in
  let department := Department.Build pk title in
  (inr department,
   Build_Database (<[pk := department]> (Department_objects db)) pk
     (Project_objects db) (Project_seq db)
     (Employee_objects db) (Employee_seq db) (Employee_projects db)).

(** [Project.objects.create(title=..., department=...)]: the department
    must be a row of its table. *)
Definition Project_objects_create (title : str) (department : Department.t) (db : Database)
  : (company_basic.models.exn + Project.t) * Database :=
  if bool_decide (is_Some (Department_objects db !! Department.id department)) then
    let pk := Project_seq db + 1 in
    let project := Project.Build pk title (Department.id department) in
    (inr project,
     Build_Database (Department_objects db) (Department_seq db)
       (<[pk := project]> (Project_objects db)) pk
       (Employee_objects db) (Employee_seq db) (Employee_projects db))
  else (inl (company_basic.models.reference_error (Department.id department)), db).

(** [Employee.objects.create(first_name=..., last_name=..., department=...,
    birthdate=...)]. *)
Definition Employee_objects_create (first_name last_name : str) (department : Department.t)
    (birthdate : option date) (db : Database)
  : (company_basic.models.exn + Employee.t) * Database :=
  if bool_decide (is_Some (Department_objects db !! Department.id department)) then
    let pk := Employee_seq db + 1 in
    let employee :=
      Employee.Build pk first_name last_name birthdate (Department.id department) in
    (inr employee,
     Build_Database (Department_objects db) (Department_seq db)
       (Project_objects db) (Project_seq db)
       (<[pk := employee]> (Employee_objects db)) pk (Employee_projects db))
  else (inl (company_basic.models.reference_error (Department.id department)), db).

Definition related_ids (db : Database) (employee_id : Z) : gset Z :=
  set_map snd (filter (λ row, row.1 = employee_id) (Employee_projects db)).

(** [employee.projects.set(objs)], as in the basic app: strike the ids
    already related, remove what is left of the old ones, add the new ones
    that are not related yet; a join row to a project that is no row fails
    the whole call, with [OverflowError] if an id does not fit the column
    and the foreign key violation otherwise. *)
Definition projects_set (instance : Employee.t) (objs : list Z) (db : Database)
  : (company_basic.models.exn + ()) * Database :=
  let employee_id := Employee.id instance in
  let '(old_ids, new_objs) :=
    company_basic.models.set_partition objs (related_ids db employee_id) in
  let removed := company_basic.models.m2m_remove employee_id old_ids (Employee_projects db) in
  let still_related : gset Z := set_map snd (filter (λ row, row.1 = employee_id) removed) in
  let missing : gset Z := list_to_set new_objs ∖ still_related in
  if bool_decide (set_Forall (λ p, is_Some (Project_objects db !! p)) missing) then
    (inr (),
     Build_Database (Department_objects db) (Department_seq db)
       (Project_objects db) (Project_seq db)
       (Employee_objects db) (Employee_seq db)
       (company_basic.models.m2m_add employee_id missing removed))
  else
    (inl (if bool_decide (set_Forall (λ p, is_Some (Project_objects db !! p)
                                           ∨ company_basic.models.fits_column p) missing)
          then company_basic.models.IntegrityError
          else company_basic.models.OverflowError), db).

End models.

(** [company_ninja_crud/api/employee_api.py]: the request schemas. The
    relation field is called [projects] as in the model and reads the wire
    key [project_ids]. *)
Module employee_api.

Import pydantic.

Module EmployeeRequest.
Record t := Build {
  first_name : str;
  last_name : str;
  department_id : option Z;
  projects : list Z;
  birthdate : option date;
}.

Definition model_validate `{Coercions} (data : payload) : option t :=
  first_name ← required str_validator "first_name" data;
  last_name ← required str_validator "last_name" data;
  department_id ← field int_validator "department_id" data;
  projects ← required (list_validator int_validator) "project_ids" data;
  birthdate ← field date_validator "birthdate" data;
  Some (Build first_name last_name department_id projects birthdate).
End EmployeeRequest.

Module EmployeeUpdateRequest.
Record t := Build {
  first_name : option str;
  last_name : option str;
  department_id : option Z;
  projects : option (list Z);
  birthdate : option date;
}.

Definition model_validate `{Coercions} (data : payload) : option t :=
  first_name ← field str_validator "first_name" data;
  last_name ← field str_validator "last_name" data;
  department_id ← field int_validator "department_id" data;
  projects ← field (list_validator int_validator) "project_ids" data;
  birthdate ← field date_validator "birthdate" data;
  Some (Build first_name last_name department_id projects birthdate).
End EmployeeUpdateRequest.

End employee_api.

(** [company_ninja_crud/auth.py]. *)
Module auth.

Module User.
Record t := Build { id : Z; username : str }.
End User.

(** What [request.user] holds. *)
Inductive request_user :=
  | Authenticated (user : User.t)
  | AnonymousUser.

Record HttpRequest := Build_HttpRequest { user : request_user }.

Inductive exn := ValueError.

Module DummyAuthBearer.
Section authenticate.

(** The user table's [id] lookup takes the text after the colon through
    Python's [int]; text that is no number raises [ValueError]. *)
Variable int : str → option Z.

(** The return value is what the framework tests: a false-like one ([None])
    fails the authentication step, any other becomes [request.auth]. *)
Definition authenticate (User_objects : gmap Z User.t) (request : HttpRequest) (token : str)
  : exn + (HttpRequest * option User.t) :=
  let split := Text.split (chr ":") token in
  if negb (length split =? 2)%nat then inr (request, None)
  else match split with
  | [token_value; user_id] =>
      if negb (bool_decide (token_value = text "supersecret")) then inr (request, None)
      else match int user_id with
      | None => inl ValueError
      | Some pk =>
          let user := User_objects !! pk in
          let request := Build_HttpRequest (from_option Authenticated AnonymousUser user) in
          inr (request, user)
      end
  | _ => inr (request, None)
  end.

(** The framework's verdict on the return value. *)
Definition authenticated (result : exn + (HttpRequest * option User.t)) : bool :=
  match result with
  | inr (_, Some _) => true
  | _ => false
  end.

End authenticate.
End DummyAuthBearer.

(** Plain decimal numerals, on which Python's [int] is this function. *)
Fixpoint decimal_digits (acc : Z) (s : str) : option Z :=
  match s with
  | [] => Some acc
  | c :: s' =>
      if ((48 <=? c) && (c <=? 57))%N
      then decimal_digits (10 * acc + Z.of_N (c - 48)) s'
      else None
  end.

Definition decimal (s : str) : option Z :=
  match s with
  | [] => None
  | _ => decimal_digits 0 s
  end.

End auth.

End company_ninja_crud.

(** ** [seed/management/commands/seed.py] *)
Module seed.

Module basic_models := company_basic.models.
Module ninja_crud_models := company_ninja_crud.models.
Module User := company_ninja_crud.auth.User.

(** The user model's table. *)
Record UserTable := Build_UserTable {
  User_objects : gmap Z User.t;
  User_seq : Z;
}.

(** The basic app's tables, with the last primary keys its department and
    project tables handed out. *)
Record BasicTables := Build_BasicTables {
  tables : basic_models.Database;
  Department_seq : Z;
  Project_seq : Z;
}.

(** What the command runs against. *)
Record World := Build_World {
  auth : UserTable;
  basic : BasicTables;
  ninja_crud : ninja_crud_models.Database;
}.

(** A step of the command: it returns or raises, leaves a world, and has
    written lines to [self.stdout]. The database connection autocommits,
    so what was written before an exception stays. *)
Definition Command (A : Type) : Type :=
  World → (basic_models.exn + A) * World * list str.

Definition command_ret {A} (a : A) : Command A := λ w, (inr a, w, []).

Definition command_bind {A B} (f : A → Command B) (m : Command A) : Command B := λ w,
  match m w with
  | (inl e, w1, out) => (inl e, w1, out)
  | (inr a, w1, out) =>
      let '(r, w2, out') := f a w1 in (r, w2, out ++ out')
  end.

Global Instance Command_ret : MRet Command := @command_ret.
Global Instance Command_bind : MBind Command := @command_bind.

(** [self.stdout.write(self.style.SUCCESS(msg))] and
    [self.stdout.write(msg)]: the line written, without the colour codes
    the style may wrap it in. *)
Definition stdout_write (msg : str) : Command () := λ w, (inr (), w, [msg]).

Definition on_auth {A} (f : UserTable → (basic_models.exn + A) * UserTable) : Command A := λ w,
  let '(r, t) := f (auth w) in (r, Build_World t (basic w) (ninja_crud w), []).

Definition on_basic {A} (f : BasicTables → (basic_models.exn + A) * BasicTables)
  : Command A := λ w,
  let '(r, t) := f (basic w) in (r, Build_World (auth w) t (ninja_crud w), []).

Definition on_ninja_crud {A}
    (f : ninja_crud_models.Database → (basic_models.exn + A) * ninja_crud_models.Database)
  : Command A := λ w,
  let '(r, t) := f (ninja_crud w) in (r, Build_World (auth w) (basic w) t, []).

(** An ORM call of the basic app's employee table, on the app's tables. *)
Definition orm {A} (m : basic_models.ORM A) (t : BasicTables)
  : (basic_models.exn + A) * BasicTables :=
  let o := m (tables t) in
  (basic_models.returned o,
   Build_BasicTables (basic_models.stored o) (Department_seq t) (Project_seq t)).

(** [get_user_model().objects.create_user(username)] on the stock user
    model: user names are unique. *)
Definition create_user (username : str) (t : UserTable)
  : (basic_models.exn + User.t) * UserTable :=
  if bool_decide (map_Forall (λ _ u, User.username u ≠ username) (User_objects t)) then
    let pk := User_seq t + 1 in
    let user := User.Build pk username in
    (inr user, Build_UserTable (<[pk := user]> (User_objects t)) pk)
  else (inl basic_models.IntegrityError, t).

(** [basic_models.Department.objects.create(title=...)]. *)
Definition Department_objects_create (title : str) (t : BasicTables)
  : (basic_models.exn + basic_models.Department.t) * BasicTables :=
  let db := tables t in
  let pk := Department_seq t + 1 in
  let department := basic_models.Department.Build pk title in
  (inr department,
   Build_BasicTables
     (basic_models.Build_Database
        (<[pk := department]> (basic_models.Department_objects db))
        (basic_models.Project_objects db) (basic_models.Employee_objects db)
        (basic_models.Employee_projects db) (basic_models.Employee_seq db))
     pk (Project_seq t)).

(** [basic_models.Project.objects.create(title=..., department=...)]. *)
Definition Project_objects_create (title : str) (department : basic_models.Department.t)
    (t : BasicTables) : (basic_models.exn + basic_models.Project.t) * BasicTables :=
  let db := tables t in
  if bool_decide (is_Some (basic_models.Department_objects db
                             !! basic_models.Department.id department)) then
    let pk := Project_seq t + 1 in
    let project :=
      basic_models.Project.Build pk title (basic_models.Department.id department) in
    (inr project,
     Build_BasicTables
       (basic_models.Build_Database
          (basic_models.Department_objects db)
          (<[pk := project]> (basic_models.Project_objects db))
          (basic_models.Employee_objects db)
          (basic_models.Employee_projects db) (basic_models.Employee_seq db))
       (Department_seq t) pk)
  else (inl (basic_models.reference_error (basic_models.Department.id department)), t).

Section Command.

(** [date.today()] on the day the command runs. *)
Variable today : date.

Definition _seed_basic_app : Command () :=
  stdout_write (text "Creating models for basic Ninja app...");;
  growth_department ← on_basic (Department_objects_create (text "Growth"));
  infrastructure_department ← on_basic (Department_objects_create (text "Infrastructure"));
  growth_project ←
    on_basic (Project_objects_create (text "Growth Project") growth_department);
  infrastructure_project ←
    on_basic (Project_objects_create (text "Infrastructure Project")
                infrastructure_department);
  employee ←
    on_basic (orm (basic_models.Employee_objects_create (text "Bob") (text "Smith")
                     (Some (basic_models.Department.id growth_department)) (Some today)));
  on_basic (orm (basic_models.projects_set employee
                   [basic_models.Project.id growth_project;
                    basic_models.Project.id infrastructure_project]));;
  stdout_write (text "Successfully created models").

Definition _seed_ninja_crud_app : Command () :=
  stdout_write (text "Creating models for the Ninja CRUD app...");;
  growth_department ←
    on_ninja_crud (ninja_crud_models.Department_objects_create (text "Growth"));
  infrastructure_department ←
    on_ninja_crud (ninja_crud_models.Department_objects_create (text "Infrastructure"));
  growth_project ←
    on_ninja_crud (ninja_crud_models.Project_objects_create (text "Growth Project")
                     growth_department);
  infrastructure_project ←
    on_ninja_crud (ninja_crud_models.Project_objects_create (text "Infrastructure Project")
                     infrastructure_department);
  employee ←
    on_ninja_crud (ninja_crud_models.Employee_objects_create (text "Bob") (text "Smith")
                     growth_department (Some today));
  on_ninja_crud (ninja_crud_models.projects_set employee
                   [ninja_crud_models.Project.id growth_project;
                    ninja_crud_models.Project.id infrastructure_project]);;
  stdout_write (text "Successfully created models").

Definition handle : Command () :=
  on_auth (create_user (text "testuser"));;
  stdout_write (text "Successfully created testuser");;
  _seed_basic_app;;
  _seed_ninja_crud_app;;
  stdout_write
    (text "Successfully seeded. You can now use authorize using the key 'supersecret:1'").

End Command.

End seed.

(** ** Properties the theorems speak about *)

Import company_basic.models.

(** [t] is [s] with its leading and trailing whitespace removed. *)
Definition stripped_of (s t : str) : Prop :=
  ∃ l r, s = l ++ t ++ r
    ∧ Forall (λ c, is_whitespace c) l
    ∧ Forall (λ c, is_whitespace c) r
    ∧ (∀ c, head t = Some c → ¬ is_whitespace c)
    ∧ (∀ c, last t = Some c → ¬ is_whitespace c).

(** The shape every database the views can reach has: rows sit under
    their own primary key, no key is beyond the sequence, a department
    reference names a department, a join row names an employee and a
    project. *)
Definition consistent (db : Database) : Prop :=
  map_Forall (λ pk e, Employee.id e = pk ∧ pk ≤ Employee_seq db
                      ∧ department_fk_ok db (Employee.department_id e))
    (Employee_objects db)
  ∧ set_Forall (λ row, is_Some (Employee_objects db !! row.1)
                       ∧ is_Some (Project_objects db !! row.2))
      (Employee_projects db).

Global Instance consistent_dec db : Decision (consistent db).
Proof. unfold consistent. apply _. Defined.

(** A department reference that can be stored, and project ids that can
    be related. *)
Definition department_exists (db : Database) (department_id : option Z) : Prop :=
  ∀ d, department_id = Some d → is_Some (Department_objects db !! d).

Definition projects_exist (db : Database) (ids : list Z) : Prop :=
  Forall (λ p, is_Some (Project_objects db !! p)) ids.

(** What [projects.set] comes to: the employee's join rows are replaced by
    one row per id of [objs]. *)
Definition replace_related (employee_id : Z) (objs : list Z) (rows : gset (Z * Z))
  : gset (Z * Z) :=
  filter (λ row, row.1 ≠ employee_id) rows
  ∪ set_map (λ p, (employee_id, p)) (list_to_set objs : gset Z).

(** The ids [projects.set] can relate: those already related, and those of
    existing projects. *)
Definition relatable (db : Database) (employee_id : Z) (objs : list Z) : Prop :=
  Forall (λ p, p ∈ related_ids db employee_id ∨ is_Some (Project_objects db !! p)) objs.

(** What [projects.set] raises on ids it cannot relate: [OverflowError]
    if one of those it would insert does not fit the column, the foreign
    key violation otherwise. *)
Definition relate_error (db : Database) (employee_id : Z) (objs : list Z) : exn :=
  if bool_decide (Forall (λ p, p ∈ related_ids db employee_id
                               ∨ is_Some (Project_objects db !! p)
                               ∨ fits_column p) objs)
  then IntegrityError else OverflowError.

(** The row [create_employee] inserts, and the database once it is in. *)
Definition created_row (data : company_basic.employee_api.EmployeeRequest.t) (db : Database)
  : Employee.t :=
  Employee.Build (Employee_seq db + 1)
    (company_basic.employee_api.EmployeeRequest.first_name data)
    (company_basic.employee_api.EmployeeRequest.last_name data)
    (company_basic.employee_api.EmployeeRequest.birthdate data)
    (company_basic.employee_api.EmployeeRequest.department_id data).

Definition created_db (data : company_basic.employee_api.EmployeeRequest.t) (db : Database)
  : Database :=
  with_employee_seq (Employee_seq db + 1)
    (with_employees (insert (Employee_seq db + 1) (created_row data db)) db).

(** The database once [save] has written [instance]. *)
Definition saved_db (instance : Employee.t) (db : Database) : Database :=
  with_employees (insert (Employee.id instance) instance) db.

(** A view that is one atomic persistence call: it makes a single call,
    and if it raises, the database is as it was. *)
Definition single_atomic_call {A} (view : ORM A) (db : Database) : Prop :=
  length (calls (view db)) = 1%nat
  ∧ (∀ e, returned (view db) = inl e → stored (view db) = db).

(** The scaffolded variant's requests, read with the basic variant's field
    names. *)
Definition as_basic_request (r : company_ninja_crud.employee_api.EmployeeRequest.t)
  : company_basic.employee_api.EmployeeRequest.t :=
  company_basic.employee_api.EmployeeRequest.Build
    (company_ninja_crud.employee_api.EmployeeRequest.first_name r)
    (company_ninja_crud.employee_api.EmployeeRequest.last_name r)
    (company_ninja_crud.employee_api.EmployeeRequest.department_id r)
    (company_ninja_crud.employee_api.EmployeeRequest.projects r)
    (company_ninja_crud.employee_api.EmployeeRequest.birthdate r).

Definition as_basic_update (r : company_ninja_crud.employee_api.EmployeeUpdateRequest.t)
  : company_basic.employee_api.EmployeeUpdateRequest.t :=
  company_basic.employee_api.EmployeeUpdateRequest.Build
    (company_ninja_crud.employee_api.EmployeeUpdateRequest.first_name r)
    (company_ninja_crud.employee_api.EmployeeUpdateRequest.last_name r)
    (company_ninja_crud.employee_api.EmployeeUpdateRequest.department_id r)
    (company_ninja_crud.employee_api.EmployeeUpdateRequest.projects r)
    (company_ninja_crud.employee_api.EmployeeUpdateRequest.birthdate r).


(** A response body reports a stored row: the row stored under the body's
    id serialises to the body, whose [project_ids] lists the related ids,
    each once. *)
Definition reports_stored_row `{QueryOrder} (db : Database)
    (body : company_basic.employee_api.EmployeeResponse.t) : Prop :=
  ∃ e, Employee_objects db !! company_basic.employee_api.EmployeeResponse.id body = Some e
       ∧ company_basic.employee_api.EmployeeResponse.from_orm db e = Some body
       ∧ NoDup (company_basic.employee_api.EmployeeResponse.project_ids body)
       ∧ ∀ p, p ∈ company_basic.employee_api.EmployeeResponse.project_ids body
              ↔ p ∈ related_ids db (company_basic.employee_api.EmployeeResponse.id body).

(** The wire keys the request schemas read. *)
Definition schema_keys : list string :=
  ["first_name"; "last_name"; "department_id"; "project_ids"; "birthdate"].

(** The basic app's department and project sequences are not behind the
    keys of their tables. *)
Definition sequences_ahead (t : seed.BasicTables) : Prop :=
  map_Forall (λ pk _, pk ≤ seed.Department_seq t) (Department_objects (seed.tables t))
  ∧ map_Forall (λ pk _, pk ≤ seed.Project_seq t) (Project_objects (seed.tables t)).

Global Instance sequences_ahead_dec t : Decision (sequences_ahead t).
Proof. unfold sequences_ahead. apply _. Defined.

(** Some user is called [testuser]. *)
Definition testuser_taken (t : seed.UserTable) : Prop :=
  ∃ pk u, seed.User_objects t !! pk = Some u ∧ seed.User.username u = text "testuser".

(** The tables the seed command leaves in the basic app, from those it
    found. *)
Definition seeded_from (today : date) (t : seed.BasicTables) : seed.BasicTables :=
  let db := seed.tables t in
  let growth := seed.Department_seq t + 1 in
  let infrastructure := seed.Department_seq t + 2 in
  let growth_project := seed.Project_seq t + 1 in
  let infrastructure_project := seed.Project_seq t + 2 in
  let pk := Employee_seq db + 1 in
  seed.Build_BasicTables
    (Build_Database
       (<[infrastructure := Department.Build infrastructure (text "Infrastructure")]>
          (<[growth := Department.Build growth (text "Growth")]> (Department_objects db)))
       (<[infrastructure_project :=
            Project.Build infrastructure_project (text "Infrastructure Project") infrastructure]>
          (<[growth_project := Project.Build growth_project (text "Growth Project") growth]>
             (Project_objects db)))
       (<[pk := Employee.Build pk (text "Bob") (text "Smith") (Some today) (Some growth)]>
          (Employee_objects db))
       (replace_related pk [growth_project; infrastructure_project] (Employee_projects db))
       pk)
    infrastructure infrastructure_project.

(** The tables the seed command leaves in the scaffolded app, from those
    it found. *)
Definition ninja_seeded_from (today : date) (db : company_ninja_crud.models.Database)
  : company_ninja_crud.models.Database :=
  let growth := company_ninja_crud.models.Department_seq db + 1 in
  let infrastructure := company_ninja_crud.models.Department_seq db + 2 in
  let growth_project := company_ninja_crud.models.Project_seq db + 1 in
  let infrastructure_project := company_ninja_crud.models.Project_seq db + 2 in
  let pk := company_ninja_crud.models.Employee_seq db + 1 in
  company_ninja_crud.models.Build_Database
    (<[infrastructure :=
         company_ninja_crud.models.Department.Build infrastructure (text "Infrastructure")]>
       (<[growth := company_ninja_crud.models.Department.Build growth (text "Growth")]>
          (company_ninja_crud.models.Department_objects db)))
    infrastructure
    (<[infrastructure_project :=
         company_ninja_crud.models.Project.Build infrastructure_project
           (text "Infrastructure Project") infrastructure]>
       (<[growth_project :=
            company_ninja_crud.models.Project.Build growth_project
              (text "Growth Project") growth]>
          (company_ninja_crud.models.Project_objects db)))
    infrastructure_project
    (<[pk := company_ninja_crud.models.Employee.Build pk (text "Bob") (text "Smith")
               (Some today) growth]>
       (company_ninja_crud.models.Employee_objects db))
    pk
    (replace_related pk [growth_project; infrastructure_project]
       (company_ninja_crud.models.Employee_projects db)).

(** A database server that has just been migrated: every table empty,
    every sequence at its start. *)
Definition fresh_world : seed.World :=
  seed.Build_World
    (seed.Build_UserTable ∅ 0)
    (seed.Build_BasicTables (Build_Database ∅ ∅ ∅ ∅ 0) 0 0)
    (company_ninja_crud.models.Build_Database ∅ 0 ∅ 0 ∅ 0 ∅).

(** The requests of the employee router that can write, with the read by
    id, and the database a run of them leaves. *)
Inductive employee_request :=
  | Request_POST (data : payload)
  | Request_GET (id : Z)
  | Request_PATCH (id : Z) (data : payload)
  | Request_DELETE (id : Z).

Definition database_after `{pydantic.Coercions} `{QueryOrder} (db : Database)
    (request : employee_request)
  : Database :=
  match request with
  | Request_POST data => (company_basic.employee_api.POST data db).2
  | Request_GET id => (company_basic.employee_api.GET id db).2
  | Request_PATCH id data => (company_basic.employee_api.PATCH id data db).2
  | Request_DELETE id => (company_basic.employee_api.DELETE id db).2
  end.

Definition database_after_all `{pydantic.Coercions} `{QueryOrder}
    (requests : list employee_request)
    (db : Database) : Database :=
  foldl database_after db requests.

(** The database [seed.py] leaves for this variant: two departments, a
    project in each, and one employee of the first department on both
    projects. *)
Definition seeded (today : date) : Database :=
  Build_Database
    {[ 1 := Department.Build 1 (text "Growth");
       2 := Department.Build 2 (text "Infrastructure") ]}
    {[ 1 := Project.Build 1 (text "Growth Project") 1;
       2 := Project.Build 2 (text "Infrastructure Project") 2 ]}
    {[ 1 := Employee.Build 1 (text "Bob") (text "Smith") (Some today) (Some 1) ]}
    {[ (1, 1); (1, 2) ]}
    1.

(** A day for [date.today()], and the row the command seeds on it. *)
Definition seed_day : date := Date 2024 1 15.

Definition bob : Employee.t :=
  Employee.Build 1 (text "Bob") (text "Smith") (Some seed_day) (Some 1).

(** A create request that names a project that does not exist. *)
Definition stray_request : company_basic.employee_api.EmployeeRequest.t :=
  company_basic.employee_api.EmployeeRequest.Build (text "A") (text "B") (Some 1) [9] None.

(** Coercions for the examples: a JSON integer is an [int], and an ISO
    [YYYY-MM-DD] string with a month from 01 to 12 and a day from 01 to 28
    is a [date]. The validator's own coercions take these values, and
    more. *)
Definition digit (c : N) : option Z :=
  if ((48 <=? c) && (c <=? 57))%N then Some (Z.of_N (c - 48)) else None.

Definition iso_date (v : json) : option date :=
  match v with
  | JStr [y1; y2; y3; y4; 45%N; m1; m2; 45%N; d1; d2] =>
      y1 ← digit y1; y2 ← digit y2; y3 ← digit y3; y4 ← digit y4;
      m1 ← digit m1; m2 ← digit m2; d1 ← digit d1; d2 ← digit d2;
      let month := 10 * m1 + m2 in
      let day := 10 * d1 + d2 in
      if bool_decide (1 ≤ month ≤ 12 ∧ 1 ≤ day ≤ 28)
      then Some (Date (1000 * y1 + 100 * y2 + 10 * y3 + y4) month day)
      else None
  | _ => None
  end.

Definition json_integer (v : json) : option Z :=
  match v with
  | JNum n => Some n
  | _ => None
  end.

Definition plain_coercions : pydantic.Coercions :=
  {| pydantic.int_validator := json_integer; pydantic.date_validator := iso_date |}.

(** A database for the examples, which returns rows by primary key. *)
Definition pk_le (x y : Z * Employee.t) : Prop := x.1 ≤ y.1.

Global Instance pk_le_dec x y : Decision (pk_le x y).
Proof. unfold pk_le. apply _. Defined.

Definition by_primary_key : QueryOrder :=
  {| related_order ids := merge_sort Z.le (elements ids);
     related_order_perm ids := merge_sort_Permutation Z.le (elements ids);
     table_order rows := (merge_sort pk_le (map_to_list rows)).*2;
     table_order_perm rows :=
       fmap_Permutation snd _ _ (merge_sort_Permutation pk_le (map_to_list rows)) |}.

(** * Text *)
Section text_facts.


Lemma lstrip_prefix_head (s : str) (c : N) :
  head s = Some c → ¬ is_whitespace c → lstrip s = s.
Proof.
  destruct s as [|c' s]; [done|]. intros [= ->] Hc. simpl.
  by destruct (is_whitespace c).
Qed.


Lemma whitespace_prefix_unique (l1 l2 u1 u2 : str) :
  l1 ++ u1 = l2 ++ u2 →
  Forall (λ c, is_whitespace c) l1 → Forall (λ c, is_whitespace c) l2 →
  (∀ c, head u1 = Some c → ¬ is_whitespace c) →
  (∀ c, head u2 = Some c → ¬ is_whitespace c) →
  u1 ≠ [] → u2 ≠ [] → u1 = u2.
Proof.
  revert l2. induction l1 as [|a l1 IH]; intros l2 Heq Hl1 Hl2 H1 H2 Hn1 Hn2.
  - destruct l2 as [|b l2]; [done|]. simpl in Heq.
    destruct u1 as [|c u1]; [done|]. simplify_eq/=.
    inversion_clear Hl2. by destruct (H1 _ eq_refl).
  - destruct l2 as [|b l2].
    + destruct u2 as [|c u2]; [done|]. simplify_eq/=.
      inversion_clear Hl1. by destruct (H2 _ eq_refl).
    + simplify_eq/=. inversion_clear Hl1. inversion_clear Hl2. eauto.
Qed.

(** What [strip] returns is the only candidate. *)
Lemma stripped_of_unique (s t1 t2 : str) :
  stripped_of s t1 → stripped_of s t2 → t1 = t2.
Proof.
  intros (l1 & r1 & E1 & Hl1 & Hr1 & Hh1 & Hla1) (l2 & r2 & E2 & Hl2 & Hr2 & Hh2 & Hla2).
  rewrite E1 in E2. clear E1.
  assert (Hempty : ∀ (la ra lb tb rb : str),
    la ++ [] ++ ra = lb ++ tb ++ rb →
    Forall (λ c, is_whitespace c) la → Forall (λ c, is_whitespace c) ra →
    (∀ c, head tb = Some c → ¬ is_whitespace c) → tb = []).
  { intros la ra lb tb rb Heq Hla Hra Hhd.
    destruct tb as [|c tb]; [done|]. destruct (Hhd c eq_refl).
    assert (Hin : c ∈ la ++ ra) by (simpl in Heq; rewrite Heq; set_solver).
    apply elem_of_app in Hin as [Hin|Hin];
      [eapply Forall_forall in Hla | eapply Forall_forall in Hra]; eauto. }
  destruct t1 as [|a1 t1'] eqn:Ht1.
  { symmetry. eapply Hempty; eauto. }
  destruct t2 as [|a2 t2'] eqn:Ht2.
  { symmetry in E2. by apply Hempty in E2. }
  rewrite <- Ht1, <- Ht2 in *.
  assert (Hn1 : t1 ≠ []) by (by subst). assert (Hn2 : t2 ≠ []) by (by subst).
  clear Ht1 Ht2 Hempty.
  assert (E3 : t1 ++ r1 = t2 ++ r2).
  { eapply (whitespace_prefix_unique l1 l2); eauto.
    - intros c. destruct t1; [done|]. apply Hh1.
    - intros c. destruct t2; [done|]. apply Hh2.
    - by destruct t1.
    - by destruct t2. }
  apply (f_equal reverse) in E3. rewrite !reverse_app in E3.
  apply (inj reverse).
  eapply (whitespace_prefix_unique (reverse r1) (reverse r2)); eauto.
  - by apply Forall_reverse.
  - by apply Forall_reverse.
  - intros c. rewrite head_reverse. apply Hla1.
  - intros c. rewrite head_reverse. apply Hla2.
  - intros Hr. apply Hn1. apply (inj reverse). by rewrite Hr.
  - intros Hr. apply Hn2. apply (inj reverse). by rewrite Hr.
Qed.

End text_facts.

Section split_facts.

Variable sep : N.

Lemma split_not_nil (s : str) : split sep s ≠ [].
Proof.
  destruct s as [|c s]; simpl; [done|].
  destruct (c =? sep)%N; [done|]. by destruct (split sep s).
Qed.

Lemma split_one (s part : str) :
  split sep s = [part] ↔ part = s ∧ sep ∉ s.
Proof.
  revert part. induction s as [|c s IH]; intros part; simpl.
  - split; [intros [= <-] | intros [-> _]]; [|done].
    split; [done | apply not_elem_of_nil].
  - destruct (N.eqb_spec c sep) as [->|Hne].
    + split.
      * intros [= <- Hnil]. by destruct (split_not_nil s).
      * intros [_ Hnot]. destruct Hnot. left.
    + destruct (split sep s) as [|p ps] eqn:Hsplit; [by destruct (split_not_nil s)|].
      split.
      * intros [= <- ->]. destruct (proj1 (IH p) eq_refl) as [-> Hnot].
        split; [done|]. rewrite elem_of_cons. intros [?|?]; [congruence | done].
      * intros [-> Hnot]. rewrite not_elem_of_cons in Hnot.
        destruct Hnot as [_ Hnot].
        by pose proof (proj2 (IH s) (conj eq_refl Hnot)) as [= -> ->].
Qed.

Lemma split_two (s a b : str) :
  split sep s = [a; b] ↔ s = a ++ sep :: b ∧ (sep ∉ a) ∧ (sep ∉ b).
Proof.
  revert a. induction s as [|c s IH]; intros a; simpl.
  - split; [done|]. intros [Hs _]. by destruct a.
  - destruct (N.eqb_spec c sep) as [->|Hne].
    + split.
      * intros [= <- Hs]. apply split_one in Hs as [-> Hnot].
        split_and!; [done | apply not_elem_of_nil | done].
      * intros (Hs & Ha & Hb). destruct a as [|a0 a].
        -- simplify_eq/=. f_equal. by apply split_one.
        -- simplify_eq/=. destruct Ha. left.
    + destruct (split sep s) as [|p ps] eqn:Hsplit; [by destruct (split_not_nil s)|].
      split.
      * intros [= <- ->]. destruct (proj1 (IH p) eq_refl) as (-> & Ha & Hb).
        split_and!; [done | | done].
        rewrite elem_of_cons. intros [?|?]; [congruence | done].
      * intros (Hs & Ha & Hb). destruct a as [|a0 a]; simplify_eq/=.
        rewrite not_elem_of_cons in Ha. destruct Ha as [_ Ha].
        by pose proof (proj2 (IH a) (conj eq_refl (conj Ha Hb))) as [= -> ->].
Qed.

End split_facts.

(** * The bearer-token check *)
Section auth_facts.

Import company_ninja_crud.auth company_ninja_crud.auth.DummyAuthBearer.

Variable int : str → option Z.
Variable User_objects : gmap Z User.t.

(** A token that does not split in two, or whose first part is not the
    secret, is turned away with the request untouched. *)
Lemma authenticate_rejects (request : HttpRequest) (token : str) :
  (length (split (chr ":") token) ≠ 2%nat
   ∨ ∃ token_value user_id,
       split (chr ":") token = [token_value; user_id]
       ∧ token_value ≠ text "supersecret") →
  authenticate int User_objects request token = inr (request, None).
Proof.
  unfold authenticate. intros [Hlen | (tv & uid & Hsplit & Hne)].
  - destruct (Nat.eqb_spec (length (split (chr ":") token)) 2); done.
  - rewrite Hsplit. simpl. by case_bool_decide.
Qed.

(** With the secret in place the outcome is decided by the user table. *)
Lemma authenticate_secret (request : HttpRequest) (user_id : str) (pk : Z) :
  chr ":" ∉ user_id →
  int user_id = Some pk →
  authenticate int User_objects request (text "supersecret" ++ chr ":" :: user_id)
  = inr (Build_HttpRequest (from_option Authenticated AnonymousUser (User_objects !! pk)),
         User_objects !! pk).
Proof.
  intros Hcolon Hint. unfold authenticate.
  assert (Hsplit : split (chr ":") (text "supersecret" ++ chr ":" :: user_id)
                   = [text "supersecret"; user_id]).
  { apply split_two. split_and!; [done | | done].
    apply (bool_decide_unpack _). by vm_compute. }
  rewrite Hsplit. simpl length. simpl negb. cbv iota.
  by rewrite Hint.
Qed.

(** The requests the check lets through. *)
Lemma authenticated_iff (request : HttpRequest) (token : str) :
  authenticated (authenticate int User_objects request token) = true
  ↔ ∃ user_id pk,
      token = text "supersecret" ++ chr ":" :: user_id
      ∧ (chr ":" ∉ user_id)
      ∧ int user_id = Some pk
      ∧ is_Some (User_objects !! pk).
Proof.
  split.
  - unfold authenticate.
    destruct (Nat.eqb_spec (length (split (chr ":") token)) 2) as [Hlen|]; [|done].
    simpl negb. cbv iota.
    destruct (split (chr ":") token) as [|tv [|uid [|? ?]]] eqn:Hsplit; try done.
    case_bool_decide as Hsecret; [|done]. simpl negb. cbv iota.
    destruct (int uid) as [pk|] eqn:Hint; [|done].
    destruct (User_objects !! pk) as [u|] eqn:Hu; [|done]. intros _.
    apply split_two in Hsplit as (-> & _ & Hcolon). subst tv.
    exists uid, pk. by rewrite Hu.
  - intros (uid & pk & -> & Hcolon & Hint & [u Hu]).
    rewrite authenticate_secret with (pk := pk) by done. by rewrite Hu.
Qed.

End auth_facts.

(** * The ORM calls *)
Section orm_facts.

Lemma elem_of_related_ids (db : Database) (employee_id p : Z) :
  p ∈ related_ids db employee_id ↔ (employee_id, p) ∈ Employee_projects db.
Proof.
  unfold related_ids. rewrite elem_of_map. split.
  - intros ([e q] & -> & [<- Hin]%elem_of_filter). done.
  - intros Hin. exists (employee_id, p). split; [done|]. by apply elem_of_filter.
Qed.

Lemma set_partition_spec (objs : list Z) (old_ids : gset Z) :
  (set_partition objs old_ids).1 = old_ids ∖ list_to_set objs
  ∧ (∀ p, p ∈ (set_partition objs old_ids).2 → p ∈ objs)
  ∧ (∀ p, p ∈ objs → p ∈ (set_partition objs old_ids).2 ∨ p ∈ old_ids).
Proof.
  revert old_ids. induction objs as [|fk_val objs IH]; intros old_ids; simpl.
  - split_and!; [set_solver | set_solver | set_solver].
  - destruct (decide (fk_val ∈ old_ids)) as [Hin|Hnin].
    + destruct (IH (old_ids ∖ {[fk_val]})) as (Hold & Hnew & Hcov).
      split_and!.
      * rewrite Hold. set_solver.
      * intros p Hp. right. auto.
      * intros p [->|Hp]%elem_of_cons; [by right|].
        destruct (Hcov p Hp) as [?|?]; [by left | right; set_solver].
    + destruct (IH old_ids) as (Hold & Hnew & Hcov).
      destruct (set_partition objs old_ids) as [old_ids' new_objs]; simpl in *.
      split_and!.
      * rewrite Hold. set_solver.
      * intros p [->|Hp]%elem_of_cons; [left | right; auto].
      * intros p [->|Hp]%elem_of_cons; [left; left|].
        destruct (Hcov p Hp) as [?|?]; [left; by right | by right].
Qed.

Lemma projects_set_rows (employee_id : Z) (objs : list Z) (db : Database) :
  let part := set_partition objs (related_ids db employee_id) in
  let removed := with_employee_projects (m2m_remove employee_id part.1) db in
  let missing := m2m_missing removed employee_id part.2 in
  (∀ p, p ∈ missing ↔ p ∈ objs ∧ p ∉ related_ids db employee_id)
  ∧ m2m_add employee_id missing (Employee_projects removed)
    = replace_related employee_id objs (Employee_projects db).
Proof.
  intros part removed missing.
  destruct (set_partition_spec objs (related_ids db employee_id)) as (Hold & Hnew & Hcov).
  fold part in Hold, Hnew, Hcov.
  assert (Hremoved : ∀ p, p ∈ related_ids removed employee_id
                          ↔ p ∈ related_ids db employee_id ∧ p ∈ objs).
  { intros p. rewrite !elem_of_related_ids. unfold removed, m2m_remove. simpl.
    rewrite elem_of_filter, Hold. simpl. rewrite <- elem_of_related_ids.
    set_unfold. destruct (decide (p ∈ objs)); naive_solver. }
  assert (Hmissing : ∀ p, p ∈ missing ↔ p ∈ objs ∧ p ∉ related_ids db employee_id).
  { intros p. unfold missing, m2m_missing.
    rewrite elem_of_difference, elem_of_list_to_set, Hremoved. split.
    - intros [Hp Hnot]. split; [auto|]. intros Hrel. apply Hnot. auto.
    - intros [Hp Hnot]. split; [|tauto]. destruct (Hcov p Hp); [done | tauto]. }
  split; [done|].
  apply set_eq. intros [e p]. unfold m2m_add, replace_related.
  rewrite !elem_of_union, !elem_of_map, elem_of_filter. simpl.
  unfold m2m_remove. rewrite elem_of_filter, Hold. simpl.
  split.
  - intros [[Hkeep Hin] | (q & [= -> ->] & Hq)].
    + destruct (decide (e = employee_id)) as [->|Hne]; [|by left].
      right. exists p. split; [done|]. apply elem_of_list_to_set.
      destruct (decide (p ∈ objs)); [done|]. destruct Hkeep. split; [done|].
      apply elem_of_difference. rewrite elem_of_related_ids, elem_of_list_to_set. done.
    + right. exists q. split; [done|]. apply elem_of_list_to_set. by apply Hmissing.
  - intros [[Hne Hin] | (q & [= -> ->] & Hq%elem_of_list_to_set)].
    + left. split; [|done]. intros [? _]. done.
    + destruct (decide (q ∈ related_ids db employee_id)) as [Hrel|Hrel].
      * left. split; [|by apply elem_of_related_ids].
        intros [_ Hd%elem_of_difference]. rewrite elem_of_list_to_set in Hd. tauto.
      * right. exists q. split; [done|]. by apply Hmissing.
Qed.

Lemma projects_set_ok (instance : Employee.t) (objs : list Z) (db : Database) :
  relatable db (Employee.id instance) objs →
  projects_set instance objs db
  = Outcome (inr ())
      (with_employee_projects (replace_related (Employee.id instance) objs) db) [M2MSet].
Proof.
  intros Hrel. unfold projects_set.
  destruct (projects_set_rows (Employee.id instance) objs db) as [Hmissing Hrows].
  destruct (set_partition objs (related_ids db (Employee.id instance))) as [old_ids new_objs].
  simpl in Hmissing, Hrows.
  rewrite bool_decide_eq_true_2.
  - unfold with_employee_projects at 1. simpl. rewrite Hrows. done.
  - intros p [Hp Hnot]%Hmissing. unfold relatable in Hrel.
    eapply Forall_forall in Hrel; [|done]. tauto.
Qed.

Lemma projects_set_fails (instance : Employee.t) (objs : list Z) (db : Database) :
  ¬ relatable db (Employee.id instance) objs →
  projects_set instance objs db
  = Outcome (inl (relate_error db (Employee.id instance) objs)) db [M2MSet].
Proof.
  intros Hrel. unfold projects_set.
  destruct (projects_set_rows (Employee.id instance) objs db) as [Hmissing Hrows].
  destruct (set_partition objs (related_ids db (Employee.id instance))) as [old_ids new_objs].
  simpl in Hmissing, Hrows.
  rewrite bool_decide_eq_false_2.
  - f_equal. f_equal. unfold projects_error, relate_error.
    erewrite bool_decide_ext; [done|]. rewrite Forall_forall. split.
    + intros Hall p Hp.
      destruct (decide (p ∈ related_ids db (Employee.id instance))); [by left|].
      right. apply Hall. by apply Hmissing.
    + intros Hall p [Hp Hnot]%Hmissing. destruct (Hall p Hp) as [?|?]; [done|tauto].
  - intros Hall. apply Hrel. apply Forall_forall. intros p Hp.
    destruct (decide (p ∈ related_ids db (Employee.id instance))); [by left|].
    right. apply Hall. by apply Hmissing.
Qed.

Lemma relate_error_in_range (db : Database) (employee_id : Z) (objs : list Z) :
  Forall (λ p, fits_column p) objs → relate_error db employee_id objs = IntegrityError.
Proof.
  intros Hfit. unfold relate_error. rewrite bool_decide_eq_true_2; [done|].
  eapply Forall_impl; [exact Hfit|]. simpl. tauto.
Qed.

End orm_facts.

(** * The views, call by call *)
Section view_facts.

Import company_basic.employee_api.

Lemma bind_raised {A B} (m : ORM A) (f : A → ORM B) db e db1 c :
  m db = Outcome (inl e) db1 c → (m ≫= f) db = Outcome (inl e) db1 c.
Proof. unfold mbind, ORM_bind, orm_bind. by intros ->. Qed.

Lemma bind_returned {A B} (m : ORM A) (f : A → ORM B) db a db1 c :
  m db = Outcome (inr a) db1 c →
  (m ≫= f) db
  = Outcome (returned (f a db1)) (stored (f a db1)) (c ++ calls (f a db1)).
Proof. unfold mbind, ORM_bind, orm_bind. by intros ->. Qed.

Lemma get_found (id : Z) (db : Database) (e : Employee.t) :
  Employee_objects db !! id = Some e →
  get_object_or_404 id db = Outcome (inr e) db [Get].
Proof. unfold get_object_or_404. by intros ->. Qed.

Lemma get_missing (id : Z) (db : Database) :
  Employee_objects db !! id = None →
  get_object_or_404 id db = Outcome (inl Http404) db [Get].
Proof. unfold get_object_or_404. by intros ->. Qed.

Lemma save_ok (instance : Employee.t) (db : Database) :
  department_fk_ok db (Employee.department_id instance) = true →
  save instance db = Outcome (inr ()) (saved_db instance db) [Save].
Proof. unfold save. by intros ->. Qed.

Lemma save_fails (instance : Employee.t) (db : Database) :
  department_fk_ok db (Employee.department_id instance) = false →
  save instance db
  = Outcome (inl (department_error (Employee.department_id instance))) db [Save].
Proof. unfold save. by intros ->. Qed.

Lemma create_ok (data : EmployeeRequest.t) (db : Database) :
  department_fk_ok db (EmployeeRequest.department_id data) = true →
  Employee_objects_create (EmployeeRequest.first_name data) (EmployeeRequest.last_name data)
    (EmployeeRequest.department_id data) (EmployeeRequest.birthdate data) db
  = Outcome (inr (created_row data db)) (created_db data db) [Create].
Proof. unfold Employee_objects_create. by intros ->. Qed.

Lemma create_fails (data : EmployeeRequest.t) (db : Database) :
  department_fk_ok db (EmployeeRequest.department_id data) = false →
  Employee_objects_create (EmployeeRequest.first_name data) (EmployeeRequest.last_name data)
    (EmployeeRequest.department_id data) (EmployeeRequest.birthdate data) db
  = Outcome (inl (department_error (EmployeeRequest.department_id data))) db [Create].
Proof. unfold Employee_objects_create. by intros ->. Qed.

Lemma create_employee_cases (data : EmployeeRequest.t) (db : Database) :
  let employee := created_row data db in
  let db1 := created_db data db in
  let ids := EmployeeRequest.project_ids data in
  (department_fk_ok db (EmployeeRequest.department_id data) = false
   ∧ create_employee data db
     = Outcome (inl (department_error (EmployeeRequest.department_id data))) db [Create])
  ∨ (department_fk_ok db (EmployeeRequest.department_id data) = true
     ∧ relatable db1 (Employee.id employee) ids
     ∧ create_employee data db
       = Outcome (inr employee)
           (with_employee_projects (replace_related (Employee.id employee) ids) db1)
           [Create; M2MSet])
  ∨ (department_fk_ok db (EmployeeRequest.department_id data) = true
     ∧ ¬ relatable db1 (Employee.id employee) ids
     ∧ create_employee data db
       = Outcome (inl (relate_error db1 (Employee.id employee) ids)) db1 [Create; M2MSet]).
Proof.
  intros employee db1 ids. unfold create_employee.
  destruct (department_fk_ok db (EmployeeRequest.department_id data)) eqn:Hfk.
  - right. rewrite (bind_returned _ _ _ _ _ _ (create_ok data db Hfk)).
    fold employee. fold db1. fold ids.
    destruct (decide (relatable db1 (Employee.id employee) ids)) as [Hrel|Hrel].
    + left. split_and!; [done..|].
      by rewrite (bind_returned _ _ _ _ _ _ (projects_set_ok _ _ _ Hrel)).
    + right. split_and!; [done..|].
      by rewrite (bind_raised _ _ _ _ _ _ (projects_set_fails _ _ _ Hrel)).
  - left. split; [done|]. by rewrite (bind_raised _ _ _ _ _ _ (create_fails data db Hfk)).
Qed.

Lemma update_employee_cases (id : Z) (data : EmployeeUpdateRequest.t) (db : Database)
    (e : Employee.t) :
  Employee_objects db !! id = Some e →
  let instance := assign_provided e data in
  let db1 := saved_db instance db in
  let fk := department_fk_ok db (Employee.department_id instance) in
  (fk = false
   ∧ update_employee id data db
     = Outcome (inl (department_error (Employee.department_id instance))) db [Get; Save])
  ∨ (fk = true ∧ truthy (EmployeeUpdateRequest.project_ids data) = None
     ∧ update_employee id data db = Outcome (inr instance) db1 [Get; Save])
  ∨ (∃ ids, fk = true ∧ truthy (EmployeeUpdateRequest.project_ids data) = Some ids
     ∧ relatable db (Employee.id e) ids
     ∧ update_employee id data db
       = Outcome (inr instance)
           (with_employee_projects (replace_related (Employee.id e) ids) db1)
           [Get; Save; M2MSet])
  ∨ (∃ ids, fk = true ∧ truthy (EmployeeUpdateRequest.project_ids data) = Some ids
     ∧ ¬ relatable db (Employee.id e) ids
     ∧ update_employee id data db
       = Outcome (inl (relate_error db (Employee.id e) ids)) db1 [Get; Save; M2MSet]).
Proof.
  intros He instance db1 fk. unfold update_employee.
  rewrite (bind_returned _ _ _ _ _ _ (get_found id db e He)).
  cbv zeta. fold instance.
  destruct fk eqn:Hfk; subst fk.
  - right. rewrite (bind_returned _ _ _ _ _ _ (save_ok instance db Hfk)). fold db1.
    destruct (truthy (EmployeeUpdateRequest.project_ids data)) as [ids|] eqn:Hids.
    + right. destruct (decide (relatable db (Employee.id e) ids)) as [Hrel|Hrel].
      * left. exists ids. split_and!; [done..|].
        assert (Hrel1 : relatable db1 (Employee.id instance) ids) by done.
        by rewrite (bind_returned _ _ _ _ _ _ (projects_set_ok _ _ _ Hrel1)).
      * right. exists ids. split_and!; [done..|].
        assert (Hrel1 : ¬ relatable db1 (Employee.id instance) ids) by done.
        by rewrite (bind_raised _ _ _ _ _ _ (projects_set_fails _ _ _ Hrel1)).
    + left. split_and!; [done..|]. done.
  - left. split; [done|]. by rewrite (bind_raised _ _ _ _ _ _ (save_fails instance db Hfk)).
Qed.

Lemma department_error_status (department_id : option Z) :
  status_of (department_error department_id) = 500.
Proof.
  destruct department_id as [d|]; [|done]. simpl. unfold reference_error.
  by destruct (fits_column d).
Qed.

Lemma relate_error_status (db : Database) (employee_id : Z) (objs : list Z) :
  status_of (relate_error db employee_id objs) = 500.
Proof. unfold relate_error. by case_bool_decide. Qed.

Lemma views_not_found (id : Z) (db : Database) :
  Employee_objects db !! id = None →
  get_employee id db = Outcome (inl Http404) db [Get]
  ∧ (∀ data, update_employee id data db = Outcome (inl Http404) db [Get])
  ∧ delete_employee id db = Outcome (inl Http404) db [Get].
Proof.
  intros Hnone. pose proof (get_missing id db Hnone) as Hget.
  unfold get_employee, update_employee, delete_employee.
  split_and!; [done | intros data |]; by rewrite (bind_raised _ _ _ _ _ _ Hget).
Qed.

End view_facts.

(** * Validation *)
Section validation_facts.

Import pydantic.
Context `{Coercions}.

(** Closes the converse direction of the inversion lemmas below: the
    fields listed determine the record. *)
Ltac validated_record r :=
  intros; destruct r; simpl in *;
  repeat match goal with
         | H : ∃ _, _ |- _ => destruct H
         | H : _ ∧ _ |- _ => destruct H
         end;
  simplify_eq; congruence.

Lemma field_absent {A} (validator : json → option A) (key : string) (data : payload) :
  data !! key = None → field validator key data = Some None.
Proof. unfold field. by intros ->. Qed.

Lemma field_present {A} (validator : json → option A) (key : string) (data : payload) v :
  data !! key = Some v → field validator key data = Some <$> validator v.
Proof. unfold field. by intros ->. Qed.

Lemma field_Some_inv {A} (validator : json → option A) (key : string) (data : payload) a :
  field validator key data = Some (Some a) →
  ∃ v, data !! key = Some v ∧ validator v = Some a.
Proof.
  unfold field. destruct (data !! key) as [v|]; [|done].
  destruct (validator v) eqn:Hv; [|done]. intros [= <-]. eauto.
Qed.

Lemma required_inv {A} (validator : json → option A) (key : string) (data : payload) a :
  required validator key data = Some a ↔ field validator key data = Some (Some a).
Proof.
  unfold required. destruct (field validator key data) as [[?|]|]; simpl; naive_solver.
Qed.

Lemma with_default_inv {A} (validator : json → option A) (key : string) dflt
    (data : payload) a :
  with_default validator key dflt data = Some a
  ↔ ∃ o, field validator key data = Some o ∧ a = default dflt o.
Proof.
  unfold with_default. destruct (field validator key data) as [o|]; simpl; naive_solver.
Qed.


Lemma basic_update_validate (data : payload) r :
  company_basic.employee_api.EmployeeUpdateRequest.model_validate data = Some r
  ↔ field str_validator "first_name" data
      = Some (company_basic.employee_api.EmployeeUpdateRequest.first_name r)
    ∧ field str_validator "last_name" data
      = Some (company_basic.employee_api.EmployeeUpdateRequest.last_name r)
    ∧ field int_validator "department_id" data
      = Some (company_basic.employee_api.EmployeeUpdateRequest.department_id r)
    ∧ field (list_validator int_validator) "project_ids" data
      = Some (company_basic.employee_api.EmployeeUpdateRequest.project_ids r)
    ∧ field date_validator "birthdate" data
      = Some (company_basic.employee_api.EmployeeUpdateRequest.birthdate r).
Proof.
  unfold company_basic.employee_api.EmployeeUpdateRequest.model_validate.
  destruct (field str_validator "first_name" data),
    (field str_validator "last_name" data),
    (field int_validator "department_id" data),
    (field (list_validator int_validator) "project_ids" data),
    (field date_validator "birthdate" data); simpl;
    (split; [intros [= <-]; simpl; repeat eexists | validated_record r]).
Qed.

Lemma ninja_create_validate (data : payload) r :
  company_ninja_crud.employee_api.EmployeeRequest.model_validate data = Some r
  ↔ ∃ department_id birthdate,
      required str_validator "first_name" data
        = Some (company_ninja_crud.employee_api.EmployeeRequest.first_name r)
      ∧ required str_validator "last_name" data
        = Some (company_ninja_crud.employee_api.EmployeeRequest.last_name r)
      ∧ field int_validator "department_id" data = Some department_id
      ∧ required (list_validator int_validator) "project_ids" data
        = Some (company_ninja_crud.employee_api.EmployeeRequest.projects r)
      ∧ field date_validator "birthdate" data = Some birthdate
      ∧ company_ninja_crud.employee_api.EmployeeRequest.department_id r = department_id
      ∧ company_ninja_crud.employee_api.EmployeeRequest.birthdate r = birthdate.
Proof.
  unfold company_ninja_crud.employee_api.EmployeeRequest.model_validate.
  destruct (required str_validator "first_name" data),
    (required str_validator "last_name" data),
    (field int_validator "department_id" data),
    (required (list_validator int_validator) "project_ids" data),
    (field date_validator "birthdate" data); simpl;
    (split; [intros [= <-]; simpl; repeat eexists | validated_record r]).
Qed.

Lemma ninja_update_validate (data : payload) r :
  company_ninja_crud.employee_api.EmployeeUpdateRequest.model_validate data = Some r
  ↔ field str_validator "first_name" data
      = Some (company_ninja_crud.employee_api.EmployeeUpdateRequest.first_name r)
    ∧ field str_validator "last_name" data
      = Some (company_ninja_crud.employee_api.EmployeeUpdateRequest.last_name r)
    ∧ field int_validator "department_id" data
      = Some (company_ninja_crud.employee_api.EmployeeUpdateRequest.department_id r)
    ∧ field (list_validator int_validator) "project_ids" data
      = Some (company_ninja_crud.employee_api.EmployeeUpdateRequest.projects r)
    ∧ field date_validator "birthdate" data
      = Some (company_ninja_crud.employee_api.EmployeeUpdateRequest.birthdate r).
Proof.
  unfold company_ninja_crud.employee_api.EmployeeUpdateRequest.model_validate.
  destruct (field str_validator "first_name" data),
    (field str_validator "last_name" data),
    (field int_validator "department_id" data),
    (field (list_validator int_validator) "project_ids" data),
    (field date_validator "birthdate" data); simpl;
    (split; [intros [= <-]; simpl; repeat eexists | validated_record r]).
Qed.

End validation_facts.

(** * The shape of the database is kept *)
Section consistency_facts.

Import company_basic.employee_api.

Lemma consistent_lookup (db : Database) (id : Z) (e : Employee.t) :
  consistent db → Employee_objects db !! id = Some e →
  Employee.id e = id ∧ id ≤ Employee_seq db
  ∧ department_fk_ok db (Employee.department_id e) = true.
Proof.
  intros [Hrows _] He. destruct (Hrows id e He) as (? & ? & Hfk).
  split_and!; [done..|]. by apply Is_true_true.
Qed.

Lemma consistent_related (db : Database) (id p : Z) :
  consistent db → p ∈ related_ids db id → is_Some (Project_objects db !! p).
Proof.
  intros [_ Hjoin] Hp%elem_of_related_ids. by destruct (Hjoin _ Hp).
Qed.

(** In a consistent database [projects.set] succeeds exactly on lists of
    existing projects. *)
Lemma relatable_iff (db : Database) (id : Z) (ids : list Z) :
  consistent db → relatable db id ids ↔ projects_exist db ids.
Proof.
  intros Hdb. unfold relatable, projects_exist. rewrite !Forall_forall.
  split; intros Hall p Hp; [|by right; apply Hall].
  destruct (Hall p Hp); [by eapply consistent_related | done].
Qed.

Lemma department_fk_ok_exists (db : Database) (department_id : option Z) :
  department_fk_ok db department_id = true ↔ department_exists db department_id.
Proof.
  unfold department_fk_ok, department_exists. destruct department_id as [d|].
  - rewrite bool_decide_eq_true. naive_solver.
  - naive_solver.
Qed.

Lemma consistent_saved (db : Database) (instance : Employee.t) :
  consistent db →
  is_Some (Employee_objects db !! Employee.id instance) →
  department_fk_ok db (Employee.department_id instance) = true →
  consistent (saved_db instance db).
Proof.
  intros [Hrows Hjoin] [e0 He0] Hfk. split; simpl.
  - apply map_Forall_insert_2; [|done].
    destruct (Hrows _ _ He0) as (_ & ? & _). split_and!; [done..|].
    by apply Is_true_true.
  - intros row Hrow. destruct (Hjoin row Hrow) as [[e He] Hp]. split; [|done].
    destruct (decide (Employee.id instance = row.1)) as [->|Hne].
    + rewrite lookup_insert_eq. eauto.
    + rewrite lookup_insert_ne by done. eauto.
Qed.

Lemma consistent_replace_related (db : Database) (id : Z) (ids : list Z) :
  consistent db →
  is_Some (Employee_objects db !! id) →
  relatable db id ids →
  consistent (with_employee_projects (replace_related id ids) db).
Proof.
  intros Hdb Hid Hrel. pose proof Hdb as [Hrows Hjoin]. split; simpl; [done|].
  intros row. unfold replace_related.
  rewrite elem_of_union, elem_of_filter, elem_of_map.
  intros [[_ Hrow] | (p & -> & Hp%elem_of_list_to_set)]; [by apply Hjoin|].
  simpl. split; [done|].
  apply relatable_iff in Hrel; [|done].
  eapply Forall_forall in Hrel; eauto.
Qed.

Lemma consistent_created (db : Database) (data : EmployeeRequest.t) :
  consistent db →
  department_fk_ok db (EmployeeRequest.department_id data) = true →
  consistent (created_db data db).
Proof.
  intros [Hrows Hjoin] Hfk. split; simpl.
  - apply map_Forall_insert_2.
    + split_and!; [done | lia | by apply Is_true_true].
    + intros pk e He. destruct (Hrows pk e He) as (? & ? & ?).
      split_and!; [done | lia | done].
  - intros row Hrow. destruct (Hjoin row Hrow) as [[e He] Hp]. split; [|done].
    destruct (decide (Employee_seq db + 1 = row.1)) as [<-|Hne].
    + rewrite lookup_insert_eq. eauto.
    + rewrite lookup_insert_ne by done. eauto.
Qed.

Lemma consistent_deleted (db : Database) (pk : Z) :
  consistent db →
  consistent (with_employees (base.delete pk)
                (with_employee_projects (filter (λ row, row.1 ≠ pk)) db)).
Proof.
  intros [Hrows Hjoin]. split; simpl.
  - intros k e [_ He]%lookup_delete_Some. by apply Hrows.
  - intros row [Hne Hrow]%elem_of_filter.
    destruct (Hjoin row Hrow) as [He Hp]. split; [|done].
    by rewrite lookup_delete_ne.
Qed.

(** Whatever a view does and however it ends, it leaves a consistent
    database consistent. *)
Lemma views_keep_consistent (db : Database) :
  consistent db →
  (∀ data, consistent (stored (create_employee data db)))
  ∧ (∀ id, consistent (stored (get_employee id db)))
  ∧ (∀ id data, consistent (stored (update_employee id data db)))
  ∧ (∀ id, consistent (stored (delete_employee id db))).
Proof.
  intros Hdb. split_and!.
  - intros data.
    destruct (create_employee_cases data db)
      as [(Hfk & ->) | [(Hfk & Hrel & ->) | (Hfk & Hrel & ->)]]; simpl.
    + done.
    + apply consistent_replace_related; [by apply consistent_created | | done].
      simpl. rewrite lookup_insert_eq. eauto.
    + by apply consistent_created.
  - intros id. unfold get_employee, get_object_or_404.
    by destruct (Employee_objects db !! id).
  - intros id data. destruct (Employee_objects db !! id) as [e|] eqn:He.
    + destruct (consistent_lookup db id e Hdb He) as (Hid & _ & _).
      assert (Hthere : is_Some (Employee_objects db !! Employee.id (assign_provided e data))).
      { simpl. rewrite Hid. eauto. }
      destruct (update_employee_cases id data db e He)
        as [(Hfk & ->) | [(Hfk & _ & ->) | [(ids & Hfk & _ & Hrel & ->)
                                           | (ids & Hfk & _ & Hrel & ->)]]]; simpl.
      * done.
      * by apply consistent_saved.
      * apply consistent_replace_related; [by apply consistent_saved | | done].
        simpl. rewrite lookup_insert_eq. eauto.
      * by apply consistent_saved.
    + destruct (views_not_found id db He) as (_ & Hupd & _). by rewrite Hupd.
  - intros id. destruct (Employee_objects db !! id) as [e|] eqn:He.
    + unfold delete_employee.
      rewrite (bind_returned _ _ _ _ _ _ (get_found id db e He)). simpl.
      by apply consistent_deleted.
    + destruct (views_not_found id db He) as (_ & _ & Hdel). by rewrite Hdel.
Qed.

Lemma seeded_consistent (today : date) : consistent (seeded today).
Proof. apply (bool_decide_unpack _). by vm_compute. Qed.

End consistency_facts.

(** * Relations after [projects.set] *)
Section relation_facts.

Import company_basic.employee_api.
Context `{QueryOrder}.

Lemma related_ids_replaced (db : Database) (id : Z) (ids : list Z) :
  related_ids (with_employee_projects (replace_related id ids) db) id = list_to_set ids.
Proof.
  apply set_eq. intros p. rewrite elem_of_related_ids. simpl. unfold replace_related.
  rewrite elem_of_union, elem_of_filter, elem_of_map, elem_of_list_to_set. simpl.
  split.
  - intros [[Hne _] | (q & [= ->] & Hq%elem_of_list_to_set)]; done.
  - intros Hp. right. exists p. by rewrite elem_of_list_to_set.
Qed.

Lemma related_ids_replaced_other (db : Database) (id id' : Z) (ids : list Z) :
  id' ≠ id →
  related_ids (with_employee_projects (replace_related id ids) db) id' = related_ids db id'.
Proof.
  intros Hne. apply set_eq. intros p. rewrite !elem_of_related_ids. simpl.
  unfold replace_related. rewrite elem_of_union, elem_of_filter, elem_of_map. simpl.
  split.
  - intros [[_ Hin] | (q & [= -> ->] & _)]; done.
  - intros Hin. by left.
Qed.

Lemma serve_stored (success : Z) (view : ORM Employee.t) (db : Database) :
  (serve success view db).2 = stored (view db).
Proof.
  unfold serve. destruct (returned (view db)) as [|e]; [done|].
  by destruct (EmployeeResponse.from_orm (stored (view db)) e).
Qed.

Lemma serve_returned (success : Z) (view : ORM Employee.t) (db : Database) e :
  returned (view db) = inr e →
  serve success view db
  = (match EmployeeResponse.from_orm (stored (view db)) e with
     | Some body => Response success (Some body)
     | None => Response 500 None
     end, stored (view db)).
Proof.
  unfold serve. intros ->. by destruct (EmployeeResponse.from_orm (stored (view db)) e).
Qed.

Lemma serve_success (success : Z) (view : ORM Employee.t) (db : Database) :
  success ≠ 404 → success ≠ 500 →
  status (serve success view db).1 = success → ∃ e, returned (view db) = inr e.
Proof.
  intros H404 H500. unfold serve. destruct (returned (view db)) as [[]|e]; simpl; [done..|].
  intros _. by exists e.
Qed.

Lemma serve_body (success : Z) (view : ORM Employee.t) (db db' : Database) st body :
  serve success view db = (Response st (Some body), db') →
  ∃ e, returned (view db) = inr e ∧ db' = stored (view db) ∧ st = success
       ∧ EmployeeResponse.from_orm db' e = Some body.
Proof.
  unfold serve. destruct (returned (view db)) as [err|e] eqn:Hret; [done|].
  destruct (EmployeeResponse.from_orm (stored (view db)) e) as [b|] eqn:Hb; [|done].
  intros [= <- <- <-]. by exists e.
Qed.

Lemma from_orm_Some (db : Database) (e : Employee.t) body :
  EmployeeResponse.from_orm db e = Some body ↔
  ∃ d b, Employee.department_id e = Some d ∧ Employee.birthdate e = Some b
         ∧ body = EmployeeResponse.Build (Employee.id e) (Employee.first_name e)
                    (Employee.last_name e) d (EmployeeResponse.resolve_project_ids db e) b.
Proof.
  unfold EmployeeResponse.from_orm.
  destruct (Employee.department_id e) as [d|], (Employee.birthdate e) as [b|]; simpl;
    split; try done; try (intros (? & ? & ? & ? & _); done).
  - intros [= <-]. by exists d, b.
  - intros (? & ? & [= <-] & [= <-] & ->). done.
Qed.

Lemma from_orm_None (db : Database) (e : Employee.t) :
  EmployeeResponse.from_orm db e = None ↔
  Employee.department_id e = None ∨ Employee.birthdate e = None.
Proof.
  unfold EmployeeResponse.from_orm.
  destruct (Employee.department_id e), (Employee.birthdate e); simpl; naive_solver.
Qed.

Lemma elem_of_resolve_project_ids (db : Database) (e : Employee.t) (p : Z) :
  p ∈ EmployeeResponse.resolve_project_ids db e ↔ p ∈ related_ids db (Employee.id e).
Proof.
  unfold EmployeeResponse.resolve_project_ids.
  rewrite (related_order_perm (related_ids db (Employee.id e))). apply elem_of_elements.
Qed.

Lemma NoDup_resolve_project_ids (db : Database) (e : Employee.t) :
  NoDup (EmployeeResponse.resolve_project_ids db e).
Proof.
  unfold EmployeeResponse.resolve_project_ids.
  rewrite (related_order_perm (related_ids db (Employee.id e))). apply NoDup_elements.
Qed.

Lemma serve_raised (success : Z) (view : ORM Employee.t) (db : Database) e :
  returned (view db) = inl e →
  serve success view db = (Response (status_of e) None, stored (view db)).
Proof. unfold serve. by intros ->. Qed.

(** Where [update_employee] leaves the row and the relation of an employee
    that is there: the row is the old one or the one assigned from the
    request, the relation the old one or the truthy list of the request. *)
Lemma update_employee_leaves (id : Z) (data : EmployeeUpdateRequest.t) (db : Database)
    (e : Employee.t) :
  Employee.id e = id →
  Employee_objects db !! id = Some e →
  let o := update_employee id data db in
  (Employee_objects (stored o) !! id = Some e
   ∨ Employee_objects (stored o) !! id = Some (assign_provided e data))
  ∧ (related_ids (stored o) id = related_ids db id
     ∨ ∃ ids, truthy (EmployeeUpdateRequest.project_ids data) = Some ids
              ∧ related_ids (stored o) id = list_to_set ids).
Proof.
  intros Hid He o. subst o.
  assert (Hsaved : Employee_objects (saved_db (assign_provided e data) db) !! id
                   = Some (assign_provided e data)).
  { simpl. rewrite Hid. apply lookup_insert_eq. }
  destruct (update_employee_cases id data db e He)
    as [(Hfk & ->) | [(Hfk & _ & ->) | [(ids & Hfk & Hids & Hrel & ->)
                                       | (ids & Hfk & _ & Hrel & ->)]]]; simpl stored.
  - split; by left.
  - split; [by right | by left].
  - split; [by right|]. right. exists ids. split; [done|].
    rewrite Hid. apply related_ids_replaced.
  - split; [by right | by left].
Qed.

End relation_facts.

(** * Partial update *)
Section partial_update.

Import pydantic company_basic.employee_api.
Context `{QueryOrder}.

(** C1. A PATCH on an employee that is there keeps every field its payload
    does not name: the row stays under its id, and [first_name],
    [last_name], [department_id] and [birthdate] of the row, and the
    project ids related to it, are what they were whenever the payload has
    no such key. This holds however the request ends. *)
Theorem patch_keeps_absent_fields `{Coercions} (db : Database) (id : Z) (e : Employee.t)
    (data : payload) :
  consistent db →
  Employee_objects db !! id = Some e →
  let db' := (PATCH id data db).2 in
  ∃ e', Employee_objects db' !! id = Some e'
    ∧ (data !! "first_name" = None → Employee.first_name e' = Employee.first_name e)
    ∧ (data !! "last_name" = None → Employee.last_name e' = Employee.last_name e)
    ∧ (data !! "department_id" = None
       → Employee.department_id e' = Employee.department_id e)
    ∧ (data !! "birthdate" = None → Employee.birthdate e' = Employee.birthdate e)
    ∧ (data !! "project_ids" = None → related_ids db' id = related_ids db id).
Proof.
  intros Hdb He db'. subst db'. unfold PATCH, validated.
  destruct (EmployeeUpdateRequest.model_validate data) as [d|] eqn:Hd; simpl;
    [|exists e; by split_and!].
  rewrite serve_stored.
  destruct (consistent_lookup db id e Hdb He) as (Hid & _ & _).
  apply basic_update_validate in Hd as (Hfn & Hln & Hdep & Hpids & Hbd).
  destruct (update_employee_leaves id d db e Hid He) as [Hrow Hrel].
  assert (Hkeep : data !! "project_ids" = None →
                  related_ids (stored (update_employee id d db)) id = related_ids db id).
  { intros Habs. rewrite (field_absent _ _ _ Habs) in Hpids.
    destruct Hrel as [?|(ids & Hids & _)]; [done|].
    injection Hpids as Hnone. by rewrite <- Hnone in Hids. }
  destruct Hrow as [Hrow|Hrow].
  - exists e. by split_and!.
  - exists (assign_provided e d). split_and!; [done | | | | | done]; intros Habs; simpl.
    + rewrite (field_absent _ _ _ Habs) in Hfn. injection Hfn as Hnone. by rewrite <- Hnone.
    + rewrite (field_absent _ _ _ Habs) in Hln. injection Hln as Hnone. by rewrite <- Hnone.
    + rewrite (field_absent _ _ _ Habs) in Hdep. injection Hdep as Hnone. by rewrite <- Hnone.
    + rewrite (field_absent _ _ _ Habs) in Hbd. injection Hbd as Hnone. by rewrite <- Hnone.
Qed.

(** The fields a PATCH that succeeds does apply: a key of the payload ends
    up in the row with its validated value. *)
Lemma patch_applies_present_fields `{Coercions} (db : Database) (id : Z) (e : Employee.t)
    (data : payload) (d : EmployeeUpdateRequest.t) :
  consistent db →
  Employee_objects db !! id = Some e →
  EmployeeUpdateRequest.model_validate data = Some d →
  status (PATCH id data db).1 = 200 →
  ∃ e', Employee_objects (PATCH id data db).2 !! id = Some e'
    ∧ (∀ v, EmployeeUpdateRequest.first_name d = Some v → Employee.first_name e' = v)
    ∧ (∀ v, EmployeeUpdateRequest.last_name d = Some v → Employee.last_name e' = v)
    ∧ (∀ v, EmployeeUpdateRequest.department_id d = Some v
            → Employee.department_id e' = Some v)
    ∧ (∀ v, EmployeeUpdateRequest.birthdate d = Some v → Employee.birthdate e' = Some v).
Proof.
  intros Hdb He Hd. unfold PATCH, validated. rewrite Hd.
  destruct (consistent_lookup db id e Hdb He) as (Hid & _ & _).
  assert (Hfields : ∃ e', Some (assign_provided e d) = Some e'
    ∧ (∀ v, EmployeeUpdateRequest.first_name d = Some v → Employee.first_name e' = v)
    ∧ (∀ v, EmployeeUpdateRequest.last_name d = Some v → Employee.last_name e' = v)
    ∧ (∀ v, EmployeeUpdateRequest.department_id d = Some v
            → Employee.department_id e' = Some v)
    ∧ (∀ v, EmployeeUpdateRequest.birthdate d = Some v → Employee.birthdate e' = Some v)).
  { exists (assign_provided e d). split_and!; [done|..]; by intros v; simpl; intros ->. }
  intros [e0 Hret]%serve_success; [|done..]. rewrite serve_stored. revert Hret.
  destruct (update_employee_cases id d db e He)
    as [(Hfk & ->) | [(Hfk & _ & ->) | [(ids & Hfk & Hids & Hrel & ->)
                                       | (ids & Hfk & _ & Hrel & ->)]]]; simpl; try done.
  - intros _. by rewrite Hid, lookup_insert_eq.
  - intros _. by rewrite Hid, lookup_insert_eq.
Qed.

(** C2. On an employee that is there, with a department reference that can
    be stored: a request whose [project_ids] is the empty list succeeds and
    leaves the related projects as they were; a request whose [project_ids]
    is a non-empty list succeeds exactly when all its ids are projects, and
    then the related projects are those of the list and no others. *)
Theorem update_project_ids_empty_or_not (db : Database) (id : Z) (e : Employee.t)
    (data : EmployeeUpdateRequest.t) :
  consistent db →
  Employee_objects db !! id = Some e →
  department_exists db (EmployeeUpdateRequest.department_id data) →
  let o := update_employee id data db in
  (EmployeeUpdateRequest.project_ids data = Some [] →
     returned o = inr (assign_provided e data)
     ∧ related_ids (stored o) id = related_ids db id)
  ∧ (∀ ids, EmployeeUpdateRequest.project_ids data = Some ids → ids ≠ [] →
       (returned o = inr (assign_provided e data) ↔ projects_exist db ids)
       ∧ (projects_exist db ids → related_ids (stored o) id = list_to_set ids)).
Proof.
  intros Hdb He Hdep o.
  destruct (consistent_lookup db id e Hdb He) as (Hid & _ & Hfk0).
  assert (Hfk : department_fk_ok db (Employee.department_id (assign_provided e data)) = true).
  { simpl. destruct (EmployeeUpdateRequest.department_id data) as [d|] eqn:Hd; simpl.
    - apply bool_decide_eq_true. by apply Hdep.
    - done. }
  pose proof (update_employee_cases id data db e He) as Hcases. cbv zeta in Hcases.
  fold o in Hcases. rewrite Hfk in Hcases.
  split.
  - intros Hempty. rewrite Hempty in Hcases. simpl in Hcases.
    destruct Hcases as [(? & _) | [(_ & _ & ->) | [(? & _ & ? & _) | (? & _ & ? & _)]]];
      done.
  - intros ids Hids Hne. rewrite Hids in Hcases.
    assert (Htruthy : truthy (Some ids) = Some ids) by (by destruct ids).
    rewrite Htruthy in Hcases.
    destruct Hcases as [(? & _) | [(_ & ? & _) | [(ids' & _ & [= <-] & Hrel & ->)
                                                 | (ids' & _ & [= <-] & Hrel & ->)]]];
      try done; simpl.
    + apply relatable_iff in Hrel; [|done]. split; [done|]. intros _.
      rewrite Hid. apply related_ids_replaced.
    + split; [split; [done|] |]; intros Hex; destruct Hrel; by apply relatable_iff.
Qed.

(** The empty list the view sees is the empty array of the payload. *)
Lemma validated_empty_project_ids `{Coercions} (data : payload) (d : EmployeeUpdateRequest.t) :
  data !! "project_ids" = Some (JArr []) →
  EmployeeUpdateRequest.model_validate data = Some d →
  EmployeeUpdateRequest.project_ids d = Some [].
Proof.
  intros Hkey (_ & _ & _ & Hpids & _)%basic_update_validate.
  rewrite (field_present _ _ _ _ Hkey) in Hpids. simpl in Hpids. congruence.
Qed.

End partial_update.

Section partial_update_examples.

Import pydantic company_basic.employee_api.
#[local] Existing Instance by_primary_key.

Lemma patch_keeps_absent_fields_witness :
  let data : payload := {[ "last_name" := JStr (text " Jones ") ]} in
  let db' := (@PATCH plain_coercions by_primary_key 1 data (seeded seed_day)).2 in
  ∃ e', Employee_objects db' !! 1 = Some e'
    ∧ (data !! "first_name" = None → Employee.first_name e' = Employee.first_name bob)
    ∧ (data !! "last_name" = None → Employee.last_name e' = Employee.last_name bob)
    ∧ (data !! "department_id" = None
       → Employee.department_id e' = Employee.department_id bob)
    ∧ (data !! "birthdate" = None → Employee.birthdate e' = Employee.birthdate bob)
    ∧ (data !! "project_ids" = None
       → related_ids db' 1 = related_ids (seeded seed_day) 1).
Proof.
  apply (@patch_keeps_absent_fields by_primary_key plain_coercions (seeded seed_day) 1 bob).
  - apply (bool_decide_unpack _). vm_compute. exact I.
  - vm_compute. reflexivity.
Defined.

Lemma update_project_ids_empty_or_not_witness :
  let data := EmployeeUpdateRequest.Build None None None (Some []) None in
  let o := update_employee 1 data (seeded seed_day) in
  (EmployeeUpdateRequest.project_ids data = Some [] →
     returned o = inr (assign_provided bob data)
     ∧ related_ids (stored o) 1 = related_ids (seeded seed_day) 1)
  ∧ (∀ ids, EmployeeUpdateRequest.project_ids data = Some ids → ids ≠ [] →
       (returned o = inr (assign_provided bob data) ↔ projects_exist (seeded seed_day) ids)
       ∧ (projects_exist (seeded seed_day) ids → related_ids (stored o) 1 = list_to_set ids)).
Proof.
  apply (update_project_ids_empty_or_not (seeded seed_day) 1 bob).
  - apply (bool_decide_unpack _). vm_compute. exact I.
  - vm_compute. reflexivity.
  - intros d. simpl. discriminate.
Defined.

End partial_update_examples.

(** * Missing ids, and what a failing view leaves behind *)
Section failures.

Import pydantic company_basic.employee_api.
Context `{QueryOrder}.

(** C4. For an id that is not in the employee table, read, update and
    delete each raise [Http404], answered with status 404, and none of them
    changes the database: in particular the delete removes nothing. *)
Theorem missing_id_is_not_found (db : Database) (id : Z) :
  Employee_objects db !! id = None →
  (returned (get_employee id db) = inl Http404 ∧ GET id db = (Response 404 None, db))
  ∧ (∀ data, returned (update_employee id data db) = inl Http404
             ∧ serve 200 (update_employee id data) db = (Response 404 None, db))
  ∧ (returned (delete_employee id db) = inl Http404
     ∧ stored (delete_employee id db) = db
     ∧ DELETE id db = (Response 404 None, db)).
Proof.
  intros Hnone. destruct (views_not_found id db Hnone) as (Hget & Hupd & Hdel).
  split_and!.
  - by rewrite Hget.
  - unfold GET, serve. by rewrite Hget.
  - intros data. split; [by rewrite Hupd|]. unfold serve. by rewrite Hupd.
  - by rewrite Hdel.
  - by rewrite Hdel.
  - unfold DELETE. by rewrite Hdel.
Qed.

(** A PATCH of a missing id with a body that validates is answered 404;
    a body that does not validate is turned away before the lookup. *)
Lemma patch_missing_id `{Coercions} (db : Database) (id : Z) (data : payload) :
  Employee_objects db !! id = None →
  PATCH id data db
  = (Response (match EmployeeUpdateRequest.model_validate data with
               | Some _ => 404
               | None => 422
               end) None, db).
Proof.
  intros Hnone. unfold PATCH, validated.
  destruct (EmployeeUpdateRequest.model_validate data) as [d|]; [|done].
  unfold serve. by destruct (views_not_found id db Hnone) as (_ & -> & _).
Qed.

(** Every ORM call is atomic on its own: if it raises, the database is as
    it was before the call. *)
Lemma orm_calls_atomic (db : Database) :
  (∀ id, single_atomic_call (get_object_or_404 id) db)
  ∧ (∀ fn ln dep bd, single_atomic_call (Employee_objects_create fn ln dep bd) db)
  ∧ (∀ instance, single_atomic_call (save instance) db)
  ∧ (∀ instance objs, single_atomic_call (projects_set instance objs) db)
  ∧ (∀ instance, single_atomic_call (delete instance) db).
Proof.
  unfold single_atomic_call. split_and!.
  - intros id. unfold get_object_or_404. by destruct (Employee_objects db !! id).
  - intros fn ln dep bd. unfold Employee_objects_create.
    by destruct (department_fk_ok db dep).
  - intros instance. unfold save. by destruct (department_fk_ok db _).
  - intros instance objs.
    destruct (decide (relatable db (Employee.id instance) objs)) as [Hrel|Hrel].
    + by rewrite projects_set_ok.
    + by rewrite projects_set_fails.
  - done.
Qed.

(** C5, as the code has it. Only the read is a single persistence call,
    and it never writes. The other views chain calls without an enclosing
    transaction, each call atomic on its own ([orm_calls_atomic]): a view
    that raises leaves the database as the calls it completed left it. A
    delete that raises has changed nothing. A create that raises either
    failed in its insert and changed nothing, or failed in [projects.set]
    and leaves the inserted row. An update that raises either failed in
    its lookup or its [save] and changed nothing, or failed in
    [projects.set] and leaves the saved row. *)
Theorem failing_view_leaves_completed_calls (db : Database) :
  (∀ id, single_atomic_call (get_employee id) db ∧ stored (get_employee id db) = db)
  ∧ (∀ id err, returned (delete_employee id db) = inl err →
       stored (delete_employee id db) = db)
  ∧ (∀ data err, returned (create_employee data db) = inl err →
       (calls (create_employee data db) = [Create]
        ∧ stored (create_employee data db) = db)
       ∨ (calls (create_employee data db) = [Create; M2MSet]
          ∧ stored (create_employee data db) = created_db data db))
  ∧ (∀ id data err, returned (update_employee id data db) = inl err →
       stored (update_employee id data db) = db
       ∨ ∃ e, Employee_objects db !! id = Some e
              ∧ calls (update_employee id data db) = [Get; Save; M2MSet]
              ∧ stored (update_employee id data db) = saved_db (assign_provided e data) db).
Proof.
  split_and!.
  - intros id. destruct (orm_calls_atomic db) as (Hget & _).
    split; [apply Hget|]. unfold get_employee, get_object_or_404.
    by destruct (Employee_objects db !! id).
  - intros id err. destruct (Employee_objects db !! id) as [e|] eqn:He.
    + unfold delete_employee.
      by rewrite (bind_returned _ _ _ _ _ _ (get_found id db e He)).
    + destruct (views_not_found id db He) as (_ & _ & ->). done.
  - intros data err.
    destruct (create_employee_cases data db)
      as [(_ & ->) | [(_ & _ & ->) | (_ & _ & ->)]]; simpl; [by left | done | by right].
  - intros id data err. destruct (Employee_objects db !! id) as [e|] eqn:He.
    + destruct (update_employee_cases id data db e He)
        as [(_ & ->) | [(_ & _ & ->) | [(ids & _ & _ & _ & ->) | (ids & _ & _ & _ & ->)]]];
        simpl; [by left | done | done | right; by exists e].
    + destruct (views_not_found id db He) as (_ & -> & _). by left.
Qed.

(** C5, as the claim has it, fails: creating an employee on a project that
    does not exist takes two persistence calls, raises in the second, and
    leaves the row the first one inserted. *)
Lemma create_employee_partial_failure :
  let o := create_employee stray_request (seeded seed_day) in
  returned o = inl IntegrityError
  ∧ calls o = [Create; M2MSet]
  ∧ Employee_objects (seeded seed_day) !! 2 = None
  ∧ Employee_objects (stored o) !! 2
    = Some (Employee.Build 2 (text "A") (text "B") None (Some 1))
  ∧ stored o ≠ seeded seed_day
  ∧ ¬ single_atomic_call (create_employee stray_request) (seeded seed_day).
Proof.
  split_and!; try (vm_compute; reflexivity).
  - intros Heq. apply (f_equal (λ db, Employee_objects db !! 2)) in Heq.
    vm_compute in Heq. discriminate.
  - intros [Hone _]. vm_compute in Hone. discriminate.
Qed.

End failures.

Section failures_examples.

Import pydantic company_basic.employee_api.
#[local] Existing Instance by_primary_key.

Lemma missing_id_is_not_found_witness :
  (returned (get_employee 7 (seeded seed_day)) = inl Http404
   ∧ GET 7 (seeded seed_day) = (Response 404 None, seeded seed_day))
  ∧ (∀ data, returned (update_employee 7 data (seeded seed_day)) = inl Http404
             ∧ serve 200 (update_employee 7 data) (seeded seed_day)
               = (Response 404 None, seeded seed_day))
  ∧ (returned (delete_employee 7 (seeded seed_day)) = inl Http404
     ∧ stored (delete_employee 7 (seeded seed_day)) = seeded seed_day
     ∧ DELETE 7 (seeded seed_day) = (Response 404 None, seeded seed_day)).
Proof.
  apply (missing_id_is_not_found (seeded seed_day) 7). vm_compute. reflexivity.
Defined.

Lemma failing_view_leaves_completed_calls_witness :
  let o := create_employee stray_request (seeded seed_day) in
  returned o = inl IntegrityError
  ∧ ((calls o = [Create] ∧ stored o = seeded seed_day)
     ∨ (calls o = [Create; M2MSet] ∧ stored o = created_db stray_request (seeded seed_day))).
Proof.
  split; [vm_compute; reflexivity|].
  destruct (failing_view_leaves_completed_calls (seeded seed_day)) as (_ & _ & Hcreate & _).
  apply (Hcreate stray_request IntegrityError). vm_compute. reflexivity.
Defined.

End failures_examples.

(** * Create, and read back *)
Section create_and_read.

Import pydantic company_basic.employee_api.
Context `{QueryOrder}.

Lemma relatable_created (db : Database) (data : EmployeeRequest.t) :
  projects_exist db (EmployeeRequest.project_ids data) →
  relatable (created_db data db) (Employee_seq db + 1) (EmployeeRequest.project_ids data).
Proof.
  unfold projects_exist, relatable. intros Hall.
  eapply Forall_impl; [exact Hall|]. intros p Hp. by right.
Qed.

(** What a create request that can be stored comes to. *)
Lemma create_employee_ok (db : Database) (data : EmployeeRequest.t) :
  department_exists db (EmployeeRequest.department_id data) →
  projects_exist db (EmployeeRequest.project_ids data) →
  create_employee data db
  = Outcome (inr (created_row data db))
      (with_employee_projects
         (replace_related (Employee_seq db + 1) (EmployeeRequest.project_ids data))
         (created_db data db))
      [Create; M2MSet].
Proof.
  intros Hdep%department_fk_ok_exists Hprojects.
  pose proof (relatable_created db data Hprojects) as Hrel.
  destruct (create_employee_cases data db)
    as [(Hfk & _) | [(_ & _ & ->) | (_ & Hnot & _)]]; [congruence | done | done].
Qed.

(** C6. Whenever a create request returns an employee, it has made two
    calls, the insert of the row from the scalar fields and then
    [projects.set]; the row is stored under the returned id, and the
    project ids related to it are exactly those of the request's list,
    whatever join rows the database held before; with the empty list there
    are none. A request whose department reference and project ids can be
    stored does return an employee. *)
Theorem create_sets_exactly_the_list (db : Database) (data : EmployeeRequest.t) :
  let o := create_employee data db in
  (∀ employee, returned o = inr employee →
     calls o = [Create; M2MSet]
     ∧ Employee.first_name employee = EmployeeRequest.first_name data
     ∧ Employee.last_name employee = EmployeeRequest.last_name data
     ∧ Employee.department_id employee = EmployeeRequest.department_id data
     ∧ Employee.birthdate employee = EmployeeRequest.birthdate data
     ∧ Employee_objects (stored o) !! Employee.id employee = Some employee
     ∧ related_ids (stored o) (Employee.id employee)
       = list_to_set (EmployeeRequest.project_ids data)
     ∧ (EmployeeRequest.project_ids data = [] →
        EmployeeResponse.resolve_project_ids (stored o) employee = []))
  ∧ (department_exists db (EmployeeRequest.department_id data) →
     projects_exist db (EmployeeRequest.project_ids data) →
     ∃ employee, returned o = inr employee).
Proof.
  intros o. subst o. split.
  - intros employee.
    destruct (create_employee_cases data db)
      as [(_ & ->) | [(_ & _ & ->) | (_ & _ & ->)]]; simpl; [done | | done].
    intros [= <-]. simpl. split_and!; try done.
    + apply lookup_insert_eq.
    + apply related_ids_replaced.
    + intros Hnil. unfold EmployeeResponse.resolve_project_ids. simpl.
      rewrite related_ids_replaced, Hnil. simpl. apply Permutation_nil_r.
      by rewrite related_order_perm, elements_empty.
  - intros Hdep Hprojects. rewrite (create_employee_ok db data Hdep Hprojects). eauto.
Qed.

(** Create and read back, for a row that can be serialised: a create
    request with a birthdate, a department that exists and two distinct
    projects that exist answers 201, and reading the created id then
    answers 200 with a body whose [project_ids] holds the two ids and
    nothing else, each once, in whatever order. *)
Lemma create_then_read_with_all_fields (db : Database) (data : EmployeeRequest.t)
    (P1 P2 d : Z) (b : date) :
  P1 ≠ P2 →
  is_Some (Project_objects db !! P1) →
  is_Some (Project_objects db !! P2) →
  EmployeeRequest.department_id data = Some d →
  is_Some (Department_objects db !! d) →
  EmployeeRequest.birthdate data = Some b →
  EmployeeRequest.project_ids data = [P1; P2] →
  ∃ created db1 read,
    serve 201 (create_employee data) db = (Response 201 (Some created), db1)
    ∧ GET (EmployeeResponse.id created) db1 = (Response 200 (Some read), db1)
    ∧ list_to_set (EmployeeResponse.project_ids read) = ({[P1; P2]} : gset Z)
    ∧ EmployeeResponse.project_ids read ≡ₚ [P1; P2].
Proof.
  intros Hne HP1 HP2 Hd Hdep Hb Hids.
  assert (Hprojects : projects_exist db (EmployeeRequest.project_ids data)).
  { rewrite Hids. by repeat constructor. }
  assert (Hexists : department_exists db (EmployeeRequest.department_id data)).
  { intros d'. rewrite Hd. by intros [= <-]. }
  pose proof (create_employee_ok db data Hexists Hprojects) as Hcreate.
  set (employee := created_row data db) in *.
  assert (Hret : returned (create_employee data db) = inr employee) by by rewrite Hcreate.
  assert (Hrow : Employee_objects (stored (create_employee data db)) !! Employee.id employee
                 = Some employee).
  { rewrite Hcreate. simpl. apply lookup_insert_eq. }
  assert (Hrel : related_ids (stored (create_employee data db)) (Employee.id employee)
                 = list_to_set (EmployeeRequest.project_ids data)).
  { rewrite Hcreate. apply related_ids_replaced. }
  set (db1 := stored (create_employee data db)) in *.
  set (body := EmployeeResponse.Build (Employee.id employee) (Employee.first_name employee)
                 (Employee.last_name employee) d
                 (EmployeeResponse.resolve_project_ids db1 employee) b).
  assert (Hbody : EmployeeResponse.from_orm db1 employee = Some body).
  { apply from_orm_Some. exists d, b. by split_and!. }
  clearbody employee. clear Hcreate.
  exists body, db1, body.
  assert (Hset : related_ids db1 (Employee.id employee) = {[P1; P2]}).
  { rewrite Hrel, Hids. simpl. set_solver. }
  assert (Hperm : EmployeeResponse.resolve_project_ids db1 employee ≡ₚ [P1; P2]).
  { unfold EmployeeResponse.resolve_project_ids. rewrite related_order_perm, Hset.
    rewrite elements_union_singleton by set_solver. by rewrite elements_singleton. }
  split_and!.
  - rewrite (serve_returned _ _ _ _ Hret). fold db1. by rewrite Hbody.
  - unfold GET, get_employee. simpl.
    assert (Hget : get_object_or_404 (Employee.id employee) db1
                   = Outcome (inr employee) db1 [Get]) by by apply get_found.
    unfold serve. rewrite Hget. cbn [returned stored]. by rewrite Hbody.
  - simpl. rewrite Hperm. set_solver.
  - done.
Qed.

End create_and_read.

Section create_and_read_examples.

Import pydantic company_basic.employee_api.
#[local] Existing Instance by_primary_key.

Lemma create_sets_exactly_the_list_witness :
  let data := EmployeeRequest.Build (text "Ann") (text "Lee") (Some 2) [2] None in
  let o := create_employee data (seeded seed_day) in
  ∃ employee,
    returned o = inr employee
    ∧ Employee_objects (stored o) !! Employee.id employee = Some employee
    ∧ related_ids (stored o) (Employee.id employee) = {[2]}.
Proof.
  intros data o.
  destruct (create_sets_exactly_the_list (seeded seed_day) data) as [Hexact Hreturns].
  destruct Hreturns as [employee Hret].
  - intros d [= <-]. vm_compute. eauto.
  - repeat constructor. vm_compute. eauto.
  - exists employee. destruct (Hexact employee Hret) as (_ & _ & _ & _ & _ & Hrow & Hrel & _).
    split_and!; [done | done |]. unfold o. rewrite Hrel. simpl. set_solver.
Defined.

End create_and_read_examples.

(** C7, on the code. The spec's own example on the seeded database: a
    create with [first_name], [last_name] and [project_ids] 1 and 2, two
    distinct projects that exist, and neither birthdate nor department,
    as the request schema allows. The request validates, the row is
    written under id 2 without birthdate and department, and it is related
    to the projects 1 and 2 and no others. But [EmployeeResponse] declares
    [department_id: int = None] and [birthdate: date = None]: the row does
    not validate as a response, the create is answered 500 after its
    writes, and reading id 2 is answered 500 as well, with no
    [project_ids] to compare. Giving a department alone does not help.
    This holds in whatever order the database returns rows. *)
Theorem created_without_birthdate_is_not_read_back `{QueryOrder} :
  let data : payload :=
    {[ "first_name" := JStr (text "A"); "last_name" := JStr (text "B");
       "project_ids" := JArr [JNum 1; JNum 2] ]} in
  let created := @company_basic.employee_api.POST plain_coercions _ data (seeded seed_day) in
  let with_department :=
    @company_basic.employee_api.POST plain_coercions _ (<["department_id" := JNum 1]> data)
      (seeded seed_day) in
  is_Some (Project_objects (seeded seed_day) !! 1)
  ∧ is_Some (Project_objects (seeded seed_day) !! 2)
  ∧ @company_basic.employee_api.EmployeeRequest.model_validate plain_coercions data
    = Some (company_basic.employee_api.EmployeeRequest.Build
              (text "A") (text "B") None [1; 2] None)
  ∧ created.1 = company_basic.employee_api.Response 500 None
  ∧ Employee_objects created.2 !! 2 = Some (Employee.Build 2 (text "A") (text "B") None None)
  ∧ related_ids created.2 2 = {[1; 2]}
  ∧ company_basic.employee_api.GET 2 created.2
    = (company_basic.employee_api.Response 500 None, created.2)
  ∧ with_department.1 = company_basic.employee_api.Response 500 None
  ∧ Employee_objects with_department.2 !! 2
    = Some (Employee.Build 2 (text "A") (text "B") None (Some 1))
  ∧ company_basic.employee_api.GET 2 with_department.2
    = (company_basic.employee_api.Response 500 None, with_department.2).
Proof.
  intros data created with_department.
  split_and!; first [by vm_compute | vm_compute; eauto].
Qed.

(** * String fields *)
Section string_fields.

Import pydantic company_basic.employee_api.
Context `{Coercions}.
Context `{QueryOrder}.




End string_fields.


(** * The two variants' request schemas *)
Section variants.

Import pydantic.
Context `{Coercions}.

Lemma field_ignores_other_key {A} (validator : json → option A) (key other : string)
    (v : json) (data : payload) :
  other ≠ key → field validator key (<[other := v]> data) = field validator key data.
Proof. intros Hne. unfold field. by rewrite lookup_insert_ne. Qed.

(** On a payload that has the key [project_ids], the create schemas of
    the two variants agree field for field. *)
Lemma create_schemas_agree (data : payload) :
  is_Some (data !! "project_ids") →
  company_basic.employee_api.EmployeeRequest.model_validate data
  = as_basic_request <$> company_ninja_crud.employee_api.EmployeeRequest.model_validate data.
Proof.
  intros [v Hv].
  unfold company_basic.employee_api.EmployeeRequest.model_validate,
    company_ninja_crud.employee_api.EmployeeRequest.model_validate,
    with_default, required.
  rewrite (field_present _ "project_ids" data v Hv).
  destruct (field str_validator "first_name" data) as [[?|]|],
    (field str_validator "last_name" data) as [[?|]|],
    (field int_validator "department_id" data),
    (list_validator int_validator v),
    (field date_validator "birthdate" data); done.
Qed.

Lemma update_schemas_agree (data : payload) :
  company_basic.employee_api.EmployeeUpdateRequest.model_validate data
  = as_basic_update
      <$> company_ninja_crud.employee_api.EmployeeUpdateRequest.model_validate data.
Proof.
  unfold company_basic.employee_api.EmployeeUpdateRequest.model_validate,
    company_ninja_crud.employee_api.EmployeeUpdateRequest.model_validate.
  destruct (field str_validator "first_name" data),
    (field str_validator "last_name" data),
    (field int_validator "department_id" data),
    (field (list_validator int_validator) "project_ids" data),
    (field date_validator "birthdate" data); done.
Qed.

(** C9. In the scaffolded variant the relation field [projects] is read
    from the wire key [project_ids]: a create request that validates has
    that key, an array, and [projects] holds its validated items; an update
    request's [projects] is set exactly when the key is there; a key
    [projects] in the payload makes no difference to either; and the basic
    variant validates an update payload, and a create payload that has the
    key, to the same fields. *)
Theorem project_ids_is_the_wire_name_of_projects (data : payload) :
  (∀ r, company_ninja_crud.employee_api.EmployeeRequest.model_validate data = Some r →
     ∃ items, data !! "project_ids" = Some (JArr items)
              ∧ mapM int_validator items
                = Some (company_ninja_crud.employee_api.EmployeeRequest.projects r))
  ∧ (∀ r, company_ninja_crud.employee_api.EmployeeUpdateRequest.model_validate data = Some r →
       match company_ninja_crud.employee_api.EmployeeUpdateRequest.projects r with
       | Some ids => ∃ items, data !! "project_ids" = Some (JArr items)
                              ∧ mapM int_validator items = Some ids
       | None => data !! "project_ids" = None
       end)
  ∧ (∀ v, company_ninja_crud.employee_api.EmployeeRequest.model_validate
            (<["projects" := v]> data)
          = company_ninja_crud.employee_api.EmployeeRequest.model_validate data)
  ∧ (∀ v, company_ninja_crud.employee_api.EmployeeUpdateRequest.model_validate
            (<["projects" := v]> data)
          = company_ninja_crud.employee_api.EmployeeUpdateRequest.model_validate data)
  ∧ (is_Some (data !! "project_ids") →
     company_basic.employee_api.EmployeeRequest.model_validate data
     = as_basic_request
         <$> company_ninja_crud.employee_api.EmployeeRequest.model_validate data)
  ∧ company_basic.employee_api.EmployeeUpdateRequest.model_validate data
    = as_basic_update
        <$> company_ninja_crud.employee_api.EmployeeUpdateRequest.model_validate data.
Proof.
  split_and!.
  - intros r (? & ? & _ & _ & _ & Hprojects & _)%ninja_create_validate.
    apply required_inv, field_Some_inv in Hprojects as (v & Hv & Hitems).
    destruct v; try done. eauto.
  - intros r (_ & _ & _ & Hprojects & _)%ninja_update_validate.
    destruct (company_ninja_crud.employee_api.EmployeeUpdateRequest.projects r) as [ids|].
    + apply field_Some_inv in Hprojects as (v & Hv & Hitems).
      destruct v; try done. eauto.
    + unfold field in Hprojects. destruct (data !! "project_ids") as [v|]; [|done].
      by destruct (list_validator int_validator v).
  - intros v. unfold company_ninja_crud.employee_api.EmployeeRequest.model_validate, required.
    by rewrite !field_ignores_other_key.
  - intros v. unfold company_ninja_crud.employee_api.EmployeeUpdateRequest.model_validate.
    by rewrite !field_ignores_other_key.
  - apply create_schemas_agree.
  - apply update_schemas_agree.
Qed.


End variants.


Lemma project_ids_is_the_wire_name_of_projects_witness :
  let data : payload :=
    {[ "first_name" := JStr (text "A"); "last_name" := JStr (text "B");
       "project_ids" := JArr [JNum 1; JNum 2] ]} in
  @company_ninja_crud.employee_api.EmployeeRequest.model_validate plain_coercions data
  = Some (company_ninja_crud.employee_api.EmployeeRequest.Build
            (text "A") (text "B") None [1; 2] None)
  ∧ ∃ items, data !! "project_ids" = Some (JArr items)
             ∧ mapM json_integer items = Some [1; 2].
Proof.
  split; [vm_compute; reflexivity|].
  destruct (@project_ids_is_the_wire_name_of_projects plain_coercions
              {[ "first_name" := JStr (text "A"); "last_name" := JStr (text "B");
                 "project_ids" := JArr [JNum 1; JNum 2] ]}) as (Hcreate & _).
  apply (Hcreate (company_ninja_crud.employee_api.EmployeeRequest.Build
                    (text "A") (text "B") None [1; 2] None)).
  vm_compute. reflexivity.
Defined.

(** * Tokens with the secret in place *)
Section auth_outcomes.

Import company_ninja_crud.auth company_ninja_crud.auth.DummyAuthBearer.

Variable int : str → option Z.
Variable User_objects : gmap Z User.t.

(** A well-formed token for a user id that is in no row is turned away
    all the same, after the anonymous user was put on the request. *)
Lemma authenticate_unknown_user (request : HttpRequest) (user_id : str) (pk : Z) :
  chr ":" ∉ user_id →
  int user_id = Some pk →
  User_objects !! pk = None →
  authenticate int User_objects request (text "supersecret" ++ chr ":" :: user_id)
  = inr (Build_HttpRequest AnonymousUser, None).
Proof.
  intros Hcolon Hint Hnone.
  rewrite authenticate_secret with (pk := pk) by done. by rewrite Hnone.
Qed.

(** X4. A well-formed token whose user id is no number raises
    [ValueError]: the check neither lets the request through nor turns it
    away. *)
Lemma authenticate_not_a_number (request : HttpRequest) (user_id : str) :
  chr ":" ∉ user_id →
  int user_id = None →
  authenticate int User_objects request (text "supersecret" ++ chr ":" :: user_id)
  = inl ValueError.
Proof.
  intros Hcolon Hint. unfold authenticate.
  assert (Hsplit : split (chr ":") (text "supersecret" ++ chr ":" :: user_id)
                   = [text "supersecret"; user_id]).
  { apply split_two. split_and!; [done | | done].
    apply (bool_decide_unpack _). by vm_compute. }
  rewrite Hsplit. simpl. by rewrite Hint.
Qed.

End auth_outcomes.

(** C3, on the code. The token [supersecret:999] splits in two and carries
    the secret, yet with no user 999 [authenticate] returns [None], which
    fails the authentication step; the anonymous user it put on the
    request does not make the request authenticated. *)
Theorem token_of_unknown_user_fails (request : company_ninja_crud.auth.HttpRequest) :
  let token := text "supersecret:999" in
  let result :=
    company_ninja_crud.auth.DummyAuthBearer.authenticate
      company_ninja_crud.auth.decimal ∅ request token in
  split (chr ":") token = [text "supersecret"; text "999"]
  ∧ result = inr (company_ninja_crud.auth.Build_HttpRequest
                    company_ninja_crud.auth.AnonymousUser, None)
  ∧ company_ninja_crud.auth.DummyAuthBearer.authenticated result = false.
Proof. by vm_compute. Qed.

(** * The calls at work on the seeded database *)

Example split_parts :
  split (chr ":") (text "a::b") = [text "a"; text ""; text "b"]
  ∧ split (chr ":") (text "") = [text ""]
  ∧ split (chr ":") (text "supersecret:1") = [text "supersecret"; text "1"].
Proof. by vm_compute. Qed.

Example strip_both_ends : strip ([32; 9]%N ++ text "a b" ++ [10; 160]%N) = text "a b".
Proof. by vm_compute. Qed.

Example post_strips_and_defaults :
  (@company_basic.employee_api.POST plain_coercions by_primary_key
     {[ "first_name" := JStr (text "  Ann "); "last_name" := JStr (text "Lee");
        "department_id" := JNum 2; "birthdate" := JStr (text "1990-05-17") ]}
     (seeded seed_day)).1
  = company_basic.employee_api.Response 201
      (Some (company_basic.employee_api.EmployeeResponse.Build
               2 (text "Ann") (text "Lee") 2 [] (Date 1990 5 17))).
Proof. by vm_compute. Qed.

Example patch_empty_list_keeps_projects :
  list_to_set
    (@company_basic.employee_api.EmployeeResponse.resolve_project_ids by_primary_key
       (@company_basic.employee_api.PATCH plain_coercions by_primary_key 1
          {[ "project_ids" := JArr [] ]} (seeded seed_day)).2 bob)
  = ({[1; 2]} : gset Z).
Proof. by vm_compute. Qed.

Example patch_list_replaces_projects :
  @company_basic.employee_api.EmployeeResponse.resolve_project_ids by_primary_key
    (@company_basic.employee_api.PATCH plain_coercions by_primary_key 1
       {[ "project_ids" := JArr [JNum 2] ]} (seeded seed_day)).2 bob
  = [2].
Proof. by vm_compute. Qed.

Example list_pages :
  let created :=
    @company_basic.employee_api.POST plain_coercions by_primary_key
      {[ "first_name" := JStr (text "Ann"); "last_name" := JStr (text "Lee") ]}
      (seeded seed_day) in
  @company_basic.employee_api.GET_list by_primary_key 0 100 (seeded seed_day)
  = company_basic.employee_api.ListResponse 200
      (Some (company_basic.employee_api.PagedEmployeeResponse.Build
               [company_basic.employee_api.EmployeeResponse.Build
                  1 (text "Bob") (text "Smith") 1 [1; 2] seed_day] 1))
  ∧ @company_basic.employee_api.GET_list by_primary_key 0 0 (seeded seed_day)
    = company_basic.employee_api.ListResponse 422 None
  ∧ @company_basic.employee_api.GET_list by_primary_key 5 100 (seeded seed_day)
    = company_basic.employee_api.ListResponse 200
        (Some (company_basic.employee_api.PagedEmployeeResponse.Build [] 1))
  ∧ created.1 = company_basic.employee_api.Response 500 None
  ∧ @company_basic.employee_api.GET_list by_primary_key 0 100 created.2
    = company_basic.employee_api.ListResponse 500 None.
Proof. by vm_compute. Qed.

Example delete_cascades :
  let r := company_basic.employee_api.DELETE 1 (seeded seed_day) in
  r.1 = company_basic.employee_api.Response 204 None
  ∧ Employee_objects r.2 !! 1 = None
  ∧ Employee_projects r.2 = ∅.
Proof. by vm_compute. Qed.

Example known_user_is_let_in :
  company_ninja_crud.auth.DummyAuthBearer.authenticated
    (company_ninja_crud.auth.DummyAuthBearer.authenticate company_ninja_crud.auth.decimal
       {[ 1 := company_ninja_crud.auth.User.Build 1 (text "testuser") ]}
       (company_ninja_crud.auth.Build_HttpRequest company_ninja_crud.auth.AnonymousUser)
       (text "supersecret:1"))
  = true.
Proof. by vm_compute. Qed.

(** * More on the bearer-token check *)
Section auth_more.

Import company_ninja_crud.auth company_ninja_crud.auth.DummyAuthBearer.

Variable int : str → option Z.
Variable User_objects : gmap Z User.t.

Lemma split_length (sep : N) (s : str) :
  length (split sep s) = S (length (filter (λ c, c = sep) s)).
Proof.
  induction s as [|c s IH]; simpl; [done|].
  rewrite filter_cons. destruct (N.eqb_spec c sep) as [->|Hne].
  - rewrite decide_True by done. simpl. by rewrite IH.
  - rewrite decide_False by done.
    destruct (split sep s) as [|part parts]; simpl in *; [done|]. done.
Qed.

(** X1. [authenticate] returns a user exactly when the token is the
    secret, one colon, and a colon-free text that [int] reads as the
    primary key of a row of the user table; the user returned is that row,
    and it is the user put on the request. *)
Theorem authenticate_returns_user_iff (request request' : HttpRequest) (token : str)
    (user : User.t) :
  authenticate int User_objects request token = inr (request', Some user)
  ↔ ∃ user_id pk,
      token = text "supersecret" ++ chr ":" :: user_id
      ∧ (chr ":" ∉ user_id)
      ∧ int user_id = Some pk
      ∧ User_objects !! pk = Some user
      ∧ request' = Build_HttpRequest (Authenticated user).
Proof.
  split.
  - unfold authenticate.
    destruct (Nat.eqb_spec (length (split (chr ":") token)) 2) as [Hlen|]; [|done].
    simpl negb. cbv iota.
    destruct (split (chr ":") token) as [|tv [|uid [|? ?]]] eqn:Hsplit; try done.
    case_bool_decide as Hsecret; [|done]. simpl negb. cbv iota.
    destruct (int uid) as [pk|] eqn:Hint; [|done].
    destruct (User_objects !! pk) as [u|] eqn:Hu; [|done]. simpl.
    intros [= <- <-].
    apply split_two in Hsplit as (-> & _ & Hcolon). subst tv.
    exists uid, pk. by split_and!.
  - intros (uid & pk & -> & Hcolon & Hint & Hu & ->).
    rewrite authenticate_secret with (pk := pk) by done. by rewrite Hu.
Qed.

(** X2. A token that does not hold exactly one colon is turned away with
    the request as it was, whatever the user table holds. *)
Theorem authenticate_needs_one_colon (request : HttpRequest) (token : str) :
  length (filter (λ c, c = chr ":") token) ≠ 1%nat →
  authenticate int User_objects request token = inr (request, None).
Proof.
  intros Hcount. apply authenticate_rejects. left. rewrite split_length. lia.
Qed.

(** X3. The secret is compared before the user id is read: a token whose
    first part is not the secret is turned away with the request as it
    was, and no [ValueError] is raised even when the second part is no
    number. *)
Theorem authenticate_checks_secret_first (request : HttpRequest)
    (token_value user_id : str) :
  chr ":" ∉ token_value →
  chr ":" ∉ user_id →
  token_value ≠ text "supersecret" →
  authenticate int User_objects request (token_value ++ chr ":" :: user_id)
  = inr (request, None).
Proof.
  intros Htv Huid Hne. apply authenticate_rejects. right.
  exists token_value, user_id. split; [|done]. by apply split_two.
Qed.

End auth_more.

Lemma authenticate_needs_one_colon_witness :
  company_ninja_crud.auth.DummyAuthBearer.authenticate company_ninja_crud.auth.decimal
    {[ 1 := company_ninja_crud.auth.User.Build 1 (text "testuser") ]}
    (company_ninja_crud.auth.Build_HttpRequest company_ninja_crud.auth.AnonymousUser)
    (text "supersecret:1:2")
  = inr (company_ninja_crud.auth.Build_HttpRequest company_ninja_crud.auth.AnonymousUser, None).
Proof.
  apply (authenticate_needs_one_colon company_ninja_crud.auth.decimal). vm_compute. lia.
Defined.

Lemma authenticate_checks_secret_first_witness :
  company_ninja_crud.auth.DummyAuthBearer.authenticate company_ninja_crud.auth.decimal
    {[ 1 := company_ninja_crud.auth.User.Build 1 (text "testuser") ]}
    (company_ninja_crud.auth.Build_HttpRequest company_ninja_crud.auth.AnonymousUser)
    (text "Supersecret" ++ chr ":" :: text "abc")
  = inr (company_ninja_crud.auth.Build_HttpRequest company_ninja_crud.auth.AnonymousUser, None).
Proof.
  apply (authenticate_checks_secret_first company_ninja_crud.auth.decimal).
  - apply (bool_decide_unpack _). vm_compute. exact I.
  - apply (bool_decide_unpack _). vm_compute. exact I.
  - apply (bool_decide_unpack _). vm_compute. exact I.
Defined.

Lemma authenticate_not_a_number_witness :
  company_ninja_crud.auth.DummyAuthBearer.authenticate company_ninja_crud.auth.decimal
    {[ 1 := company_ninja_crud.auth.User.Build 1 (text "testuser") ]}
    (company_ninja_crud.auth.Build_HttpRequest company_ninja_crud.auth.AnonymousUser)
    (text "supersecret" ++ chr ":" :: text "abc")
  = inl company_ninja_crud.auth.ValueError.
Proof.
  apply (authenticate_not_a_number company_ninja_crud.auth.decimal).
  - apply (bool_decide_unpack _). vm_compute. exact I.
  - vm_compute. reflexivity.
Defined.

(** * What the views leave alone *)
Section frames.

Import pydantic company_basic.employee_api.
Context `{QueryOrder}.

Lemma related_ids_same_rows (db db' : Database) (id : Z) :
  Employee_projects db' = Employee_projects db → related_ids db' id = related_ids db id.
Proof. unfold related_ids. by intros ->. Qed.

(** X6. In a consistent database a create, however it ends, leaves every
    employee that was there with its row and its related projects, and
    the department and project tables as they were; the id it returns was
    not in use. *)
Theorem create_keeps_other_employees (db : Database) (data : EmployeeRequest.t) :
  consistent db →
  let o := create_employee data db in
  (∀ id e, Employee_objects db !! id = Some e →
     Employee_objects (stored o) !! id = Some e
     ∧ related_ids (stored o) id = related_ids db id)
  ∧ (∀ employee, returned o = inr employee →
       Employee_objects db !! Employee.id employee = None)
  ∧ Department_objects (stored o) = Department_objects db
  ∧ Project_objects (stored o) = Project_objects db.
Proof.
  intros Hdb o. subst o.
  assert (Hfresh : ∀ id e, Employee_objects db !! id = Some e → id ≠ Employee_seq db + 1).
  { intros id e He. destruct (consistent_lookup db id e Hdb He) as (_ & ? & _). lia. }
  destruct (create_employee_cases data db)
    as [(_ & ->) | [(_ & _ & ->) | (_ & _ & ->)]]; simpl; split_and!; try done.
  - intros id e He. split.
    + rewrite lookup_insert_ne; [done|]. intros Heq. by apply (Hfresh id e).
    + rewrite (related_ids_replaced_other (created_db data db)); [done|].
      by apply (Hfresh id e).
  - intros employee [= <-]. simpl.
    destruct (Employee_objects db !! (Employee_seq db + 1)) as [e|] eqn:He; [|done].
    by destruct (Hfresh _ e He).
  - intros id e He. split; [|done].
    rewrite lookup_insert_ne; [done|]. intros Heq. by apply (Hfresh id e).
Qed.

(** X7. In a consistent database an update of one id, however it ends,
    leaves every other employee with its row and its related projects,
    and the department and project tables as they were. *)
Theorem update_keeps_other_employees (db : Database) (id : Z)
    (data : EmployeeUpdateRequest.t) :
  consistent db →
  let o := update_employee id data db in
  (∀ id', id' ≠ id →
     Employee_objects (stored o) !! id' = Employee_objects db !! id'
     ∧ related_ids (stored o) id' = related_ids db id')
  ∧ Department_objects (stored o) = Department_objects db
  ∧ Project_objects (stored o) = Project_objects db.
Proof.
  intros Hdb o. subst o.
  destruct (Employee_objects db !! id) as [e|] eqn:He.
  - destruct (consistent_lookup db id e Hdb He) as (Hid & _ & _).
    destruct (update_employee_cases id data db e He)
      as [(_ & ->) | [(_ & _ & ->) | [(ids & _ & _ & _ & ->) | (ids & _ & _ & _ & ->)]]];
      simpl; split_and!; try done; intros id' Hne; split; try done;
      try (rewrite lookup_insert_ne; [done | by rewrite Hid]).
    rewrite (related_ids_replaced_other (saved_db (assign_provided e data) db)); [done|].
    by rewrite Hid.
  - destruct (views_not_found id db He) as (_ & -> & _). done.
Qed.

Lemma missing_id_lookup_404 (id : Z) (db : Database) :
  Employee_objects db !! id = None → GET id db = (Response 404 None, db).
Proof.
  intros Hnone. unfold GET, serve.
  by destruct (views_not_found id db Hnone) as (-> & _).
Qed.

(** X8. Deleting an employee that is there answers 204; the row and the
    join rows of the employee are gone, so that reading the id then
    answers 404; every other employee keeps its row and its related
    projects, and no project or department is touched. *)
Theorem delete_removes_row_and_relations (db : Database) (id : Z) (e : Employee.t) :
  consistent db →
  Employee_objects db !! id = Some e →
  ∃ db',
    DELETE id db = (Response 204 None, db')
    ∧ Employee_objects db' !! id = None
    ∧ related_ids db' id = ∅
    ∧ GET id db' = (Response 404 None, db')
    ∧ (∀ id', id' ≠ id →
         Employee_objects db' !! id' = Employee_objects db !! id'
         ∧ related_ids db' id' = related_ids db id')
    ∧ Department_objects db' = Department_objects db
    ∧ Project_objects db' = Project_objects db.
Proof.
  intros Hdb He.
  destruct (consistent_lookup db id e Hdb He) as (Hid & _ & _).
  set (db' := with_employees (base.delete id)
                (with_employee_projects (filter (λ row, row.1 ≠ id)) db)).
  assert (Hdel : delete_employee id db = Outcome (inr ()) db' [Get; Delete]).
  { unfold delete_employee.
    rewrite (bind_returned _ _ _ _ _ _ (get_found id db e He)).
    unfold delete. simpl. by rewrite Hid. }
  assert (Hgone : Employee_objects db' !! id = None) by apply lookup_delete_eq.
  exists db'. split_and!; try done.
  - unfold DELETE. by rewrite Hdel.
  - apply set_eq. intros p. rewrite elem_of_related_ids. simpl.
    rewrite elem_of_filter. simpl. set_solver.
  - by apply missing_id_lookup_404.
  - intros id' Hne. split.
    + simpl. by rewrite lookup_delete_ne.
    + apply set_eq. intros p. rewrite !elem_of_related_ids. simpl.
      rewrite elem_of_filter. simpl. naive_solver.
Qed.

End frames.

Section frames_examples.

Import pydantic company_basic.employee_api.
#[local] Existing Instance by_primary_key.

Lemma create_keeps_other_employees_witness :
  let o := create_employee stray_request (seeded seed_day) in
  Employee_objects (stored o) !! 1 = Some bob
  ∧ related_ids (stored o) 1 = related_ids (seeded seed_day) 1.
Proof.
  intros o.
  destruct (create_keeps_other_employees (seeded seed_day) stray_request) as (Hkept & _).
  - apply (bool_decide_unpack _). vm_compute. exact I.
  - apply (Hkept 1 bob). vm_compute. reflexivity.
Defined.

Lemma update_keeps_other_employees_witness :
  let data := EmployeeUpdateRequest.Build (Some (text "Al")) None None (Some [2]) None in
  let db := stored (create_employee stray_request (seeded seed_day)) in
  let o := update_employee 2 data db in
  Employee_objects (stored o) !! 1 = Employee_objects db !! 1
  ∧ related_ids (stored o) 1 = related_ids db 1.
Proof.
  intros data db o.
  destruct (update_keeps_other_employees db 2 data) as (Hkept & _).
  - apply (bool_decide_unpack _). vm_compute. exact I.
  - apply (Hkept 1). lia.
Defined.

Lemma delete_removes_row_and_relations_witness :
  ∃ db',
    DELETE 1 (seeded seed_day) = (Response 204 None, db')
    ∧ Employee_objects db' !! 1 = None
    ∧ related_ids db' 1 = ∅
    ∧ GET 1 db' = (Response 404 None, db')
    ∧ (∀ id', id' ≠ 1 →
         Employee_objects db' !! id' = Employee_objects (seeded seed_day) !! id'
         ∧ related_ids db' id' = related_ids (seeded seed_day) id')
    ∧ Department_objects db' = Department_objects (seeded seed_day)
    ∧ Project_objects db' = Project_objects (seeded seed_day).
Proof.
  apply (delete_removes_row_and_relations (seeded seed_day) 1 bob).
  - apply (bool_decide_unpack _). vm_compute. exact I.
  - vm_compute. reflexivity.
Defined.

End frames_examples.

(** * Partial updates, again *)
Section patch_more.

Import pydantic company_basic.employee_api.
Context `{QueryOrder}.

Lemma assign_provided_twice (e : Employee.t) (data : EmployeeUpdateRequest.t) :
  assign_provided (assign_provided e data) data = assign_provided e data.
Proof.
  unfold assign_provided. simpl. f_equal.
  - by destruct (EmployeeUpdateRequest.first_name data).
  - by destruct (EmployeeUpdateRequest.last_name data).
  - by destruct (EmployeeUpdateRequest.birthdate data).
  - by destruct (EmployeeUpdateRequest.department_id data).
Qed.

Lemma saved_db_twice (instance : Employee.t) (db : Database) :
  saved_db instance (saved_db instance db) = saved_db instance db.
Proof. unfold saved_db, with_employees. simpl. by rewrite insert_insert_eq. Qed.

Lemma replace_related_twice (id : Z) (ids : list Z) (rows : gset (Z * Z)) :
  replace_related id ids (replace_related id ids rows) = replace_related id ids rows.
Proof.
  apply set_eq. intros [e p]. unfold replace_related.
  rewrite !elem_of_union, !elem_of_filter, !elem_of_union, !elem_of_filter, !elem_of_map.
  simpl. naive_solver.
Qed.

Lemma relatable_same_rows (db db' : Database) (id : Z) (ids : list Z) :
  Employee_projects db' = Employee_projects db →
  Project_objects db' = Project_objects db →
  relatable db' id ids ↔ relatable db id ids.
Proof.
  intros Hrows Hprojects. unfold relatable.
  by rewrite (related_ids_same_rows db db' id Hrows), Hprojects.
Qed.

Lemma department_fk_ok_same (db db' : Database) (department_id : option Z) :
  Department_objects db' = Department_objects db →
  department_fk_ok db' department_id = department_fk_ok db department_id.
Proof. unfold department_fk_ok. by intros ->. Qed.

(** [update_employee] on a row that is there, in closed form. *)
Lemma update_employee_eq (db : Database) (id : Z) (data : EmployeeUpdateRequest.t)
    (e : Employee.t) :
  Employee_objects db !! id = Some e →
  update_employee id data db
  = if department_fk_ok db (Employee.department_id (assign_provided e data)) then
      match truthy (EmployeeUpdateRequest.project_ids data) with
      | None => Outcome (inr (assign_provided e data))
                  (saved_db (assign_provided e data) db) [Get; Save]
      | Some ids =>
          if decide (relatable db (Employee.id e) ids) then
            Outcome (inr (assign_provided e data))
              (with_employee_projects (replace_related (Employee.id e) ids)
                 (saved_db (assign_provided e data) db))
              [Get; Save; M2MSet]
          else Outcome (inl (relate_error db (Employee.id e) ids))
                 (saved_db (assign_provided e data) db) [Get; Save; M2MSet]
      end
    else Outcome (inl (department_error (Employee.department_id (assign_provided e data))))
           db [Get; Save].
Proof.
  intros He.
  destruct (update_employee_cases id data db e He)
    as [(Hfk & ->) | [(Hfk & Hnone & ->)
       | [(ids & Hfk & Hids & Hrel & ->) | (ids & Hfk & Hids & Hrel & ->)]]];
    cbv zeta in Hfk; rewrite Hfk; try done; try (by rewrite Hnone); rewrite Hids.
  - by rewrite decide_True.
  - by rewrite decide_False.
Qed.

(** Running an update again on the database it left ends the same way
    and leaves that database. *)
Lemma update_employee_twice (db : Database) (id : Z) (data : EmployeeUpdateRequest.t) :
  consistent db →
  let o := update_employee id data db in
  update_employee id data (stored o) = Outcome (returned o) (stored o) (calls o).
Proof.
  intros Hdb o. subst o.
  destruct (Employee_objects db !! id) as [e|] eqn:He.
  2: { destruct (views_not_found id db He) as (_ & Hupd & _).
       rewrite (Hupd data). simpl. apply Hupd. }
  destruct (consistent_lookup db id e Hdb He) as (Hid & _ & _).
  assert (Hsaved : ∀ rows,
    Employee_objects (with_employee_projects rows (saved_db (assign_provided e data) db))
      !! id = Some (assign_provided e data)).
  { intros rows. simpl. rewrite Hid. apply lookup_insert_eq. }
  assert (Hsaved0 :
    Employee_objects (saved_db (assign_provided e data) db) !! id
    = Some (assign_provided e data)).
  { simpl. rewrite Hid. apply lookup_insert_eq. }
  rewrite (update_employee_eq db id data e He).
  destruct (department_fk_ok db (Employee.department_id (assign_provided e data))) eqn:Hfk.
  2: { simpl. rewrite (update_employee_eq db id data e He). by rewrite Hfk. }
  destruct (truthy (EmployeeUpdateRequest.project_ids data)) as [ids|] eqn:Hids.
  - destruct (decide (relatable db (Employee.id e) ids)) as [Hrel|Hrel]; simpl.
    + rewrite (update_employee_eq _ id data _ (Hsaved (replace_related (Employee.id e) ids))).
      rewrite assign_provided_twice, Hids.
      rewrite (department_fk_ok_same db) by done. rewrite Hfk.
      rewrite decide_True.
      * f_equal. unfold saved_db, with_employee_projects, with_employees. simpl.
        by rewrite insert_insert_eq, replace_related_twice.
      * apply Forall_forall. intros p Hp. left.
        change (Employee.id (assign_provided e data)) with (Employee.id e).
        rewrite related_ids_replaced. by apply elem_of_list_to_set.
    + rewrite (update_employee_eq _ id data _ Hsaved0).
      rewrite assign_provided_twice, Hids.
      rewrite (department_fk_ok_same db) by done. rewrite Hfk.
      rewrite decide_False by done.
      by rewrite saved_db_twice.
  - simpl. rewrite (update_employee_eq _ id data _ Hsaved0).
    rewrite assign_provided_twice, Hids.
    rewrite (department_fk_ok_same db) by done. rewrite Hfk.
    by rewrite saved_db_twice.
Qed.

(** X9. PATCH is idempotent: in a consistent database, sending the same
    PATCH again to the database the first one left gives the same answer
    and leaves that database, whether the first one succeeded or failed. *)
Theorem patch_is_idempotent `{Coercions} (db : Database) (id : Z) (data : payload) :
  consistent db →
  PATCH id data (PATCH id data db).2 = PATCH id data db.
Proof.
  intros Hdb. unfold PATCH, validated.
  destruct (EmployeeUpdateRequest.model_validate data) as [d|]; [|done].
  rewrite serve_stored. pose proof (update_employee_twice db id d Hdb) as Htwice.
  simpl in Htwice. unfold serve at 1. rewrite Htwice. simpl. done.
Qed.

End patch_more.

Section patch_more_examples.

Import pydantic company_basic.employee_api.
#[local] Existing Instance by_primary_key.

Lemma patch_is_idempotent_witness :
  let data : payload :=
    {[ "last_name" := JStr (text "Jones"); "project_ids" := JArr [JNum 2] ]} in
  @PATCH plain_coercions by_primary_key 1 data
    (@PATCH plain_coercions by_primary_key 1 data (seeded seed_day)).2
  = @PATCH plain_coercions by_primary_key 1 data (seeded seed_day).
Proof.
  apply (@patch_is_idempotent by_primary_key plain_coercions).
  apply (bool_decide_unpack _). vm_compute. exact I.
Defined.

End patch_more_examples.

(** * Responses and rejected requests *)
Section responses.

Import pydantic company_basic.employee_api.
Context `{Coercions}.
Context `{QueryOrder}.

Lemma from_orm_reports (db : Database) (id : Z) (e : Employee.t) (body : EmployeeResponse.t) :
  Employee.id e = id →
  Employee_objects db !! id = Some e →
  EmployeeResponse.from_orm db e = Some body →
  reports_stored_row db body.
Proof.
  intros <- He Hbody. pose proof Hbody as (d & b & _ & _ & ->)%from_orm_Some.
  exists e. cbn [EmployeeResponse.id EmployeeResponse.project_ids].
  split_and!; [done | done | |].
  - apply NoDup_resolve_project_ids.
  - intros p. by rewrite elem_of_resolve_project_ids.
Qed.

(** X10. In a consistent database, whenever POST, GET or PATCH answers
    with a body, the body is the serialisation of the row stored under its
    id in the database the request left, and its [project_ids] lists
    exactly the projects related to that row, each once; for GET and PATCH
    the id is the one asked for, and GET leaves the database as it was. *)
Theorem responses_report_stored_rows (db : Database) :
  consistent db →
  (∀ data st b db', POST data db = (Response st (Some b), db') →
     reports_stored_row db' b)
  ∧ (∀ id st b db', GET id db = (Response st (Some b), db') →
       db' = db ∧ EmployeeResponse.id b = id ∧ reports_stored_row db' b)
  ∧ (∀ id data st b db', PATCH id data db = (Response st (Some b), db') →
       EmployeeResponse.id b = id ∧ reports_stored_row db' b).
Proof.
  intros Hdb. split_and!.
  - intros data st b db'. unfold POST, validated.
    destruct (EmployeeRequest.model_validate data) as [r|]; [|done].
    intros (e & Hret & -> & _ & Hbody)%serve_body. revert Hret Hbody.
    destruct (create_employee_cases r db)
      as [(_ & ->) | [(_ & _ & ->) | (_ & _ & ->)]]; simpl returned; simpl stored;
      [done | | done].
    intros [= <-] Hbody.
    apply (from_orm_reports _ (Employee_seq db + 1) (created_row r db)); [done | | done].
    simpl. apply lookup_insert_eq.
  - intros id st b db'. unfold GET. intros (e & Hret & -> & _ & Hbody)%serve_body.
    revert Hret Hbody. unfold get_employee, get_object_or_404.
    destruct (Employee_objects db !! id) as [e0|] eqn:He; simpl returned; simpl stored;
      [|done].
    intros [= <-] Hbody.
    destruct (consistent_lookup db id e0 Hdb He) as (Hid & _ & _).
    pose proof Hbody as (d & bd & _ & _ & Hb)%from_orm_Some.
    split_and!; [done | by rewrite Hb | by apply (from_orm_reports _ id e0)].
  - intros id data st b db'. unfold PATCH, validated.
    destruct (EmployeeUpdateRequest.model_validate data) as [r|]; [|done].
    intros (e & Hret & -> & _ & Hbody)%serve_body.
    destruct (Employee_objects db !! id) as [e0|] eqn:He.
    2: { destruct (views_not_found id db He) as (_ & Hupd & _).
         by rewrite Hupd in Hret. }
    destruct (consistent_lookup db id e0 Hdb He) as (Hid & _ & _).
    pose proof Hbody as (d & bd & _ & _ & Hb)%from_orm_Some.
    revert Hret Hbody.
    destruct (update_employee_cases id r db e0 He)
      as [(_ & ->) | [(_ & _ & ->) | [(ids & _ & _ & _ & ->) | (ids & _ & _ & _ & ->)]]];
      simpl returned; simpl stored; try done; intros [= <-] Hbody;
      (split; [by rewrite Hb|]);
      apply (from_orm_reports _ id (assign_provided e0 r)); try done;
      simpl; rewrite Hid; apply lookup_insert_eq.
Qed.

(** X11. A create payload in which [first_name] or [last_name] is absent,
    or is not a string, is answered 422 by the basic variant with the
    database untouched, and is turned away by the scaffolded variant's
    schema as well. *)
Theorem create_requires_names (data : payload) (db : Database) :
  (∀ s, data !! "first_name" ≠ Some (JStr s))
  ∨ (∀ s, data !! "last_name" ≠ Some (JStr s)) →
  POST data db = (Response 422 None, db)
  ∧ company_ninja_crud.employee_api.EmployeeRequest.model_validate data = None.
Proof.
  assert (Hreq : ∀ key, (∀ s, data !! key ≠ Some (JStr s)) →
                        required str_validator key data = None).
  { intros key Hkey. unfold required, field.
    destruct (data !! key) as [v|] eqn:Hv; [|done].
    destruct v; try done. by destruct (Hkey s). }
  intros Hnames.
  assert (Hbasic : EmployeeRequest.model_validate data = None).
  { unfold EmployeeRequest.model_validate.
    destruct Hnames as [Hk|Hk]; rewrite (Hreq _ Hk); [done|].
    by destruct (required str_validator "first_name" data). }
  split.
  - unfold POST, validated. by rewrite Hbasic.
  - unfold company_ninja_crud.employee_api.EmployeeRequest.model_validate.
    destruct Hnames as [Hk|Hk]; rewrite (Hreq _ Hk); [done|].
    by destruct (required str_validator "first_name" data).
Qed.

(** The request schemas read the five keys of [schema_keys] and no
    other. *)
Lemma validation_reads_schema_keys (data : payload) (key : string) (v : json) :
  key ∉ schema_keys →
  EmployeeRequest.model_validate (<[key := v]> data) = EmployeeRequest.model_validate data
  ∧ EmployeeUpdateRequest.model_validate (<[key := v]> data)
    = EmployeeUpdateRequest.model_validate data
  ∧ company_ninja_crud.employee_api.EmployeeRequest.model_validate (<[key := v]> data)
    = company_ninja_crud.employee_api.EmployeeRequest.model_validate data
  ∧ company_ninja_crud.employee_api.EmployeeUpdateRequest.model_validate (<[key := v]> data)
    = company_ninja_crud.employee_api.EmployeeUpdateRequest.model_validate data.
Proof.
  intros Hkey. unfold schema_keys in Hkey.
  rewrite !not_elem_of_cons in Hkey. destruct Hkey as (? & ? & ? & ? & ? & _).
  unfold EmployeeRequest.model_validate, EmployeeUpdateRequest.model_validate,
    company_ninja_crud.employee_api.EmployeeRequest.model_validate,
    company_ninja_crud.employee_api.EmployeeUpdateRequest.model_validate,
    with_default, required.
  by rewrite !field_ignores_other_key.
Qed.

(** X20. Keys the schemas do not declare are ignored: adding a key other
    than the five of [schema_keys] to a payload changes neither what any
    of the four request schemas validates it to, nor what POST and PATCH
    answer and store. *)
Theorem unknown_keys_are_ignored (data : payload) (key : string) (v : json) :
  key ∉ schema_keys →
  (EmployeeRequest.model_validate (<[key := v]> data) = EmployeeRequest.model_validate data
   ∧ EmployeeUpdateRequest.model_validate (<[key := v]> data)
     = EmployeeUpdateRequest.model_validate data
   ∧ company_ninja_crud.employee_api.EmployeeRequest.model_validate (<[key := v]> data)
     = company_ninja_crud.employee_api.EmployeeRequest.model_validate data
   ∧ company_ninja_crud.employee_api.EmployeeUpdateRequest.model_validate (<[key := v]> data)
     = company_ninja_crud.employee_api.EmployeeUpdateRequest.model_validate data)
  ∧ (∀ db, POST (<[key := v]> data) db = POST data db)
  ∧ (∀ id db, PATCH id (<[key := v]> data) db = PATCH id data db).
Proof.
  intros Hkey.
  destruct (validation_reads_schema_keys data key v Hkey) as (Hc & Hu & Hnc & Hnu).
  split_and!; try done.
  - intros db. unfold POST. by rewrite Hc.
  - intros id db. unfold PATCH. by rewrite Hu.
Qed.

End responses.

Lemma responses_report_stored_rows_witness :
  @reports_stored_row by_primary_key (seeded seed_day)
    (company_basic.employee_api.EmployeeResponse.Build
       1 (text "Bob") (text "Smith") 1 [1; 2] seed_day).
Proof.
  destruct (@responses_report_stored_rows plain_coercions by_primary_key (seeded seed_day))
    as (_ & Hget & _).
  - apply (bool_decide_unpack _). vm_compute. exact I.
  - apply (Hget 1 200 _ (seeded seed_day)). vm_compute. reflexivity.
Defined.

Lemma create_requires_names_witness :
  @company_basic.employee_api.POST plain_coercions by_primary_key
    {[ "first_name" := JNum 7; "last_name" := JStr (text "B") ]} (seeded seed_day)
  = (company_basic.employee_api.Response 422 None, seeded seed_day)
  ∧ @company_ninja_crud.employee_api.EmployeeRequest.model_validate plain_coercions
      {[ "first_name" := JNum 7; "last_name" := JStr (text "B") ]} = None.
Proof.
  apply (@create_requires_names plain_coercions by_primary_key). left.
  intros s. vm_compute. discriminate.
Defined.

Lemma unknown_keys_are_ignored_witness :
  @company_basic.employee_api.PATCH plain_coercions by_primary_key 1
    (<["projects" := JArr []]> {[ "last_name" := JStr (text "Jones") ]}) (seeded seed_day)
  = @company_basic.employee_api.PATCH plain_coercions by_primary_key 1
      {[ "last_name" := JStr (text "Jones") ]} (seeded seed_day).
Proof.
  destruct (@unknown_keys_are_ignored plain_coercions by_primary_key
              {[ "last_name" := JStr (text "Jones") ]} "projects" (JArr [])) as (_ & _ & Hpatch).
  - apply (bool_decide_unpack _). vm_compute. exact I.
  - apply Hpatch.
Defined.

(** * Edge cases of the views *)
Section view_edges.

Import pydantic company_basic.employee_api.
Context `{QueryOrder}.

Lemma saved_db_same (db : Database) (id : Z) (e : Employee.t) :
  Employee.id e = id → Employee_objects db !! id = Some e → saved_db e db = db.
Proof.
  intros Hid He. unfold saved_db, with_employees. rewrite Hid, (insert_id _ _ _ He).
  by destruct db.
Qed.

(** X12. A PATCH whose payload has none of the schema's keys (the empty
    object, say) on an employee that is there leaves the database exactly
    as it was. It answers 200 with the employee as it is when the employee
    has a department and a birthdate; when the employee lacks either, the
    response does not validate and the answer is 500. *)
Theorem patch_without_fields_changes_nothing `{Coercions} (db : Database) (id : Z)
    (e : Employee.t) (data : payload) :
  consistent db →
  Employee_objects db !! id = Some e →
  Forall (λ key, data !! key = None) schema_keys →
  (PATCH id data db).2 = db
  ∧ (∀ d b, Employee.department_id e = Some d → Employee.birthdate e = Some b →
       (PATCH id data db).1
       = Response 200
           (Some (EmployeeResponse.Build id (Employee.first_name e) (Employee.last_name e)
                    d (EmployeeResponse.resolve_project_ids db e) b)))
  ∧ (Employee.department_id e = None ∨ Employee.birthdate e = None →
       (PATCH id data db).1 = Response 500 None).
Proof.
  intros Hdb He Hkeys.
  destruct (consistent_lookup db id e Hdb He) as (Hid & _ & Hfk).
  unfold schema_keys in Hkeys.
  apply Forall_cons in Hkeys as [Hfn Hkeys]. apply Forall_cons in Hkeys as [Hln Hkeys].
  apply Forall_cons in Hkeys as [Hdep Hkeys]. apply Forall_cons in Hkeys as [Hpids Hkeys].
  apply Forall_cons in Hkeys as [Hbd _].
  assert (Hvalid : EmployeeUpdateRequest.model_validate data
                   = Some (EmployeeUpdateRequest.Build None None None None None)).
  { unfold EmployeeUpdateRequest.model_validate.
    by rewrite !field_absent. }
  assert (Hsame : assign_provided e (EmployeeUpdateRequest.Build None None None None None) = e)
    by by destruct e.
  assert (Hpatch : PATCH id data db
                   = (match EmployeeResponse.from_orm db e with
                      | Some body => Response 200 (Some body)
                      | None => Response 500 None
                      end, db)).
  { unfold PATCH, validated. rewrite Hvalid.
    assert (Hupdate : update_employee id (EmployeeUpdateRequest.Build None None None None None) db
                      = Outcome (inr e) db [Get; Save]).
    { rewrite (update_employee_eq db id _ e He), Hsame, Hfk. simpl.
      by rewrite (saved_db_same db id e Hid He). }
    rewrite (serve_returned 200 _ db e) by (by rewrite Hupdate).
    by rewrite Hupdate. }
  rewrite Hpatch. split_and!.
  - done.
  - intros d b Hd Hb. simpl. unfold EmployeeResponse.from_orm. rewrite Hd, Hb. simpl.
    by rewrite Hid.
  - intros Hnone. apply (from_orm_None db e) in Hnone. simpl. by rewrite Hnone.
Qed.

(** X13. A PATCH cannot unset a department or a birthdate: whatever the
    payload and however the request ends, an employee that had a
    department has one afterwards, and likewise for the birthdate. *)
Theorem patch_never_unsets `{Coercions} (db : Database) (id : Z) (e : Employee.t)
    (data : payload) :
  consistent db →
  Employee_objects db !! id = Some e →
  ∃ e', Employee_objects (PATCH id data db).2 !! id = Some e'
    ∧ (is_Some (Employee.department_id e) → is_Some (Employee.department_id e'))
    ∧ (is_Some (Employee.birthdate e) → is_Some (Employee.birthdate e')).
Proof.
  intros Hdb He. unfold PATCH, validated.
  destruct (EmployeeUpdateRequest.model_validate data) as [d|]; simpl; [|by exists e].
  rewrite serve_stored.
  destruct (consistent_lookup db id e Hdb He) as (Hid & _ & _).
  destruct (update_employee_leaves id d db e Hid He) as [[Hrow|Hrow] _].
  - by exists e.
  - exists (assign_provided e d). split_and!; [done | |]; simpl.
    + by destruct (EmployeeUpdateRequest.department_id d).
    + by destruct (EmployeeUpdateRequest.birthdate d).
Qed.

(** X14. A department reference that names no department stops a create
    and an update at their first write: the view raises [IntegrityError]
    when the id fits the 64-bit column and [OverflowError] when it does
    not, which is answered 500 either way; nothing is inserted, saved or
    related, and the employee sequence does not move, even when the
    request also carries project ids. *)
Theorem unknown_department_writes_nothing (db : Database) (d : Z) :
  Department_objects db !! d = None →
  let error := if fits_column d then IntegrityError else OverflowError in
  status_of error = 500
  ∧ (∀ data, EmployeeRequest.department_id data = Some d →
       create_employee data db = Outcome (inl error) db [Create])
  ∧ (∀ id e data, Employee_objects db !! id = Some e →
       EmployeeUpdateRequest.department_id data = Some d →
       update_employee id data db = Outcome (inl error) db [Get; Save]).
Proof.
  intros Hnone error.
  assert (Hfk : department_fk_ok db (Some d) = false).
  { simpl. apply bool_decide_eq_false. rewrite Hnone. by intros [? ?]. }
  split_and!.
  - apply (department_error_status (Some d)).
  - intros data Hd.
    destruct (create_employee_cases data db)
      as [(_ & ->) | [(Hok & _) | (Hok & _)]]; [by rewrite Hd | |];
      rewrite Hd in Hok; congruence.
  - intros id e data He Hd. rewrite (update_employee_eq db id data e He).
    simpl. rewrite Hd. simpl. by rewrite Hnone.
Qed.

(** X15. An update whose non-empty [project_ids] names a project that
    does not exist raises only after [save]: in a consistent database the
    scalar fields of the request are stored all the same, and the join
    table is as it was. What it raises is [IntegrityError] when every id
    that is no project fits the 64-bit column, and [OverflowError] when
    one does not. *)
Theorem update_unknown_project_keeps_saved_fields (db : Database) (id : Z) (e : Employee.t)
    (data : EmployeeUpdateRequest.t) (ids : list Z) :
  consistent db →
  Employee_objects db !! id = Some e →
  department_exists db (EmployeeUpdateRequest.department_id data) →
  EmployeeUpdateRequest.project_ids data = Some ids →
  ¬ projects_exist db ids →
  let o := update_employee id data db in
  returned o
  = inl (if bool_decide (Forall (λ p, is_Some (Project_objects db !! p) ∨ fits_column p) ids)
         then IntegrityError else OverflowError)
  ∧ calls o = [Get; Save; M2MSet]
  ∧ Employee_objects (stored o) !! id = Some (assign_provided e data)
  ∧ Employee_projects (stored o) = Employee_projects db.
Proof.
  intros Hdb He Hdep Hids Hmissing o. subst o.
  destruct (consistent_lookup db id e Hdb He) as (Hid & _ & Hfk0).
  assert (Hne : ids ≠ []) by (intros ->; apply Hmissing; constructor).
  assert (Htruthy : truthy (EmployeeUpdateRequest.project_ids data) = Some ids)
    by (rewrite Hids; by destruct ids).
  rewrite (update_employee_eq db id data e He), Htruthy.
  assert (Hfk : department_fk_ok db (Employee.department_id (assign_provided e data)) = true).
  { simpl. destruct (EmployeeUpdateRequest.department_id data) as [d|] eqn:Hd; simpl.
    - apply bool_decide_eq_true. by apply Hdep.
    - done. }
  rewrite Hfk. rewrite decide_False by (by rewrite relatable_iff).
  simpl. split_and!; [ | done | | done].
  - f_equal. unfold relate_error. apply (f_equal (λ b : bool, if b then _ else _)).
    apply bool_decide_ext. rewrite !Forall_forall. split; intros Hall p Hp.
    + destruct (Hall p Hp) as [Hrel|[?|?]]; [left | by left | by right].
      apply elem_of_related_ids in Hrel. destruct Hdb as [_ Hrows].
      by destruct (Hrows _ Hrel) as [_ ?].
    + destruct (Hall p Hp) as [?|?]; [right; by left | right; by right].
  - rewrite Hid. apply lookup_insert_eq.
Qed.

End view_edges.

Section view_edges_examples.

Import pydantic company_basic.employee_api.
#[local] Existing Instance by_primary_key.

Lemma patch_without_fields_changes_nothing_witness :
  (@PATCH plain_coercions by_primary_key 1 ∅ (seeded seed_day)).2 = seeded seed_day
  ∧ (@PATCH plain_coercions by_primary_key 1 ∅ (seeded seed_day)).1
    = Response 200 (Some (EmployeeResponse.Build 1 (text "Bob") (text "Smith") 1 [1; 2] seed_day)).
Proof.
  destruct (@patch_without_fields_changes_nothing by_primary_key plain_coercions
              (seeded seed_day) 1 bob ∅) as (Hdb & Hbody & _).
  - apply (bool_decide_unpack _). vm_compute. exact I.
  - vm_compute. reflexivity.
  - repeat constructor.
  - split; [exact Hdb|]. apply (Hbody 1 seed_day); reflexivity.
Defined.

Lemma patch_never_unsets_witness :
  let data : payload := {[ "department_id" := JNull; "birthdate" := JNull ]} in
  ∃ e', Employee_objects (@PATCH plain_coercions by_primary_key 1 data (seeded seed_day)).2 !! 1
        = Some e'
    ∧ (is_Some (Employee.department_id bob) → is_Some (Employee.department_id e'))
    ∧ (is_Some (Employee.birthdate bob) → is_Some (Employee.birthdate e')).
Proof.
  apply (@patch_never_unsets by_primary_key plain_coercions (seeded seed_day) 1 bob).
  - apply (bool_decide_unpack _). vm_compute. exact I.
  - vm_compute. reflexivity.
Defined.

Lemma unknown_department_writes_nothing_witness :
  create_employee (EmployeeRequest.Build (text "A") (text "B") (Some 9) [1] None)
    (seeded seed_day)
  = Outcome (inl IntegrityError) (seeded seed_day) [Create]
  ∧ create_employee (EmployeeRequest.Build (text "A") (text "B") (Some (2 ^ 63)) [1] None)
      (seeded seed_day)
    = Outcome (inl OverflowError) (seeded seed_day) [Create].
Proof.
  split.
  - destruct (unknown_department_writes_nothing (seeded seed_day) 9) as (_ & Hcreate & _).
    + vm_compute. reflexivity.
    + apply Hcreate. reflexivity.
  - destruct (unknown_department_writes_nothing (seeded seed_day) (2 ^ 63)) as (_ & Hcreate & _).
    + vm_compute. reflexivity.
    + apply Hcreate. reflexivity.
Defined.

Lemma update_unknown_project_keeps_saved_fields_witness :
  let data := EmployeeUpdateRequest.Build None (Some (text "Jones")) None (Some [2; 9]) None in
  let o := update_employee 1 data (seeded seed_day) in
  returned o = inl IntegrityError
  ∧ calls o = [Get; Save; M2MSet]
  ∧ Employee_objects (stored o) !! 1 = Some (assign_provided bob data)
  ∧ Employee_projects (stored o) = Employee_projects (seeded seed_day).
Proof.
  apply (update_unknown_project_keeps_saved_fields (seeded seed_day) 1 bob _ [2; 9]).
  - apply (bool_decide_unpack _). vm_compute. exact I.
  - vm_compute. reflexivity.
  - intros d. simpl. discriminate.
  - reflexivity.
  - intros Hall. apply Forall_cons in Hall as [_ Hall]. apply Forall_cons in Hall as [H9 _].
    vm_compute in H9. by destruct H9.
Defined.

End view_edges_examples.

(** * The list view *)
Section list_view.

Import pydantic company_basic.employee_api.
Context `{QueryOrder}.

Lemma elem_of_get_employees (db : Database) (e : Employee.t) :
  e ∈ get_employees db ↔ ∃ id, Employee_objects db !! id = Some e.
Proof.
  unfold get_employees. rewrite (table_order_perm (Employee_objects db)).
  rewrite list_elem_of_fmap. split.
  - intros ([id e'] & -> & Hin%elem_of_map_to_list). eauto.
  - intros [id He]. exists (id, e). split; [done|]. by apply elem_of_map_to_list.
Qed.

Lemma length_get_employees (db : Database) :
  length (get_employees db) = size (Employee_objects db).
Proof.
  unfold get_employees. rewrite (Permutation_length (table_order_perm (Employee_objects db))).
  by rewrite length_fmap, length_map_to_list.
Qed.

Lemma get_employees_ids (db : Database) :
  consistent db → NoDup (Employee.id <$> get_employees db).
Proof.
  intros Hdb. unfold get_employees. rewrite (table_order_perm (Employee_objects db)).
  rewrite <- list_fmap_compose.
  assert (Hids : (Employee.id ∘ snd) <$> map_to_list (Employee_objects db)
                 = (map_to_list (Employee_objects db)).*1).
  { apply list_fmap_ext. intros i [id e] Hin. simpl.
    assert (He : Employee_objects db !! id = Some e).
    { apply elem_of_map_to_list. eapply list_elem_of_lookup_2. exact Hin. }
    by destruct (consistent_lookup db id e Hdb He). }
  rewrite Hids. apply NoDup_fst_map_to_list.
Qed.

(** The serialised window, row by row. *)
Lemma serialised_ids (db : Database) (window : list Employee.t)
    (items : list EmployeeResponse.t) :
  mapM (EmployeeResponse.from_orm db) window = Some items →
  EmployeeResponse.id <$> items = Employee.id <$> window.
Proof.
  intros Hitems%mapM_Some. induction Hitems as [|e b window items Hb _ IH]; [done|].
  simpl. f_equal; [|done]. by apply from_orm_Some in Hb as (? & ? & _ & _ & ->).
Qed.

Lemma elem_of_serialised (db : Database) (window : list Employee.t)
    (items : list EmployeeResponse.t) (b : EmployeeResponse.t) :
  mapM (EmployeeResponse.from_orm db) window = Some items →
  b ∈ items ↔ ∃ e, e ∈ window ∧ EmployeeResponse.from_orm db e = Some b.
Proof.
  intros Hitems%mapM_Some. induction Hitems as [|e b' window items Hb _ IH].
  - split; [by intros ?%elem_of_nil | by intros (? & ?%elem_of_nil & _)].
  - rewrite elem_of_cons, IH. split.
    + intros [-> | (e' & Hin & He')].
      * exists e. split; [left|done].
      * exists e'. split; [by right|done].
    + intros (e' & [->|Hin]%elem_of_cons & He'); [left; congruence | right; eauto].
Qed.

Lemma list_page (db : Database) (offset limit : Z) (page : PagedEmployeeResponse.t) :
  list_body (GET_list offset limit db) = Some page →
  1 ≤ limit ∧ 0 ≤ offset
  ∧ GET_list offset limit db = ListResponse 200 (Some page)
  ∧ PagedEmployeeResponse.count page = length (get_employees db)
  ∧ mapM (EmployeeResponse.from_orm db)
      (take (Z.to_nat limit) (drop (Z.to_nat offset) (get_employees db)))
    = Some (PagedEmployeeResponse.items page).
Proof.
  unfold GET_list, paginate. case_bool_decide as Hparams; [|done].
  destruct (fits_column limit && fits_column offset); [|done]. cbv zeta.
  destruct Hparams. destruct (mapM _ _) as [items|]; [|done]. simpl. intros [= <-].
  by split_and!.
Qed.

Lemma fits_column_iff (v : Z) : fits_column v = true ↔ - 2 ^ 63 ≤ v < 2 ^ 63.
Proof. unfold fits_column. rewrite andb_true_iff, Z.leb_le, Z.ltb_lt. done. Qed.

Lemma list_parameters_fit (offset limit : Z) :
  limit < 2 ^ 63 → offset < 2 ^ 63 → 1 ≤ limit → 0 ≤ offset →
  fits_column limit && fits_column offset = true.
Proof. intros. apply andb_true_iff. rewrite !fits_column_iff. lia. Qed.

Lemma list_fails (db : Database) (offset limit : Z) :
  1 ≤ limit → 0 ≤ offset →
  Exists (λ e, EmployeeResponse.from_orm db e = None)
    (take (Z.to_nat limit) (drop (Z.to_nat offset) (get_employees db))) →
  GET_list offset limit db = ListResponse 500 None.
Proof.
  intros Hlimit Hoffset Hrow%mapM_None. unfold GET_list, paginate.
  rewrite bool_decide_eq_true_2 by done.
  destruct (fits_column limit && fits_column offset); [|done]. cbv zeta. by rewrite Hrow.
Qed.

Lemma list_answers (db : Database) (offset limit : Z) :
  1 ≤ limit < 2 ^ 63 → 0 ≤ offset < 2 ^ 63 →
  (∀ id e, Employee_objects db !! id = Some e →
     is_Some (Employee.department_id e) ∧ is_Some (Employee.birthdate e)) →
  ∃ page, GET_list offset limit db = ListResponse 200 (Some page).
Proof.
  intros Hlimit Hoffset Hrows. unfold GET_list, paginate.
  rewrite bool_decide_eq_true_2 by lia. rewrite list_parameters_fit by lia. cbv zeta.
  destruct (mapM _ _) as [items|] eqn:Hitems; [eauto|].
  apply mapM_None, Exists_exists in Hitems as (e & Hin & Hnone).
  apply from_orm_None in Hnone.
  eapply elem_of_sublist in Hin; [|etrans; [apply sublist_take | apply sublist_drop]].
  apply elem_of_get_employees in Hin as [id He].
  destruct (Hrows id e He) as [[? Hd] [? Hb]]. destruct Hnone; congruence.
Qed.

Lemma full_window (db : Database) (limit : Z) :
  Z.of_nat (size (Employee_objects db)) ≤ limit →
  take (Z.to_nat limit) (drop (Z.to_nat 0) (get_employees db)) = get_employees db.
Proof.
  intros Hfits. simpl. rewrite drop_0. apply take_ge. rewrite length_get_employees. lia.
Qed.

(** X16. The list view, with [count] the number of employees. It answers
    422 exactly when [limit] is below 1 or [offset] below 0, and otherwise
    a page or 500: with a limit and an offset that fit 64 bits it answers
    a page whenever every employee has a department and a birthdate, and
    a window from offset 0 at least as long as the table is answered 500
    as soon as one employee lacks either. In a consistent database, every
    item of a page reports a stored row with its related project ids; no
    employee is listed twice; the page holds at most [limit] items; and a
    page from offset 0 at least as long as the table lists every
    employee. *)
Theorem list_reports_the_table (db : Database) (offset limit : Z) :
  consistent db →
  let answer := GET_list offset limit db in
  (answer = ListResponse 422 None ↔ limit < 1 ∨ offset < 0)
  ∧ (1 ≤ limit < 2 ^ 63 → 0 ≤ offset < 2 ^ 63 →
     (∀ id e, Employee_objects db !! id = Some e →
        is_Some (Employee.department_id e) ∧ is_Some (Employee.birthdate e)) →
     ∃ page, answer = ListResponse 200 (Some page))
  ∧ (offset = 0 → 1 ≤ limit → Z.of_nat (size (Employee_objects db)) ≤ limit →
     (∃ id e, Employee_objects db !! id = Some e
              ∧ (Employee.department_id e = None ∨ Employee.birthdate e = None)) →
     answer = ListResponse 500 None)
  ∧ (∀ page, list_body answer = Some page →
       list_status answer = 200
       ∧ PagedEmployeeResponse.count page = size (Employee_objects db)
       ∧ (∀ b, b ∈ PagedEmployeeResponse.items page → reports_stored_row db b)
       ∧ NoDup (EmployeeResponse.id <$> PagedEmployeeResponse.items page)
       ∧ Z.of_nat (length (PagedEmployeeResponse.items page)) ≤ limit
       ∧ (offset = 0 → Z.of_nat (size (Employee_objects db)) ≤ limit →
          ∀ id e, Employee_objects db !! id = Some e →
            ∃ b, EmployeeResponse.from_orm db e = Some b
                 ∧ b ∈ PagedEmployeeResponse.items page)).
Proof.
  intros Hdb answer. subst answer. split_and!.
  - unfold GET_list, paginate. case_bool_decide as Hparams; cbv zeta.
    + split; [|lia]. destruct (fits_column limit && fits_column offset); [|done].
      by destruct (mapM _ _).
    + split; [lia|done].
  - apply list_answers.
  - intros -> Hlimit Hfits (id & e & He & Hnone).
    apply list_fails; [done | done |]. rewrite full_window by done.
    apply Exists_exists. exists e. split; [apply elem_of_get_employees; eauto|].
    by apply from_orm_None.
  - intros page (Hlimit & Hoffset & Hanswer & Hcount & Hitems)%list_page.
    set (window := take (Z.to_nat limit) (drop (Z.to_nat offset) (get_employees db))) in *.
    assert (Hsub : window `sublist_of` get_employees db).
    { etrans; [apply sublist_take | apply sublist_drop]. }
    split_and!.
    + by rewrite Hanswer.
    + by rewrite Hcount, length_get_employees.
    + intros b (e & Hin & Hb)%(elem_of_serialised _ _ _ _ Hitems).
      eapply elem_of_sublist in Hin; [|exact Hsub].
      apply elem_of_get_employees in Hin as [id He].
      destruct (consistent_lookup db id e Hdb He) as (Hid & _ & _).
      by apply (from_orm_reports db id e).
    + rewrite (serialised_ids _ _ _ Hitems).
      eapply sublist_NoDup; [|apply fmap_sublist; exact Hsub].
      by apply get_employees_ids.
    + rewrite <- (length_fmap EmployeeResponse.id), (serialised_ids _ _ _ Hitems).
      rewrite length_fmap. unfold window. rewrite length_take. lia.
    + intros -> Hfits id e He. unfold window in Hitems. rewrite full_window in Hitems by done.
      assert (Hin : e ∈ get_employees db) by (apply elem_of_get_employees; eauto).
      pose proof Hitems as Hall%mapM_Some.
      apply list_elem_of_lookup in Hin as [i Hi].
      destruct (Forall2_lookup_l _ _ _ _ _ Hall Hi) as (b & Hb & Hserial).
      exists b. split; [done|]. eapply list_elem_of_lookup_2. exact Hb.
Qed.

(** X21. An employee a POST created is listed next. After a POST answered
    with a body, a window from offset 0 long enough for the table it left
    is answered with a page or with 500; a page holds that body; and a
    page it is whenever the limit fits 64 bits and every employee that was
    there before has a department and a birthdate. *)
Theorem created_employee_is_listed `{Coercions} (db db' : Database) (data : payload)
    (limit : Z) st (b : EmployeeResponse.t) :
  POST data db = (Response st (Some b), db') →
  Z.of_nat (size (Employee_objects db')) ≤ limit →
  let answer := GET_list 0 limit db' in
  (answer = ListResponse 500 None
   ∨ ∃ page, answer = ListResponse 200 (Some page) ∧ b ∈ PagedEmployeeResponse.items page)
  ∧ (limit < 2 ^ 63 →
     (∀ id e, Employee_objects db !! id = Some e →
        is_Some (Employee.department_id e) ∧ is_Some (Employee.birthdate e)) →
     ∃ page, answer = ListResponse 200 (Some page) ∧ b ∈ PagedEmployeeResponse.items page).
Proof.
  unfold POST, validated.
  destruct (EmployeeRequest.model_validate data) as [r|]; [|done].
  intros (e & Hret & -> & _ & Hb)%serve_body Hfits.
  revert Hret Hb Hfits.
  destruct (create_employee_cases r db)
    as [(_ & ->) | [(_ & _ & ->) | (_ & _ & ->)]]; simpl returned; simpl stored;
    [done | | done].
  intros [= <-]. set (e := created_row r db).
  set (db' := with_employee_projects _ _). intros Hb Hfits.
  assert (He : Employee_objects db' !! (Employee_seq db + 1) = Some e).
  { simpl. apply lookup_insert_eq. }
  assert (Hlimit : 1 ≤ limit).
  { assert (size (Employee_objects db') ≠ 0%nat); [|lia].
    intros Hempty%map_size_empty_iff. by rewrite Hempty in He. }
  assert (Hlisted : ∀ page, GET_list 0 limit db' = ListResponse 200 (Some page) →
                            b ∈ PagedEmployeeResponse.items page).
  { intros page Hpage.
    assert (Hbody : list_body (GET_list 0 limit db') = Some page) by by rewrite Hpage.
    apply list_page in Hbody as (_ & _ & _ & _ & Hitems).
    rewrite full_window in Hitems by done.
    apply (elem_of_serialised _ _ _ _ Hitems). exists e. split; [|done].
    apply elem_of_get_employees. eauto. }
  split.
  - unfold GET_list, paginate in *. rewrite bool_decide_eq_true_2 in * by lia.
    destruct (fits_column limit && fits_column 0); [|by left].
    cbv zeta in *. destruct (mapM _ _) as [items|]; [right|by left].
    eexists. split; [done|]. by apply Hlisted.
  - intros Hrange Hrows.
    destruct (list_answers db' 0 limit) as [page Hpage]; [lia | lia | |].
    + intros id' e'. simpl. intros [[_ <-]|[_ He']]%lookup_insert_Some.
      * apply from_orm_Some in Hb as (d & bd & Hd & Hbd & _).
        change (is_Some (Employee.department_id e) ∧ is_Some (Employee.birthdate e)).
        rewrite Hd, Hbd. eauto.
      * by apply (Hrows id').
    + exists page. split; [done|]. by apply Hlisted.
Qed.

End list_view.

Section list_view_examples.

Import pydantic company_basic.employee_api.
#[local] Existing Instance by_primary_key.

Lemma list_reports_the_table_witness :
  GET_list 0 100 (seeded seed_day)
  = ListResponse 200
      (Some (PagedEmployeeResponse.Build
               [EmployeeResponse.Build 1 (text "Bob") (text "Smith") 1 [1; 2] seed_day] 1))
  ∧ reports_stored_row (seeded seed_day)
      (EmployeeResponse.Build 1 (text "Bob") (text "Smith") 1 [1; 2] seed_day).
Proof.
  assert (Hanswer : GET_list 0 100 (seeded seed_day)
    = ListResponse 200
        (Some (PagedEmployeeResponse.Build
                 [EmployeeResponse.Build 1 (text "Bob") (text "Smith") 1 [1; 2] seed_day] 1)))
    by (vm_compute; reflexivity).
  split; [exact Hanswer|].
  destruct (list_reports_the_table (seeded seed_day) 0 100) as (_ & _ & _ & Hpage).
  - apply (bool_decide_unpack _). vm_compute. exact I.
  - destruct (Hpage _ (f_equal list_body Hanswer)) as (_ & _ & Hreports & _).
    apply Hreports. simpl. left.
Defined.

Lemma created_employee_is_listed_witness :
  let data : payload :=
    {[ "first_name" := JStr (text "Ann"); "last_name" := JStr (text "Lee");
       "department_id" := JNum 2; "project_ids" := JArr [JNum 1];
       "birthdate" := JStr (text "1990-05-17") ]} in
  let r := @POST plain_coercions by_primary_key data (seeded seed_day) in
  ∃ page, GET_list 0 10 r.2 = ListResponse 200 (Some page)
          ∧ EmployeeResponse.Build 2 (text "Ann") (text "Lee") 2 [1] (Date 1990 5 17)
            ∈ PagedEmployeeResponse.items page.
Proof.
  intros data r.
  destruct (@created_employee_is_listed by_primary_key plain_coercions (seeded seed_day) r.2
              data 10 201
              (EmployeeResponse.Build 2 (text "Ann") (text "Lee") 2 [1] (Date 1990 5 17)))
    as [_ Hpage].
  - vm_compute. reflexivity.
  - vm_compute. discriminate.
  - apply Hpage; [lia|]. intros id e He. cbv [seeded Employee_objects] in He.
    apply lookup_singleton_Some in He as [<- <-]. simpl. eauto.
Defined.

End list_view_examples.

(** * The seed command *)
Section seed_facts.

Import seed.

Variable today : date.

Lemma command_bind_returned {A B} (m : Command A) (f : A → Command B) w a w1 out :
  m w = (inr a, w1, out) →
  (m ≫= f) w = (let '(r, w2, out') := f a w1 in (r, w2, out ++ out')).
Proof. unfold mbind, Command_bind, command_bind. by intros ->. Qed.

Lemma command_bind_raised {A B} (m : Command A) (f : A → Command B) w e w1 out :
  m w = (inl e, w1, out) → (m ≫= f) w = (inl e, w1, out).
Proof. unfold mbind, Command_bind, command_bind. by intros ->. Qed.

(** The basic app's seeding never fails, and what it leaves is
    [seeded_from]. *)
Lemma seed_basic_app_eq (w : World) :
  _seed_basic_app today w
  = (inr (), Build_World (auth w) (seeded_from today (basic w)) (ninja_crud w),
     [text "Creating models for basic Ninja app..."; text "Successfully created models"]).
Proof.
  unfold _seed_basic_app.
  erewrite command_bind_returned by reflexivity.
  erewrite command_bind_returned by reflexivity.
  erewrite command_bind_returned by reflexivity.
  erewrite command_bind_returned.
  2: { unfold on_basic, Project_objects_create. simpl.
       rewrite lookup_insert_ne by lia. rewrite lookup_insert_eq.
       rewrite bool_decide_eq_true_2 by eauto. reflexivity. }
  erewrite command_bind_returned.
  2: { unfold on_basic, Project_objects_create. simpl.
       rewrite lookup_insert_eq.
       rewrite bool_decide_eq_true_2 by eauto. reflexivity. }
  erewrite command_bind_returned.
  2: { unfold on_basic, orm, basic_models.Employee_objects_create. simpl.
       rewrite lookup_insert_ne by lia. rewrite lookup_insert_eq.
       rewrite bool_decide_eq_true_2 by eauto. reflexivity. }
  erewrite command_bind_returned.
  2: { unfold on_basic, orm. simpl. rewrite projects_set_ok.
       - reflexivity.
       - unfold relatable.
         apply Forall_cons_2; [right | apply Forall_cons_2; [right | apply Forall_nil_2]];
           simpl.
         + rewrite lookup_insert_ne by lia. rewrite lookup_insert_eq. eauto.
         + rewrite lookup_insert_eq. eauto. }
  unfold stdout_write, seeded_from, with_employee_projects, with_employee_seq,
    with_employees.
  simpl. rewrite <- !Z.add_assoc. reflexivity.
Qed.

(** [projects.set] of the scaffolded app on ids of existing projects. *)
Lemma ninja_projects_set_ok (instance : ninja_crud_models.Employee.t) (objs : list Z)
    (db : ninja_crud_models.Database) :
  Forall (λ p, is_Some (ninja_crud_models.Project_objects db !! p)) objs →
  ninja_crud_models.projects_set instance objs db
  = (inr (),
     ninja_crud_models.Build_Database
       (ninja_crud_models.Department_objects db) (ninja_crud_models.Department_seq db)
       (ninja_crud_models.Project_objects db) (ninja_crud_models.Project_seq db)
       (ninja_crud_models.Employee_objects db) (ninja_crud_models.Employee_seq db)
       (replace_related (ninja_crud_models.Employee.id instance) objs
          (ninja_crud_models.Employee_projects db))).
Proof.
  intros Hobjs. unfold ninja_crud_models.projects_set.
  set (id := ninja_crud_models.Employee.id instance).
  set (rows := basic_models.Build_Database ∅ ∅ ∅ (ninja_crud_models.Employee_projects db) 0).
  destruct (projects_set_rows id objs rows) as [Hmissing Hrows].
  change (ninja_crud_models.related_ids db id) with (related_ids rows id).
  destruct (set_partition objs (related_ids rows id)) as [old_ids new_objs].
  simpl in Hmissing, Hrows.
  unfold m2m_missing, related_ids in Hmissing, Hrows. simpl in Hmissing, Hrows.
  rewrite bool_decide_eq_true_2.
  - by rewrite Hrows.
  - intros p [Hp _]%Hmissing. eapply Forall_forall in Hobjs; eauto.
Qed.

(** The scaffolded app's seeding never fails either. *)
Lemma seed_ninja_crud_app_eq (w : World) :
  _seed_ninja_crud_app today w
  = (inr (), Build_World (auth w) (basic w) (ninja_seeded_from today (ninja_crud w)),
     [text "Creating models for the Ninja CRUD app..."; text "Successfully created models"]).
Proof.
  unfold _seed_ninja_crud_app.
  erewrite command_bind_returned by reflexivity.
  erewrite command_bind_returned by reflexivity.
  erewrite command_bind_returned by reflexivity.
  erewrite command_bind_returned.
  2: { unfold on_ninja_crud, ninja_crud_models.Project_objects_create. simpl.
       rewrite lookup_insert_ne by lia. rewrite lookup_insert_eq.
       rewrite bool_decide_eq_true_2 by eauto. reflexivity. }
  erewrite command_bind_returned.
  2: { unfold on_ninja_crud, ninja_crud_models.Project_objects_create. simpl.
       rewrite lookup_insert_eq.
       rewrite bool_decide_eq_true_2 by eauto. reflexivity. }
  erewrite command_bind_returned.
  2: { unfold on_ninja_crud, ninja_crud_models.Employee_objects_create. simpl.
       rewrite lookup_insert_ne by lia. rewrite lookup_insert_eq.
       rewrite bool_decide_eq_true_2 by eauto. reflexivity. }
  erewrite command_bind_returned.
  2: { unfold on_ninja_crud. simpl. rewrite ninja_projects_set_ok.
       - reflexivity.
       - apply Forall_cons_2; [| apply Forall_cons_2; [| apply Forall_nil_2]]; simpl.
         + rewrite lookup_insert_ne by lia. rewrite lookup_insert_eq. eauto.
         + rewrite lookup_insert_eq. eauto. }
  unfold stdout_write, ninja_seeded_from.
  simpl. rewrite <- !Z.add_assoc. reflexivity.
Qed.

(** X17. Seeding the basic app never fails and writes its two lines. On
    consistent tables whose sequences are not behind their keys it adds
    two departments, a project in each, and the employee Bob Smith, born
    today, of the Growth department and related to exactly the two new
    projects; every row and relation that was there is kept; the tables
    stay consistent with their sequences ahead; the users and the
    scaffolded app are not touched. *)
Theorem seed_basic_app_adds_demo_rows (w : World) :
  consistent (tables (basic w)) →
  sequences_ahead (basic w) →
  ∃ w',
    _seed_basic_app today w
    = (inr (), w',
       [text "Creating models for basic Ninja app..."; text "Successfully created models"])
    ∧ auth w' = auth w
    ∧ ninja_crud w' = ninja_crud w
    ∧ consistent (tables (basic w'))
    ∧ sequences_ahead (basic w')
    ∧ (let db := tables (basic w) in
       let db' := tables (basic w') in
       let growth := Department_seq (basic w) + 1 in
       let infrastructure := Department_seq (basic w) + 2 in
       let growth_project := Project_seq (basic w) + 1 in
       let infrastructure_project := Project_seq (basic w) + 2 in
       let pk := basic_models.Employee_seq db + 1 in
       Department_objects db' !! growth = Some (Department.Build growth (text "Growth"))
       ∧ Department_objects db' !! infrastructure
         = Some (Department.Build infrastructure (text "Infrastructure"))
       ∧ Project_objects db' !! growth_project
         = Some (Project.Build growth_project (text "Growth Project") growth)
       ∧ Project_objects db' !! infrastructure_project
         = Some (Project.Build infrastructure_project (text "Infrastructure Project")
                   infrastructure)
       ∧ Employee_objects db' !! pk
         = Some (Employee.Build pk (text "Bob") (text "Smith") (Some today) (Some growth))
       ∧ related_ids db' pk = {[growth_project; infrastructure_project]}
       ∧ (∀ k d, Department_objects db !! k = Some d → Department_objects db' !! k = Some d)
       ∧ (∀ k p, Project_objects db !! k = Some p → Project_objects db' !! k = Some p)
       ∧ (∀ k e, Employee_objects db !! k = Some e →
            Employee_objects db' !! k = Some e ∧ related_ids db' k = related_ids db k)).
Proof.
  intros Hdb [Hdseq Hpseq].
  exists (Build_World (auth w) (seeded_from today (basic w)) (ninja_crud w)).
  split; [apply seed_basic_app_eq|]. split; [done|]. split; [done|].
  pose proof Hdb as [Hrows Hjoin].
  assert (Hd : ∀ k d, Department_objects (tables (basic w)) !! k = Some d →
                      k ≠ Department_seq (basic w) + 1 ∧ k ≠ Department_seq (basic w) + 2).
  { intros k d Hk. specialize (Hdseq k d Hk). simpl in Hdseq. lia. }
  assert (Hp : ∀ k p, Project_objects (tables (basic w)) !! k = Some p →
                      k ≠ Project_seq (basic w) + 1 ∧ k ≠ Project_seq (basic w) + 2).
  { intros k p Hk. specialize (Hpseq k p Hk). simpl in Hpseq. lia. }
  assert (He : ∀ k e, Employee_objects (tables (basic w)) !! k = Some e →
                      k ≠ basic_models.Employee_seq (tables (basic w)) + 1).
  { intros k e Hk. destruct (Hrows k e Hk) as (_ & ? & _). lia. }
  assert (Hdkept : ∀ k d, Department_objects (tables (basic w)) !! k = Some d →
            Department_objects (tables (seeded_from today (basic w))) !! k = Some d).
  { intros k d Hk. destruct (Hd k d Hk). simpl. by rewrite !lookup_insert_ne. }
  assert (Hpkept : ∀ k p, Project_objects (tables (basic w)) !! k = Some p →
            Project_objects (tables (seeded_from today (basic w))) !! k = Some p).
  { intros k p Hk. destruct (Hp k p Hk). simpl. by rewrite !lookup_insert_ne. }
  cbv zeta. split_and!.
  - split; simpl.
    + apply map_Forall_insert_2.
      * split_and!; [done | lia |]. apply Is_true_true. simpl.
        apply bool_decide_eq_true. rewrite lookup_insert_ne by lia.
        rewrite lookup_insert_eq. eauto.
      * intros k e Hk. destruct (Hrows k e Hk) as (? & ? & Hfk).
        split_and!; [done | lia |].
        destruct (Employee.department_id e) as [d|]; [|done]. simpl in *.
        apply bool_decide_unpack in Hfk as [d0 Hd0].
        apply bool_decide_pack. destruct (Hd d d0 Hd0). rewrite !lookup_insert_ne by done.
        eauto.
    + intros row. unfold replace_related.
      rewrite elem_of_union, elem_of_filter, elem_of_map. simpl.
      intros [[Hne Hrow] | (p & -> & Hin)].
      * destruct (Hjoin row Hrow) as [[e Hk] [p Hk']]. split.
        -- rewrite lookup_insert_ne; [eauto|]. intros Heq. by apply Hne.
        -- destruct (Hp _ p Hk'). rewrite !lookup_insert_ne by done. eauto.
      * simpl. split; [rewrite lookup_insert_eq; eauto|].
        assert (Hcases : p = Project_seq (basic w) + 1 ∨ p = Project_seq (basic w) + 2)
          by set_solver.
        destruct Hcases as [->| ->].
        -- rewrite lookup_insert_ne by lia. rewrite lookup_insert_eq. eauto.
        -- rewrite lookup_insert_eq. eauto.
  - split; simpl.
    + apply map_Forall_insert_2; [lia|]. apply map_Forall_insert_2; [lia|].
      intros k d Hk. specialize (Hdseq k d Hk). simpl in Hdseq. lia.
    + apply map_Forall_insert_2; [lia|]. apply map_Forall_insert_2; [lia|].
      intros k p Hk. specialize (Hpseq k p Hk). simpl in Hpseq. lia.
  - simpl. rewrite lookup_insert_ne by lia. apply lookup_insert_eq.
  - simpl. apply lookup_insert_eq.
  - simpl. rewrite lookup_insert_ne by lia. apply lookup_insert_eq.
  - simpl. apply lookup_insert_eq.
  - simpl. apply lookup_insert_eq.
  - apply set_eq. intros p. rewrite elem_of_related_ids. simpl. unfold replace_related.
    rewrite elem_of_union, elem_of_filter, elem_of_map. simpl. set_solver.
  - done.
  - done.
  - intros k e Hk. split.
    + simpl. rewrite lookup_insert_ne; [done|]. intros <-. by destruct (He _ e Hk).
    + apply set_eq. intros p. rewrite !elem_of_related_ids. simpl. unfold replace_related.
      rewrite elem_of_union, elem_of_filter, elem_of_map. simpl.
      pose proof (He _ e Hk). naive_solver.
Qed.

Lemma create_user_free (t : UserTable) :
  ¬ testuser_taken t →
  create_user (text "testuser") t
  = (inr (User.Build (User_seq t + 1) (text "testuser")),
     Build_UserTable
       (<[User_seq t + 1 := User.Build (User_seq t + 1) (text "testuser")]> (User_objects t))
       (User_seq t + 1)).
Proof.
  intros Hfree. unfold create_user. rewrite bool_decide_eq_true_2; [done|].
  intros pk u Hu Hname. apply Hfree. by exists pk, u.
Qed.

Lemma create_user_taken (t : UserTable) :
  testuser_taken t →
  create_user (text "testuser") t = (inl basic_models.IntegrityError, t).
Proof.
  intros (pk & u & Hu & Hname). unfold create_user. rewrite bool_decide_eq_false_2; [done|].
  intros Hall. by apply (Hall pk u Hu).
Qed.

(** The command on a user table without a [testuser]. *)
Lemma handle_free (w : World) :
  ¬ testuser_taken (auth w) →
  handle today w
  = (inr (),
     Build_World
       (Build_UserTable
          (<[User_seq (auth w) + 1 := User.Build (User_seq (auth w) + 1) (text "testuser")]>
             (User_objects (auth w)))
          (User_seq (auth w) + 1))
       (seeded_from today (basic w))
       (ninja_seeded_from today (ninja_crud w)),
     [text "Successfully created testuser";
      text "Creating models for basic Ninja app...";
      text "Successfully created models";
      text "Creating models for the Ninja CRUD app...";
      text "Successfully created models";
      text "Successfully seeded. You can now use authorize using the key 'supersecret:1'"]).
Proof.
  intros Hfree. unfold handle.
  erewrite command_bind_returned.
  2: { unfold on_auth. rewrite (create_user_free _ Hfree). reflexivity. }
  erewrite command_bind_returned by reflexivity.
  erewrite command_bind_returned by apply seed_basic_app_eq.
  erewrite command_bind_returned by apply seed_ninja_crud_app_eq.
  reflexivity.
Qed.

(** The command on a user table with a [testuser]. *)
Lemma handle_taken (w : World) :
  testuser_taken (auth w) →
  handle today w = (inl basic_models.IntegrityError, w, []).
Proof.
  intros Htaken. unfold handle.
  erewrite command_bind_raised.
  2: { unfold on_auth. rewrite (create_user_taken _ Htaken). reflexivity. }
  by destruct w.
Qed.

(** X18. When no user is called [testuser], the command succeeds: it
    writes its six lines, creates the user under the next id of the user
    table, and seeds both apps. When the user table was fresh, the key the
    last line prints, [supersecret:1], does authenticate, as [testuser]. *)
Theorem handle_seeds_and_prints_a_working_key (w : World) :
  ¬ testuser_taken (auth w) →
  ∃ w',
    handle today w
    = (inr (), w',
       [text "Successfully created testuser";
        text "Creating models for basic Ninja app...";
        text "Successfully created models";
        text "Creating models for the Ninja CRUD app...";
        text "Successfully created models";
        text "Successfully seeded. You can now use authorize using the key 'supersecret:1'"])
    ∧ User_objects (auth w') !! (User_seq (auth w) + 1)
      = Some (User.Build (User_seq (auth w) + 1) (text "testuser"))
    ∧ basic w' = seeded_from today (basic w)
    ∧ ninja_crud w' = ninja_seeded_from today (ninja_crud w)
    ∧ (User_seq (auth w) = 0 →
       ∀ request,
         company_ninja_crud.auth.DummyAuthBearer.authenticate
           company_ninja_crud.auth.decimal (User_objects (auth w')) request
           (text "supersecret:1")
         = inr (company_ninja_crud.auth.Build_HttpRequest
                  (company_ninja_crud.auth.Authenticated (User.Build 1 (text "testuser"))),
                Some (User.Build 1 (text "testuser")))).
Proof.
  intros Hfree. eexists. split; [by apply handle_free|]. simpl.
  split_and!; [apply lookup_insert_eq | done | done |].
  intros Hseq request. rewrite Hseq.
  change (text "supersecret:1") with (text "supersecret" ++ chr ":" :: text "1").
  rewrite (authenticate_secret company_ninja_crud.auth.decimal _ request (text "1") 1).
  - change (0 + 1) with 1. by rewrite lookup_insert_eq.
  - apply (bool_decide_unpack _). by vm_compute.
  - reflexivity.
Qed.

(** X19. The command cannot be run twice: once it has succeeded, running
    it again, on whatever day, raises [IntegrityError] at [create_user],
    before anything is written or seeded, and leaves the world as it
    was. So it never seeds an app a second time. *)
Theorem handle_again_raises (today' : date) (w w1 : World) (out : list str) :
  handle today w = (inr (), w1, out) →
  seed.handle today' w1 = (inl basic_models.IntegrityError, w1, []).
Proof.
  intros Hfirst.
  assert (Htaken1 : testuser_taken (auth w1)).
  { destruct (decide (map_Forall (λ _ u, User.username u ≠ text "testuser")
                        (User_objects (auth w)))) as [Hall|Hsome].
    - assert (Hfree : ¬ testuser_taken (auth w)).
      { intros (pk & u & Hu & Hname). by apply (Hall pk u Hu). }
      rewrite (handle_free w Hfree) in Hfirst. injection Hfirst as <- _.
      exists (User_seq (auth w) + 1), (User.Build (User_seq (auth w) + 1) (text "testuser")).
      split; [apply lookup_insert_eq | done].
    - assert (Htaken : testuser_taken (auth w)).
      { apply map_not_Forall in Hsome; [|apply _].
        destruct Hsome as (pk & u & Hu & Hname). exists pk, u. split; [done|].
        by destruct (decide (User.username u = text "testuser")). }
      by rewrite (handle_taken w Htaken) in Hfirst. }
  unfold handle.
  erewrite command_bind_raised.
  2: { unfold on_auth. rewrite (create_user_taken _ Htaken1). reflexivity. }
  by destruct w1.
Qed.

End seed_facts.

Lemma seed_basic_app_adds_demo_rows_witness :
  ∃ w', seed._seed_basic_app seed_day fresh_world
        = (inr (), w',
           [text "Creating models for basic Ninja app...";
            text "Successfully created models"])
        ∧ seed.tables (seed.basic w') = seeded seed_day.
Proof.
  destruct (seed_basic_app_adds_demo_rows seed_day fresh_world) as (w' & Hrun & _).
  - apply (bool_decide_unpack _). vm_compute. exact I.
  - apply (bool_decide_unpack _). vm_compute. exact I.
  - exists w'. split; [exact Hrun|].
    rewrite seed_basic_app_eq in Hrun. injection Hrun as <-. vm_compute. reflexivity.
Defined.

Lemma handle_seeds_and_prints_a_working_key_witness :
  ∃ w', (seed.handle seed_day fresh_world).1.1 = inr ()
        ∧ (seed.handle seed_day fresh_world).1.2 = w'
        ∧ seed.User_objects (seed.auth w') !! 1 = Some (seed.User.Build 1 (text "testuser")).
Proof.
  destruct (handle_seeds_and_prints_a_working_key seed_day fresh_world)
    as (w' & Hrun & Huser & _).
  - intros (pk & u & Hu & _). vm_compute in Hu. discriminate.
  - exists w'. rewrite Hrun. split_and!; [done | done | exact Huser].
Defined.

Lemma handle_again_raises_witness :
  seed.handle seed_day (seed.handle seed_day fresh_world).1.2
  = (inl company_basic.models.IntegrityError, (seed.handle seed_day fresh_world).1.2, []).
Proof.
  apply (handle_again_raises seed_day seed_day fresh_world _
           (seed.handle seed_day fresh_world).2).
  vm_compute. reflexivity.
Defined.

(** * The invariant along a run of requests *)
Section runs.

Import pydantic company_basic.employee_api.
Context `{Coercions}.
Context `{QueryOrder}.

Lemma database_after_consistent (db : Database) (request : employee_request) :
  consistent db → consistent (database_after db request).
Proof.
  intros Hdb. destruct (views_keep_consistent db Hdb) as (Hcreate & Hget & Hupdate & Hdelete).
  destruct request as [data|id|id data|id]; simpl.
  - unfold POST, validated.
    destruct (EmployeeRequest.model_validate data) as [r|]; [|done].
    rewrite serve_stored. apply Hcreate.
  - unfold GET. rewrite serve_stored. apply Hget.
  - unfold PATCH, validated.
    destruct (EmployeeUpdateRequest.model_validate data) as [r|]; [|done].
    rewrite serve_stored. apply Hupdate.
  - unfold DELETE. specialize (Hdelete id).
    by destruct (returned (delete_employee id db)).
Qed.

(** X5. Consistency is an invariant of the API: whatever requests are
    served, in whatever order and however each ends (201, 200, 204, 404,
    422 or 500), a consistent database stays consistent: rows sit under
    their own ids, ids are not beyond the sequence, department references
    name departments, and join rows name an employee and a project. *)
Theorem requests_keep_the_database_consistent (requests : list employee_request)
    (db : Database) :
  consistent db → consistent (database_after_all requests db).
Proof.
  revert db. induction requests as [|request requests IH]; intros db Hdb; [done|].
  simpl. apply IH. by apply database_after_consistent.
Qed.

End runs.

Lemma requests_keep_the_database_consistent_witness :
  consistent
    (@database_after_all plain_coercions by_primary_key
       [Request_POST {[ "first_name" := JStr (text "Ann"); "last_name" := JStr (text "Lee");
                        "project_ids" := JArr [JNum 9] ]};
        Request_PATCH 2 {[ "project_ids" := JArr [JNum 1; JNum 2] ]};
        Request_DELETE 1;
        Request_GET 1]
       (seeded seed_day)).
Proof.
  apply (@requests_keep_the_database_consistent plain_coercions by_primary_key).
  apply (bool_decide_unpack _). vm_compute. exact I.
Defined.
